(** * unrpyc.py: a shallow embedding of the rpyc archive reader, the
    per-file pipeline, the worker and the driver.

    The Python module is embedded function by function.  Mutable objects
    (the per-file [Context], the file system) are threaded explicitly;
    exceptions are a result type.  Functions of other modules
    ([zlib], [decompiler], [deobfuscate], [decompiler.renpycompat], ...)
    are the fields of the class [Externals]. *)

From Stdlib Require Import ZArith Lia Strings.Byte Ascii String.
From stdpp Require Import base gmap strings list fin_maps pretty sorting.

Local Open Scope string_scope.
Local Open Scope Z_scope.

(** ** Bytes and slices *)

Definition nl : string := String (ascii_of_nat 10) "".
Definition dq : string := String (ascii_of_nat 34) "".

Abbreviation bytes := (list byte).

Definition bytes_of_string (s : string) : bytes := String.list_byte_of_string s.

(** [l[lo:hi]] for the non-negative bounds the module uses: the slice is
    clipped at the end of [l] and empty when [hi <= lo]. *)
Definition py_slice {A} (l : list A) (lo hi : Z) : list A :=
  take (Z.to_nat (hi - lo)) (drop (Z.to_nat lo) l).

Fixpoint startswith (l prefix : bytes) : bool :=
  match prefix, l with
  | [], _ => true
  | p :: prefix', b :: l' => Byte.eqb b p && startswith l' prefix'
  | _ :: _, [] => false
  end.

(** ** [struct.unpack("III", buf)] *)

(** The format has no byte-order prefix, so the host's native order is
    used; both are modelled. *)
Inductive byteorder := LittleEndian | BigEndian.

Definition byte_val (b : byte) : Z := Z.of_N (Byte.to_N b).

Definition unpack_I (bo : byteorder) (b0 b1 b2 b3 : byte) : Z :=
  match bo with
  | LittleEndian =>
      byte_val b0 + 256 * (byte_val b1 + 256 * (byte_val b2 + 256 * byte_val b3))
  | BigEndian =>
      byte_val b3 + 256 * (byte_val b2 + 256 * (byte_val b1 + 256 * byte_val b0))
  end.

(** ** Exceptions *)

(** Instances of [Exception]: the module's own [BadRpycException] and
    every other class, named ([TypeError], [struct.error], ...). *)
Inductive exn :=
| BadRpycException (msg : string) (detail : bytes)
| OtherException (cls : string) (msg : string).

Definition is_BadRpycException (e : exn) : bool :=
  match e with BadRpycException _ _ => true | OtherException _ _ => false end.

Inductive res (A : Type) :=
| Ok (a : A)
| Raise (e : exn).
Arguments Ok {A} a.
Arguments Raise {A} e.

Definition struct_error : exn :=
  OtherException "struct.error" "unpack requires a buffer of 12 bytes".

Definition struct_unpack_III (bo : byteorder) (buf : bytes) : res (Z * Z * Z) :=
  match buf with
  | [a0; a1; a2; a3; b0; b1; b2; b3; c0; c1; c2; c3] =>
      Ok (unpack_I bo a0 a1 a2 a3, unpack_I bo b0 b1 b2 b3, unpack_I bo c0 c1 c2 c3)
  | _ => Raise struct_error
  end.

(** ** class Context *)

Inductive State := ok | fail | skip | spoofed.

#[global] Instance State_eq_dec : EqDecision State.
Proof. solve_decision. Defined.

(** [value] is what the worker stores with [set_result]: [None] after a
    decompilation, the pair [(pickled dialogue, strings)] after a
    translation extraction. *)
Record Context := {
  log_contents : list string;
  state : option State;
  value : option (bytes * gmap string string)
}.

Definition Context_init : Context :=
  {| log_contents := []; state := None; value := None |}.

Definition ctx_log (message : string) (c : Context) : Context :=
  {| log_contents := log_contents c ++ [message];
     state := state c; value := value c |}.

Definition ctx_set_state (s : State) (c : Context) : Context :=
  {| log_contents := log_contents c; state := Some s; value := value c |}.

Definition ctx_set_result (v : option (bytes * gmap string string)) (c : Context) : Context :=
  {| log_contents := log_contents c; state := state c; value := v |}.

(** ** State and exceptions threaded through the code *)

Definition M (S A : Type) : Type := S -> res A * S.

Definition ret {S A} (a : A) : M S A := fun s => (Ok a, s).
Definition raise {S A} (e : exn) : M S A := fun s => (Raise e, s).
Definition bind {S A B} (m : M S A) (k : A -> M S B) : M S B :=
  fun s => match m s with
           | (Ok a, s') => k a s'
           | (Raise e, s') => (Raise e, s')
           end.
Definition modify {S} (f : S -> S) : M S unit := fun s => (Ok tt, f s).
Definition lift_res {S A} (r : res A) : M S A := fun s => (r, s).

Notation "x <- c ;; k" := (bind c (fun x => k))
  (at level 100, c at next level, right associativity).
Notation "c ;;; k" := (bind c (fun _ => k))
  (at level 100, right associativity).

(** ** The file system and what the run does to it *)

Inductive executor := CallingThread | PoolProcess.

Inductive event :=
| EvExists (p : string)
| EvOpenRead (p : string)
| EvOpenWrite (p : string)
| EvStat (p : string)
| EvPool (processes : Z)
| EvWorker (where_ : executor) (p : string)
| EvPrint (line : string).

(** Paths are resolved POSIX path strings; [files] holds the regular
    files and their content, one file for each path: links, through
    which what is written under one path shows under another, are not
    part of the disk. *)
Record world := {
  files : gmap string bytes;
  trace : list event
}.

Definition emit (ev : event) (w : world) : world :=
  {| files := files w; trace := trace w ++ [ev] |}.

Definition path_exists (p : string) : M world bool :=
  fun w => (Ok (bool_decide (is_Some (files w !! p))), emit (EvExists p) w).

Definition open_rb (p : string) : M world bytes :=
  fun w => match files w !! p with
           | Some content => (Ok content, emit (EvOpenRead p) w)
           | None => (Raise (OtherException "FileNotFoundError" p), emit (EvOpenRead p) w)
           end.

(** Opening for writing truncates or creates the file; what is written
    before the [with] block is left replaces the content. *)
Definition open_write (p : string) (written : bytes) : M world unit :=
  fun w => (Ok tt, {| files := <[p := written]> (files w);
                      trace := trace w ++ [EvOpenWrite p] |}).

Definition print (line : string) : M world unit :=
  modify (emit (EvPrint line)).

(** ** pathlib: [name], [suffix], [with_suffix] *)

Fixpoint rfind (c : ascii) (s : string) : option nat :=
  match s with
  | EmptyString => None
  | String a s' =>
      match rfind c s' with
      | Some i => Some (S i)
      | None => if Ascii.eqb a c then Some 0%nat else None
      end
  end.

Definition path_name (p : string) : string :=
  match rfind "/" p with
  | Some i => String.substring (S i) (String.length p - S i) p
  | None => p
  end.

Definition path_suffix (p : string) : string :=
  let name := path_name p in
  match rfind "." name with
  | Some i =>
      if (0 <? i)%nat && (S i <? String.length name)%nat
      then String.substring i (String.length name - i) name
      else ""
  | None => ""
  end.

Definition with_suffix (p ext : string) : res string :=
  if String.eqb (path_name p) "" then
    Raise (OtherException "ValueError" "has an empty name")
  else
    Ok (String.substring 0 (String.length p - String.length (path_suffix p)) p ++ ext).

(** ** Other modules *)

Inductive amount := AmountMany | AmountInt (n : Z).

(** [args.sl_custom_names]: absent, the strings of the command line, or
    the dict [main] replaces them with. *)
Inductive sl_names :=
| SlNone
| SlUnparsed (arguments : list string)
| SlParsed (names : gmap string (string * amount)).

Record Translator {entry : Type} := {
  tr_language : option string;
  tr_dialogue : gmap string entry;
  tr_strings : gmap string string
}.
Arguments Translator : clear implicits.

(** [decompiler.Options] as [decompile_rpyc] builds it.  [opt_log] is
    the context's own list: lines the decompiler appends land in it. *)
Record Options {entry : Type} := {
  opt_log : list string;
  opt_translator : option (Translator entry);
  opt_init_offset : bool;
  opt_sl_custom_names : sl_names
}.
Arguments Options : clear implicits.

(** What a pretty-printer did to the open output file: the bytes it
    wrote, the lines it logged and the exception it ended with, if any. *)
Record printed := {
  pp_written : bytes;
  pp_logged : list string;
  pp_raised : option exn
}.

#[warnings="-register-all"]
Inductive fsentry :=
| FsFile (p : string)
| FsDir (items : list fsentry)
| FsOther.

Class Externals (ast entry : Type) := {
  (** host byte order of [struct.unpack("III", _)] *)
  native_order : byteorder;
  (** [zlib.decompress]; [None] when it raises *)
  zlib_decompress : bytes -> option bytes;
  (** [decompiler.renpycompat]: [pickle_detect_python2] is a pure
      predicate over the inflated bytes, as the specification has it;
      [pickle_safe_loads] comes with the tuple unpacking
      [_, stmts = ...] done on its result *)
  pickle_detect_python2 : bytes -> bool;
  pickle_safe_loads : bytes -> res (ast * ast);
  pickle_safe_dumps : gmap string entry -> bytes;
  pickle_safe_dump : option string * gmap string entry * gmap string string -> bytes;
  pickle_loads_dialogue : bytes -> res (gmap string entry);
  pickle_loads_translations : bytes -> res (Translator entry);
  (** [deobfuscate.read_ast(in_file, context)] *)
  deobfuscate_read_ast : bytes -> M Context ast;
  (** [astdump.pprint] and [decompiler.pprint] *)
  astdump_pprint : ast -> bool -> bool -> bytes * option exn;
  decompiler_pprint : ast -> Options entry -> printed;
  (** [translate.Translator(language, True).translate_dialogue(ast)],
      giving the translator's [dialogue] and [strings] *)
  translate_dialogue : option string -> ast -> res (gmap string entry * gmap string string);
  (** [traceback.format_exc()] inside a handler *)
  format_exc : exn -> string;
  (** [glob.glob(inpath, recursive=True)], each match resolved to what
      it names on disk *)
  glob_resolve : string -> list fsentry
}.

Section Unrpyc.
Context {ast entry : Type} {E : Externals ast entry}.

Definition log (message : string) : M Context unit := modify (ctx_log message).

(** ** read_ast_from_file *)

Definition magic : bytes := bytes_of_string "RENPY RPC2".

Definition slot_warning : string :=
  "Warning: Encountered an unexpected slot structure. It is possible the " ++ nl ++
  "    file header structure has been changed.".

Definition version_warning (version : string) : string :=
  "Warning: analysis found signs that this .rpyc file was generated by ren'py " ++ nl ++
  "    version " ++ version ++ " or below, while this unrpyc version targets ren'py " ++ nl ++
  "    version 8. Decompilation will still be attempted, but errors or incorrect " ++ nl ++
  "    decompilation might occur. ".

Definition no_slot_error (l1_start : bytes) : exn :=
  BadRpycException
    ("Unable to find the right slot to load from the rpyc file. The file header " ++
     "structure has been changed." ++ "File header:") l1_start.

Definition no_zlib_error : exn :=
  BadRpycException
    ("Did not find a zlib compressed blob where it was expected. Either the header has been " ++
     "modified or the file structure has been changed.") [].

(** The [for expected_slot in range(1, 0xFFFFFFFF)] loop.  [rest] is
    [raw_contents[position:]]: taking a 12-byte record off its front is
    [raw_contents[position: position + 12]] followed by
    [position += 12]; fewer than 12 bytes left make [struct.unpack] raise. *)
Fixpoint slot_loop (raw_contents rest : bytes) (expected_slot : Z)
    (chunks : gmap Z bytes) (have_errored : bool) : M Context (gmap Z bytes) :=
  if 0xFFFFFFFF <=? expected_slot then ret chunks
  else
    match rest with
    | a0 :: a1 :: a2 :: a3 :: b0 :: b1 :: b2 :: b3 :: c0 :: c1 :: c2 :: c3 :: rest' =>
        x <- lift_res (struct_unpack_III native_order
                         [a0; a1; a2; a3; b0; b1; b2; b3; c0; c1; c2; c3]) ;;
        let '(slot, start, length) := x in
        if slot =? 0 then ret chunks
        else
          let warn := negb (slot =? expected_slot) && negb have_errored in
          (if warn then log slot_warning else ret tt) ;;;
          slot_loop raw_contents rest' (expected_slot + 1)
            (<[slot := py_slice raw_contents start (start + length)]> chunks)
            (have_errored || warn)
    | _ => lift_res (A := Z * Z * Z) (struct_unpack_III native_order rest) ;;; ret chunks
    end.

(** Everything after the container is parsed: inflate, the legacy
    warning, the safe unpickling. *)
Definition load_contents (is_rpyc_v1 : bool) (contents : bytes) : M Context ast :=
  contents <- match zlib_decompress contents with
              | Some inflated => ret inflated
              | None => raise no_zlib_error
              end ;;
  (if is_rpyc_v1 || pickle_detect_python2 contents then
     let version := if is_rpyc_v1 then "6" else "7" in
     log (version_warning version)
   else ret tt) ;;;
  x <- lift_res (pickle_safe_loads contents) ;;
  let '(_, stmts) := x in
  ret stmts.

(** The [if]/[else] on the header: the blob and [is_rpyc_v1]. *)
Definition archive_blob (raw_contents : bytes) : M Context (bytes * bool) :=
  let l1_start := py_slice raw_contents 0 50 in
  if negb (startswith raw_contents magic) then
    ret (raw_contents, true)
  else
    chunks <- slot_loop raw_contents (drop 10 raw_contents) 1 ∅ false ;;
    match chunks !! 1 with
    | None => raise (no_slot_error l1_start)
    | Some contents => ret (contents, false)
    end.

Definition read_ast_from_file (raw_contents : bytes) : M Context ast :=
  x <- archive_blob raw_contents ;;
  let '(contents, is_rpyc_v1) := x in
  load_contents is_rpyc_v1 contents.

(** ** decompile_rpyc *)

Definition in_ctx {A} (m : M Context A) : M (Context * world) A :=
  fun s => let '(r, c') := m (fst s) in (r, (c', snd s)).

Definition in_world {A} (m : M world A) : M (Context * world) A :=
  fun s => let '(r, w') := m (snd s) in (r, (fst s, w')).

Definition get_ctx : M (Context * world) Context := fun s => (Ok (fst s), s).

Definition set_state (s : State) : M (Context * world) unit :=
  in_ctx (modify (ctx_set_state s)).

Definition unbound_ext : exn :=
  OtherException "UnboundLocalError"
    "local variable 'ext' referenced before assignment".

Definition after_pprint (raised : option exn) : M (Context * world) unit :=
  match raised with
  | Some e => raise e
  | None => ret tt
  end.

(** The output filename: the input filename with the extension of the
    mode.  With no branch taken [ext] is unbound where it is used. *)
Definition output_path (input_filename : string) (dump : bool) : res string :=
  match (if dump then Ok ".txt"
         else if String.eqb (path_suffix input_filename) ".rpyc" then Ok ".rpy"
         else if String.eqb (path_suffix input_filename) ".rpymc" then Ok ".rpym"
         else Raise unbound_ext) with
  | Ok ext => with_suffix input_filename ext
  | Raise e => Raise e
  end.

(** The [with out_filename.open('w', encoding='utf-8') as out_file]
    block. *)
Definition write_output (out_filename : string) (ast_ : ast)
    (dump comparable no_pyexpr : bool) (translator : option (Translator entry))
    (init_offset : bool) (sl_custom_names : sl_names) : M (Context * world) unit :=
  if dump then
    let '(written, raised) := astdump_pprint ast_ comparable no_pyexpr in
    in_world (open_write out_filename written) ;;;
    after_pprint raised
  else
    context <- get_ctx ;;
    let options := {| opt_log := log_contents context;
                      opt_translator := translator;
                      opt_init_offset := init_offset;
                      opt_sl_custom_names := sl_custom_names |} in
    let p := decompiler_pprint ast_ options in
    in_world (open_write out_filename (pp_written p)) ;;;
    in_ctx (modify (fun c => fold_left (fun c line => ctx_log line c) (pp_logged p) c)) ;;;
    after_pprint (pp_raised p).

Definition decompile_rpyc (input_filename : string)
    (overwrite try_harder dump comparable no_pyexpr : bool)
    (translator : option (Translator entry)) (init_offset : bool)
    (sl_custom_names : sl_names) : M (Context * world) unit :=
  out_filename <- lift_res (output_path input_filename dump) ;;
  in_ctx (log ("Decompiling " ++ input_filename ++ " to "
               ++ path_name out_filename ++ "...")) ;;;
  target_exists <- (if negb overwrite then in_world (path_exists out_filename)
                    else ret false) ;;
  if target_exists then
    in_ctx (log "Target file exists already! Skipping.") ;;;
    set_state skip
  else
    in_file <- in_world (open_rb input_filename) ;;
    ast_ <- in_ctx (if try_harder then deobfuscate_read_ast in_file
                    else read_ast_from_file in_file) ;;
    write_output out_filename ast_ dump comparable no_pyexpr translator
      init_offset sl_custom_names ;;;
    set_state ok.

(** ** extract_translations *)

(** Calling a function without one of its required positional
    arguments raises before its body runs. *)
Definition missing_context : exn :=
  OtherException "TypeError"
    "read_ast_from_file() missing 1 required positional argument: 'context'".

Definition extract_translations (input_filename : string) (language : option string)
    : M (Context * world) (bytes * gmap string string) :=
  in_ctx (log ("Extracting translations from " ++ input_filename ++ "...")) ;;;
  in_file <- in_world (open_rb input_filename) ;;
  ast <- raise (A := ast) missing_context ;;
  x <- lift_res (translate_dialogue language ast) ;;
  let '(dialogue, strings) := x in
  ret (pickle_safe_dumps dialogue, strings).

(** ** worker *)

Record Args := {
  file : list string;
  clobber : bool;
  try_harder : bool;
  dump : bool;
  processes : Z;
  translation_file : option string;
  write_translation_file : option string;
  language : option string;
  comparable : bool;
  no_pyexpr : bool;
  init_offset : bool;
  sl_custom_names : sl_names;
  (** set by [main] when [translation_file] is given *)
  translations : option bytes
}.

Definition no_translations : exn :=
  OtherException "AttributeError" "'Namespace' object has no attribute 'translations'".

(** The translator handed to [decompile_rpyc]. *)
Definition load_translator (args : Args) : res (option (Translator entry)) :=
  match translation_file args with
  | Some _ =>
      match translations args with
      | Some blob =>
          match pickle_loads_translations blob with
          | Ok translator => Ok (Some translator)
          | Raise e => Raise e
          end
      | None => Raise no_translations
      end
  | None => Ok None
  end.

Definition worker_body (args : Args) (filename : string)
    : M (Context * world) (option (bytes * gmap string string)) :=
  if bool_decide (is_Some (write_translation_file args)) then
    result <- extract_translations filename (language args) ;;
    ret (Some result)
  else
    translator <- lift_res (load_translator args) ;;
    decompile_rpyc filename (clobber args) (try_harder args) (dump args)
      (comparable args) (no_pyexpr args) translator (init_offset args)
      (sl_custom_names args) ;;;
    ret None.

(** The [try] statement of [worker]: the first [except] clause whose
    class the exception is an instance of handles it. *)
Definition worker (args : Args) (filename : string) : M world Context :=
  fun w =>
    match worker_body args filename (Context_init, w) with
    | (Ok result, (context, w')) => (Ok (ctx_set_result result context), w')
    | (Raise e, (context, w')) =>
        if is_BadRpycException e then
          (Ok (ctx_log (format_exc e)
                 (ctx_log ("Error while trying to read the header of " ++ filename ++ ":")
                    (ctx_set_state spoofed context))), w')
        else
          (Ok (ctx_log (format_exc e)
                 (ctx_log ("Error while decompiling " ++ filename ++ ":")
                    (ctx_set_state fail context))), w')
    end.

(** ** parse_sl_custom_names *)

(** [s.split(sep)] for a one-character separator. *)
Fixpoint split_on (sep : ascii) (s : string) : list string :=
  match s with
  | EmptyString => [""]
  | String a s' =>
      let parts := split_on sep s' in
      if Ascii.eqb a sep then "" :: parts
      else match parts with
           | part :: parts' => String a part :: parts'
           | [] => [String a ""]
           end
  end.

Definition bad_format (argument : string) : exn :=
  OtherException "Exception"
    ("Bad format in custom sl displayable registration: " ++ dq ++ argument ++ dq).

Definition bad_count (argument : string) : exn :=
  OtherException "Exception"
    ("Bad child node count in custom sl displayable registration: " ++ dq ++ argument ++ dq).

Definition parse_sl_custom_name (argument : string)
    : res (string * (string * amount)) :=
  match split_on "=" argument with
  | [classname; name] =>
      match split_on "-" name with
      | [_] => Ok (classname, (name, AmountMany))
      | [name; amount] =>
          if String.eqb amount "0" then Ok (classname, (name, AmountInt 0))
          else if String.eqb amount "1" then Ok (classname, (name, AmountInt 1))
          else if String.eqb amount "many" then Ok (classname, (name, AmountMany))
          else Raise (bad_count argument)
      | _ => Raise (bad_format argument)
      end
  | _ => Raise (bad_format argument)
  end.

Fixpoint parse_sl_custom_names_loop (unparsed_arguments : list string)
    (parsed_arguments : gmap string (string * amount))
    : res (gmap string (string * amount)) :=
  match unparsed_arguments with
  | [] => Ok parsed_arguments
  | argument :: unparsed_arguments' =>
      match parse_sl_custom_name argument with
      | Ok (classname, entry_) =>
          parse_sl_custom_names_loop unparsed_arguments'
            (<[classname := entry_]> parsed_arguments)
      | Raise e => Raise e
      end
  end.

Definition parse_sl_custom_names (unparsed_arguments : list string)
    : res (gmap string (string * amount)) :=
  parse_sl_custom_names_loop unparsed_arguments ∅.

(** ** main: the worklist *)

Definition glob_or_complain (inpath : string) : M world (list fsentry) :=
  let retval := glob_resolve inpath in
  (if bool_decide (retval = []) then print ("Input path not found: " ++ inpath)
   else ret tt) ;;;
  ret retval.

Fixpoint traverse (inpath : fsentry) : list string :=
  match inpath with
  | FsFile p =>
      if String.eqb (path_suffix p) ".rpyc" || String.eqb (path_suffix p) ".rpymc"
      then [p] else []
  | FsDir items => flat_map traverse items
  | FsOther => []
  end.

Fixpoint collect_worklist (entries : list string) (worklist : list string)
    : M world (list string) :=
  match entries with
  | [] => ret worklist
  | entry_ :: entries' =>
      globitems <- glob_or_complain entry_ ;;
      collect_worklist entries' (worklist ++ flat_map traverse globitems)
  end.

(** [x.stat().st_size] *)
Definition stat_size (p : string) : M world Z :=
  fun w => match files w !! p with
           | Some content => (Ok (Z.of_nat (length content)), emit (EvStat p) w)
           | None => (Raise (OtherException "FileNotFoundError" p), emit (EvStat p) w)
           end.

Fixpoint stat_all (worklist : list string) : M world (list (Z * string)) :=
  match worklist with
  | [] => ret []
  | x :: worklist' =>
      size <- stat_size x ;;
      keyed <- stat_all worklist' ;;
      ret ((size, x) :: keyed)
  end.

(** [list.sort(key=..., reverse=True)]: descending and stable. *)
Fixpoint insert_desc (kx : Z * string) (sorted : list (Z * string))
    : list (Z * string) :=
  match sorted with
  | [] => [kx]
  | ky :: sorted' =>
      if fst ky <=? fst kx then kx :: ky :: sorted'
      else ky :: insert_desc kx sorted'
  end.

Definition sort_by_size (keyed : list (Z * string)) : list string :=
  map snd (fold_right insert_desc [] keyed).

(** ** main: dispatch, merge, summary *)

(** [for result in map(worker, worklist)] and
    [for result in pool.imap(worker, worklist, 1)]: both hand the
    results back in the order of [worklist]. *)
Fixpoint run_workers (where_ : executor) (args : Args) (worklist : list string)
    : M world (list Context) :=
  match worklist with
  | [] => ret []
  | x :: worklist' =>
      modify (emit (EvWorker where_ x)) ;;;
      result <- worker args x ;;
      results <- run_workers where_ args worklist' ;;
      ret (result :: results)
  end.

Definition dispatch (args : Args) (worklist : list string) : M world (list Context) :=
  if (1 <? processes args) && (5 <? Z.of_nat (length worklist)) then
    modify (emit (EvPool (processes args))) ;;;
    run_workers PoolProcess args worklist
  else
    run_workers CallingThread args worklist.

(** [d.update(other)] *)
Definition dict_update {V} (d other : gmap string V) : gmap string V := other ∪ d.

Fixpoint merge_translations (results : list Context)
    (translated_dialogue : gmap string entry)
    (translated_strings : gmap string string)
    : res (gmap string entry * gmap string string) :=
  match results with
  | [] => Ok (translated_dialogue, translated_strings)
  | result :: results' =>
      match value result with
      | None => merge_translations results' translated_dialogue translated_strings
      | Some (pickled, strings) =>
          match pickle_loads_dialogue pickled with
          | Ok dialogue =>
              merge_translations results'
                (dict_update translated_dialogue dialogue)
                (dict_update translated_strings strings)
          | Raise e => Raise e
          end
      end
  end.

Definition write_translations (args : Args) (out : string) (results : list Context)
    : M world unit :=
  print ("Writing translations to " ++ out ++ "...") ;;;
  merged <- lift_res (merge_translations results ∅ ∅) ;;
  open_write out (pickle_safe_dump (language args, fst merged, snd merged)).

Record SummaryCounts := {
  total : Z;
  count_ok : Z;
  count_fail : Z;
  count_skip : Z;
  count_spoofed : Z
}.

Definition count_state (s : State) (c : SummaryCounts) : SummaryCounts :=
  match s with
  | ok => {| total := total c; count_ok := count_ok c + 1; count_fail := count_fail c;
             count_skip := count_skip c; count_spoofed := count_spoofed c |}
  | fail => {| total := total c; count_ok := count_ok c; count_fail := count_fail c + 1;
               count_skip := count_skip c; count_spoofed := count_spoofed c |}
  | skip => {| total := total c; count_ok := count_ok c; count_fail := count_fail c;
               count_skip := count_skip c + 1; count_spoofed := count_spoofed c |}
  | spoofed => {| total := total c; count_ok := count_ok c; count_fail := count_fail c;
                  count_skip := count_skip c; count_spoofed := count_spoofed c + 1 |}
  end.

Fixpoint print_all (lines : list string) : M world unit :=
  match lines with
  | [] => ret tt
  | line :: lines' => print line ;;; print_all lines'
  end.

Fixpoint tally (results : list Context) (state_count : SummaryCounts)
    : M world SummaryCounts :=
  match results with
  | [] => ret state_count
  | res_inst :: results' =>
      state_count <- match state res_inst with
                     | Some s => ret (count_state s state_count)
                     | None => raise (OtherException "KeyError" "None")
                     end ;;
      print_all (log_contents res_inst) ;;;
      tally results' state_count
  end.

(** [s[:stop]] on a string: a negative [stop] counts from the end. *)
Definition str_prefix (s : string) (stop : Z) : string :=
  let len := Z.of_nat (String.length s) in
  String.substring 0 (Z.to_nat (if stop <? 0 then len + stop else stop)) s.

Definition plural_fmt (inp : Z) : string :=
  pretty inp ++ " file" ++ str_prefix "s" (Z.lxor inp 1).

Definition endreport (c : SummaryCounts) : string :=
  nl ++ "This decompile run of Unrpyc has the following outcome:" ++ nl ++
  "-------------------------------------------------------" ++ nl ++
  "  A total of " ++ plural_fmt (total c) ++ " to decompile where found." ++ nl ++
  "  > " ++ plural_fmt (count_ok c) ++ " could be successful decompiled." ++ nl ++
  "  > " ++ plural_fmt (count_fail c) ++ " failed due to diverse errors." ++ nl ++
  "  > " ++ plural_fmt (count_spoofed c) ++ " with wrong header or other manipulation." ++ nl ++
  "  > " ++ plural_fmt (count_skip c) ++ " already exist and have been skipped." ++ nl.

Definition report (c : SummaryCounts) : string :=
  let skipped := if count_skip c =? 0 then ""
                 else "To overwrite existing files use option '--clobber'. " in
  let spoofed_ := if count_spoofed c =? 0 then ""
                  else "In case of manipulation, the --try-harder option can be attempted." in
  let errors := if count_fail c =? 0 then ""
                else "Errors were found. Check the exceptions in the log for more info about this." in
  endreport c ++ " " ++ skipped ++ " " ++ spoofed_ ++ " " ++ errors.

(** ** main, from [args = ap.parse_args()] on *)

(** [ap.error(message)] ends the process with status 2. *)
Inductive main_exit :=
| ArgumentError (message : string)
| Returned.

Definition error_needs_dump : string :=
  "Arguments 'comparable' and 'no_pyexpr' are not usable without 'dump'.".
Definition error_translation_mix : string :=
  "Arguments 'try_harder' and/or 'dump' are not usable with the translation feature.".
Definition error_translation_exists : string :=
  "Output translation file already exists. Pass --clobber to overwrite.".

Definition truthy (s : option string) : bool :=
  match s with
  | Some s => negb (String.eqb s "")
  | None => false
  end.

Definition with_translations (args : Args) (blob : bytes) : Args :=
  {| file := file args; clobber := clobber args; try_harder := try_harder args;
     dump := dump args; processes := processes args;
     translation_file := translation_file args;
     write_translation_file := write_translation_file args;
     language := language args; comparable := comparable args;
     no_pyexpr := no_pyexpr args; init_offset := init_offset args;
     sl_custom_names := sl_custom_names args; translations := Some blob |}.

Definition with_sl_custom_names (args : Args) (names : gmap string (string * amount))
    : Args :=
  {| file := file args; clobber := clobber args; try_harder := try_harder args;
     dump := dump args; processes := processes args;
     translation_file := translation_file args;
     write_translation_file := write_translation_file args;
     language := language args; comparable := comparable args;
     no_pyexpr := no_pyexpr args; init_offset := init_offset args;
     sl_custom_names := SlParsed names; translations := translations args |}.

Definition state_count_init : SummaryCounts :=
  {| total := 0; count_ok := 0; count_fail := 0; count_skip := 0; count_spoofed := 0 |}.

Definition with_total (c : SummaryCounts) (n : Z) : SummaryCounts :=
  {| total := n; count_ok := count_ok c; count_fail := count_fail c;
     count_skip := count_skip c; count_spoofed := count_spoofed c |}.

(** From the worklist on: sort, dispatch, merge, summary. *)
Definition process_worklist (args : Args) (worklist : list string)
    (state_count : SummaryCounts) : M world main_exit :=
  if bool_decide (worklist = []) then
    print "Found no script files to decompile." ;;;
    ret Returned
  else
    let state_count := with_total state_count (Z.of_nat (length worklist)) in
    keyed <- stat_all worklist ;;
    let worklist := sort_by_size keyed in
    results <- dispatch args worklist ;;
    (match write_translation_file args with
     | Some out => write_translations args out results
     | None => ret tt
     end) ;;;
    state_count <- tally results state_count ;;
    print (report state_count) ;;;
    ret Returned.

Definition main (args : Args) : M world main_exit :=
  let state_count := state_count_init in
  if (no_pyexpr args || comparable args) && negb (dump args) then
    ret (ArgumentError error_needs_dump)
  else if (try_harder args || dump args)
          && (bool_decide (is_Some (write_translation_file args))
              || bool_decide (is_Some (translation_file args))
              || truthy (language args)) then
    ret (ArgumentError error_translation_mix)
  else
    already <- match write_translation_file args with
               | Some out => if negb (clobber args) then path_exists out else ret false
               | None => ret false
               end ;;
    if already then ret (ArgumentError error_translation_exists)
    else
      args <- match translation_file args with
              | Some p => blob <- open_rb p ;; ret (with_translations args blob)
              | None => ret args
              end ;;
      let parsed :=
        match sl_custom_names args with
        | SlNone => Ok args
        | SlUnparsed unparsed => 
            match parse_sl_custom_names unparsed with
            | Ok names => Ok (with_sl_custom_names args names)
            | Raise e => Raise e
            end
        | SlParsed names => Ok args  (* not a value [parse_args] produces *)
        end in
      match parsed with
      | Raise (OtherException _ msg) | Raise (BadRpycException msg _) =>
          print msg ;;;
          ret Returned
      | Ok args =>
          worklist <- collect_worklist (file args) [] ;;
          process_worklist args worklist state_count
      end.

End Unrpyc.

(** ** Sample collaborators and files

    Small versions of the other modules, used to run the embedding on
    concrete files.  They do what the real ones do on the files below:
    [inflate] decodes zlib streams made of stored blocks and checks their
    Adler-32, [unpickle] runs the pickle opcodes PROTO, NONE, EMPTY_LIST,
    EMPTY_TUPLE, BINPUT, TUPLE2 and STOP.  Anything else is rejected. *)
Module Sample.

Definition byte_of_Z (n : Z) : byte :=
  match Byte.of_N (Z.to_N (n mod 256)) with
  | Some b => b
  | None => x00
  end.

Definition adler32 (data : bytes) : Z :=
  let '(a, b) :=
    fold_left (fun ab x => let a := (fst ab + byte_val x) mod 65521 in
                           (a, (snd ab + a) mod 65521))
              data (1, 0) in
  b * 65536 + a.

(** The deflate blocks of a stream of stored blocks: the inflated bytes
    and what follows the final block. *)
Fixpoint stored_blocks (fuel : nat) (data inflated : bytes) : option (bytes * bytes) :=
  match fuel, data with
  | S fuel', header :: l0 :: l1 :: n0 :: n1 :: data' =>
      let len := byte_val l0 + 256 * byte_val l1 in
      let nlen := byte_val n0 + 256 * byte_val n1 in
      if (Z.land (byte_val header) 6 =? 0) && (len + nlen =? 65535)
         && (len <=? Z.of_nat (length data')) then
        let inflated := (inflated ++ take (Z.to_nat len) data')%list in
        if Z.land (byte_val header) 1 =? 1
        then Some (inflated, drop (Z.to_nat len) data')
        else stored_blocks fuel' (drop (Z.to_nat len) data') inflated
      else None
  | _, _ => None
  end.

Definition inflate (blob : bytes) : option bytes :=
  match blob with
  | cmf :: flg :: data =>
      if (Z.land (byte_val cmf) 15 =? 8) && (byte_val cmf <? 128)
         && ((256 * byte_val cmf + byte_val flg) mod 31 =? 0)
         && (Z.land (byte_val flg) 32 =? 0) then
        match stored_blocks (length data) data [] with
        | Some (inflated, [a0; a1; a2; a3]) =>
            if unpack_I BigEndian a0 a1 a2 a3 =? adler32 inflated
            then Some inflated else None
        | _ => None
        end
      else None
  | _ => None
  end.

(** [zlib.compress(payload, 0)] for a payload below 64 KiB. *)
Definition deflate_stored (payload : bytes) : bytes :=
  let len := Z.of_nat (length payload) in
  let sum := adler32 payload in
  [x78; x01; x01; byte_of_Z len; byte_of_Z (len / 256);
   byte_of_Z (255 - len mod 256); byte_of_Z (255 - len / 256)]
  ++ payload
  ++ [byte_of_Z (sum / 16777216); byte_of_Z (sum / 65536);
      byte_of_Z (sum / 256); byte_of_Z sum].

#[warnings="-register-all"]
Inductive pyval :=
| PyNone
| PyList (items : list pyval)
| PyTuple (items : list pyval).

Definition invalid_load_key : exn :=
  OtherException "pickle.UnpicklingError" "invalid load key".
Definition stack_underflow : exn :=
  OtherException "pickle.UnpicklingError" "unpickling stack underflow".
Definition ran_out_of_input : exn :=
  OtherException "EOFError" "Ran out of input".

Fixpoint unpickle (code : bytes) (stack : list pyval) : res pyval :=
  match code with
  | [] => Raise ran_out_of_input
  | x80 :: _ :: code' => unpickle code' stack
  | x4e :: code' => unpickle code' (PyNone :: stack)
  | x5d :: code' => unpickle code' (PyList [] :: stack)
  | x29 :: code' => unpickle code' (PyTuple [] :: stack)
  | x71 :: _ :: code' => unpickle code' stack
  | x86 :: code' =>
      match stack with
      | b :: a :: stack' => unpickle code' (PyTuple [a; b] :: stack')
      | _ => Raise stack_underflow
      end
  | x2e :: _ =>
      match stack with
      | top :: _ => Ok top
      | [] => Raise stack_underflow
      end
  | _ => Raise invalid_load_key
  end.

(** [_, stmts = pickle_safe_loads(contents)] *)
Definition safe_loads (payload : bytes) : res (pyval * pyval) :=
  match unpickle payload [] with
  | Ok (PyTuple [data; stmts]) | Ok (PyList [data; stmts]) => Ok (data, stmts)
  | Ok (PyTuple _) | Ok (PyList _) =>
      Raise (OtherException "ValueError" "wrong number of values to unpack")
  | Ok PyNone =>
      Raise (OtherException "TypeError" "cannot unpack non-iterable NoneType object")
  | Raise e => Raise e
  end.

(** Three pickled dialogue dicts, by name. *)
Definition loads_dialogue (pickled : bytes) : res (gmap string string) :=
  match pickled with
  | [x01] => Ok {[ "k1" := "a" ]}
  | [x02] => Ok {[ "k2" := "b" ]}
  | [x03] => Ok {[ "k1" := "c" ]}
  | _ => Raise invalid_load_key
  end.

(** The last line of the traceback. *)
Definition show_exc (e : exn) : string :=
  match e with
  | BadRpycException msg _ => "BadRpycException: " ++ msg
  | OtherException cls msg => cls ++ ": " ++ msg
  end.

#[export] Instance externals : Externals pyval string := {|
  native_order := LittleEndian;
  zlib_decompress := inflate;
  pickle_detect_python2 := fun _ => false;
  pickle_safe_loads := safe_loads;
  pickle_safe_dumps := fun _ => [x01];
  pickle_safe_dump := fun _ => [x80];
  pickle_loads_dialogue := loads_dialogue;
  pickle_loads_translations := fun _ => Raise invalid_load_key;
  deobfuscate_read_ast := fun in_file => raise invalid_load_key;
  astdump_pprint := fun _ _ _ => ([], None);
  decompiler_pprint := fun _ _ =>
    {| pp_written := []; pp_logged := []; pp_raised := None |};
  translate_dialogue := fun _ _ => Ok (∅, ∅);
  format_exc := show_exc;
  glob_resolve := fun inpath => [FsFile inpath]
|}.

Definition u32 (n : N) : bytes :=
  match Byte.of_N (n mod 256), Byte.of_N (n / 256 mod 256),
        Byte.of_N (n / 65536 mod 256), Byte.of_N (n / 16777216 mod 256) with
  | Some b0, Some b1, Some b2, Some b3 => [b0; b1; b2; b3]
  | _, _, _, _ => []
  end.

Definition record (slot start length : N) : bytes :=
  u32 slot ++ u32 start ++ u32 length.

Definition args0 : Args := {|
  file := []; clobber := false; try_harder := false; dump := false;
  processes := 1; translation_file := None; write_translation_file := None;
  language := None; comparable := false; no_pyexpr := false;
  init_offset := true; sl_custom_names := SlNone; translations := None
|}.

Definition disk (entries : list (string * bytes)) : world :=
  {| files := list_to_map entries; trace := [] |}.

(** [pickle.dumps((None, []), 2)] and its zlib stream. *)
Definition good_payload : bytes :=
  [x80; x02; x4e; x5d; x71; x00; x86; x71; x01; x2e].
Definition good_blob : bytes := deflate_stored good_payload.

(** A pickle that stops on an empty stack, and its zlib stream. *)
Definition bad_payload : bytes := [x80; x02; x2e].
Definition bad_blob : bytes := deflate_stored bad_payload.

(** A v2 archive: slot 1 holds [good_blob] (21 bytes), slot 2 two other
    bytes. *)
Definition good_v2 : bytes :=
  magic ++ record 1 46 21 ++ record 2 67 2 ++ record 0 0 0
    ++ good_blob ++ [xff; xfe].

(** A v2 archive whose payload inflates but does not unpickle. *)
Definition bad_payload_v2 : bytes :=
  magic ++ record 1 34 14 ++ record 0 0 0 ++ bad_blob.

(** A v2 archive cut off in the middle of its second slot record. *)
Definition truncated_v2 : bytes :=
  magic ++ record 1 46 21 ++ [x02; x00; x00; x00; x43].

(** A v2 archive with the slot ids 3 and 7. *)
Definition odd_slots_v2 : bytes :=
  magic ++ record 3 46 1 ++ record 7 47 1 ++ record 0 0 0 ++ [x78; x80].

(** [-T /game/tl.pickle] and [--comparable] without [--dump]. *)
Definition args_write : Args := {|
  file := []; clobber := false; try_harder := false; dump := false;
  processes := 1; translation_file := None;
  write_translation_file := Some "/game/tl.pickle";
  language := Some "french"; comparable := false; no_pyexpr := false;
  init_offset := true; sl_custom_names := SlNone; translations := None
|}.

Definition args_write_game : Args := {|
  file := ["/game/a.rpyc"]; clobber := false; try_harder := false; dump := false;
  processes := 1; translation_file := None;
  write_translation_file := Some "/game/tl.pickle";
  language := Some "french"; comparable := false; no_pyexpr := false;
  init_offset := true; sl_custom_names := SlNone; translations := None
|}.

Definition args_comparable : Args := {|
  file := ["/game"]; clobber := false; try_harder := false; dump := false;
  processes := 1; translation_file := None; write_translation_file := None;
  language := None; comparable := true; no_pyexpr := false;
  init_offset := true; sl_custom_names := SlNone; translations := None
|}.

Definition args_pool : Args := {|
  file := []; clobber := false; try_harder := false; dump := false;
  processes := 2; translation_file := None; write_translation_file := None;
  language := None; comparable := false; no_pyexpr := false;
  init_offset := true; sl_custom_names := SlNone; translations := None
|}.

Definition disk_good : world :=
  disk [("/game/a.rpyc", good_v2); ("/game/a.rpy", [x41])].
Definition disk_bad_payload : world := disk [("/game/a.rpyc", bad_payload_v2)].
Definition disk_truncated : world := disk [("/game/a.rpyc", truncated_v2)].
Definition args_game : Args := {|
  file := ["/game/a.rpyc"; "/game/b.rpyc"; "/game/c.rpyc"]; clobber := false;
  try_harder := false; dump := false;
  processes := 1; translation_file := None; write_translation_file := None;
  language := None; comparable := false; no_pyexpr := false;
  init_offset := true; sl_custom_names := SlNone; translations := None
|}.

Definition disk_three : world :=
  disk [("/game/a.rpyc", good_v2); ("/game/b.rpyc", truncated_v2);
        ("/game/c.rpyc", good_v2); ("/game/c.rpy", [x41])].

Definition disk_game : world := disk [("/game/a.rpyc", good_v2)].
Definition disk_translation : world :=
  disk [("/game/a.rpyc", good_v2); ("/game/tl.pickle", [x80])].

(** The state of the context a worker hands back. *)
Definition final_state (run : res Context * world) : option State :=
  match fst run with
  | Ok context => state context
  | Raise _ => None
  end.

(** A context a worker hands back with a translation bundle. *)
Definition extracted (pickled : bytes) (strings : gmap string string) : Context :=
  {| log_contents := []; state := None; value := Some (pickled, strings) |}.

(** A v2 archive with two records of the slot id 1: three bytes that
    are no zlib stream first, [good_blob] second. *)
Definition dup_v2 : bytes :=
  magic ++ record 1 46 3 ++ record 1 49 21 ++ record 0 0 0
    ++ [x00; x00; x00] ++ good_blob.

(** Collaborators whose reverse compiler logs a line, writes a first
    byte and then raises. *)
Definition printer_error : exn :=
  OtherException "NotImplementedError" "unknown statement".

Definition failing_printer : Externals pyval string := {|
  native_order := LittleEndian;
  zlib_decompress := inflate;
  pickle_detect_python2 := fun _ => false;
  pickle_safe_loads := safe_loads;
  pickle_safe_dumps := fun _ => [x01];
  pickle_safe_dump := fun _ => [x80];
  pickle_loads_dialogue := loads_dialogue;
  pickle_loads_translations := fun _ => Raise invalid_load_key;
  deobfuscate_read_ast := fun in_file => raise invalid_load_key;
  astdump_pprint := fun _ _ _ => ([], None);
  decompiler_pprint := fun _ _ =>
    {| pp_written := [x23]; pp_logged := ["Warning: unknown statement"];
       pp_raised := Some printer_error |};
  translate_dialogue := fun _ _ => Ok (∅, ∅);
  format_exc := show_exc;
  glob_resolve := fun inpath => [FsFile inpath]
|}.

(** [-t /game/tl.pickle], the file holding one byte that is no pickle. *)
Definition args_translated : Args := {|
  file := ["/game/a.rpyc"]; clobber := false; try_harder := false; dump := false;
  processes := 1; translation_file := Some "/game/tl.pickle";
  write_translation_file := None;
  language := None; comparable := false; no_pyexpr := false;
  init_offset := true; sl_custom_names := SlNone; translations := Some [x00]
|}.

(** [--register-sl-displayable Frame=frame-1 oops x=y] *)
Definition args_registered : Args := {|
  file := ["/game/a.rpyc"]; clobber := false; try_harder := false; dump := false;
  processes := 1; translation_file := None; write_translation_file := None;
  language := None; comparable := false; no_pyexpr := false;
  init_offset := true;
  sl_custom_names := SlUnparsed ["Frame=frame-1"; "oops"; "x=y"];
  translations := None
|}.


(** Two results as workers hand them back. *)
Definition result_ok : Context :=
  {| log_contents := ["Decompiling /game/a.rpyc to a.rpy..."];
     state := Some ok; value := None |}.
Definition result_skip : Context :=
  {| log_contents := ["Decompiling /game/c.rpyc to c.rpy...";
                      "Target file exists already! Skipping."];
     state := Some skip; value := None |}.

End Sample.

(** * Properties *)

(** * Notions used in the statements *)

Abbreviation slot_record := (Z * Z * Z)%type.
Abbreviation run_trace := (λ s : Context * world, trace (snd s)).

Section Notions.
Context {ast entry : Type} {E : Externals ast entry}.

(** [raw_contents] holds the records [recs], none with slot id 0, from
    [position] on, and a record with slot id 0 after them. *)
Fixpoint slot_table (raw_contents : bytes) (position : Z) (recs : list slot_record)
    : Prop :=
  match recs with
  | [] => ∃ start length,
      struct_unpack_III native_order (py_slice raw_contents position (position + 12))
        = Ok (0, start, length)
  | r :: recs' =>
      struct_unpack_III native_order (py_slice raw_contents position (position + 12))
        = Ok r
      ∧ r.1.1 ≠ 0
      ∧ slot_table raw_contents (position + 12) recs'
  end.

(** [chunks[slot] = raw_contents[start: start + length]] for each record. *)
Definition store_chunk (raw_contents : bytes) (chunks : gmap Z bytes) (r : slot_record)
    : gmap Z bytes :=
  <[r.1.1 := py_slice raw_contents r.1.2 (r.1.2 + r.2)]> chunks.

(** Some record's slot id is not the one expected at its place:
    [expected_slot] for the first record, one more for each next one. *)
Fixpoint mismatch (expected_slot : Z) (recs : list slot_record) : bool :=
  match recs with
  | [] => false
  | r :: recs' => negb (r.1.1 =? expected_slot) || mismatch (expected_slot + 1) recs'
  end.

(** [raw_contents] holds the records [recs] from [position] on and then
    fewer than 12 bytes. *)
Fixpoint truncated_table (raw_contents : bytes) (position : Z) (recs : list slot_record)
    : Prop :=
  match recs with
  | [] => (length (py_slice raw_contents position (position + 12)) < 12)%nat
  | r :: recs' =>
      struct_unpack_III native_order (py_slice raw_contents position (position + 12))
        = Ok r
      ∧ r.1.1 ≠ 0
      ∧ truncated_table raw_contents (position + 12) recs'
  end.

Definition error_header (e : exn) (filename : string) : string :=
  (if is_BadRpycException e then "Error while trying to read the header of "
   else "Error while decompiling ") ++ filename ++ ":".

Definition extraction_error (filename : string) (w : world) : exn :=
  match files w !! filename with
  | Some _ => missing_context
  | None => OtherException "FileNotFoundError" filename
  end.

(** The spec's wording of the merge: the value of a key is that of the
    last bundle that has the key. *)
Fixpoint last_writer {V} (bundles : list (gmap string V)) (k : string) : option V :=
  match bundles with
  | [] => None
  | d :: bundles' =>
      match last_writer bundles' k with
      | Some v => Some v
      | None => d !! k
      end
  end.

Definition file_event (ev : event) : bool :=
  match ev with
  | EvExists _ | EvOpenRead _ | EvOpenWrite _ | EvStat _ => true
  | EvPool _ | EvWorker _ _ | EvPrint _ => false
  end.

(** [m] only adds events of file accesses to the trace. *)
Definition only_file_events {S A} (tr : S → list event) (m : M S A) : Prop :=
  ∀ s, ∃ evs, tr (snd (m s)) = (tr s ++ evs)%list ∧ forallb file_event evs = true.

Definition control_events (evs : list event) : list event :=
  List.filter (λ ev, negb (file_event ev)) evs.

(** The record filed under [slot] when the loop is done with [recs]:
    the last one that has this id. *)
Fixpoint last_record (slot : Z) (recs : list slot_record) : option slot_record :=
  match recs with
  | [] => None
  | r :: recs' =>
      match last_record slot recs' with
      | Some r' => Some r'
      | None => if r.1.1 =? slot then Some r else None
      end
  end.

(** The bytes a record points at. *)
Definition record_bytes (raw_contents : bytes) (r : slot_record) : bytes :=
  py_slice raw_contents r.1.2 (r.1.2 + r.2).

(** The reader [decompile_rpyc] calls on the open input file. *)
Definition reader (try_harder : bool) : bytes → M Context ast :=
  if try_harder then deobfuscate_read_ast else read_ast_from_file.

(** What the printer of the mode does for the statements [ast_], the
    log being that of [context]. *)
Definition pprint_result (dump comparable no_pyexpr : bool)
    (translator : option (Translator entry)) (init_offset : bool)
    (sl_custom_names : sl_names) (ast_ : ast) (context : Context) : printed :=
  if dump then
    {| pp_written := fst (astdump_pprint ast_ comparable no_pyexpr);
       pp_logged := [];
       pp_raised := snd (astdump_pprint ast_ comparable no_pyexpr) |}
  else
    decompiler_pprint ast_
      {| opt_log := log_contents context; opt_translator := translator;
         opt_init_offset := init_offset; opt_sl_custom_names := sl_custom_names |}.

Definition log_all (lines : list string) (context : Context) : Context :=
  fold_left (λ c line, ctx_log line c) lines context.

(** The file accesses of a worker that goes through to the end, in the
    order of [decompile_rpyc] and [extract_translations]. *)
Definition worker_accesses (args : Args) (filename : string) : list event :=
  if bool_decide (is_Some (write_translation_file args)) then [EvOpenRead filename]
  else
    match load_translator args, output_path filename (dump args) with
    | Ok _, Ok out_filename =>
        (if clobber args then [] else [EvExists out_filename])
          ++ [EvOpenRead filename; EvOpenWrite out_filename]
    | _, _ => []
    end.

(** [ev] is the opening of [p] for reading. *)
Definition opens_for_reading (p : string) (ev : event) : bool :=
  match ev with
  | EvOpenRead q => String.eqb q p
  | _ => false
  end.

(** [results] are the contexts of the workers run on [worklist] by
    [where_], file after file: each file is handed to [worker] on the
    disk as the files before it left it, and [worker] returns its
    context. *)
Inductive processed (where_ : executor) (args : Args)
    : list string → world → list Context → world → Prop :=
| processed_nil (w : world) : processed where_ args [] w [] w
| processed_cons (x : string) (worklist : list string) (w w1 w2 : world)
    (context : Context) (results : list Context) :
    worker args x (emit (EvWorker where_ x) w) = (Ok context, w1) →
    processed where_ args worklist w1 results w2 →
    processed where_ args (x :: worklist) w (context :: results) w2.

(** What [traverse] keeps: a file with the suffix of a compiled script. *)
Definition script_file (p : string) : Prop :=
  path_suffix p = ".rpyc" ∨ path_suffix p = ".rpymc".

(** The extension [decompile_rpyc] gives the output of a script file. *)
Definition output_ext (dump : bool) (suffix : string) : string :=
  if dump then ".txt" else if String.eqb suffix ".rpyc" then ".rpy" else ".rpym".

(** Induction on what a path names on disk, with the items of a
    directory. *)
Fixpoint fsentry_nested_ind (P : fsentry → Prop)
    (Hfile : ∀ p, P (FsFile p))
    (Hdir : ∀ items, Forall P items → P (FsDir items))
    (Hother : P FsOther) (e : fsentry) : P e :=
  match e with
  | FsFile p => Hfile p
  | FsDir items =>
      Hdir items
        ((fix items_ind (l : list fsentry) : Forall P l :=
            match l with
            | [] => @List.Forall_nil _ P
            | item :: l' =>
                @List.Forall_cons _ P item l'
                  (fsentry_nested_ind P Hfile Hdir Hother item) (items_ind l')
            end) items)
  | FsOther => Hother
  end.

(** [p.stat().st_size] on the disk [w]. *)
Definition file_size (w : world) (p : string) : Z :=
  match files w !! p with
  | Some content => Z.of_nat (length content)
  | None => 0
  end.

(** How many of the results ended in the state [s]. *)
Definition count_results (s : State) (results : list Context) : Z :=
  Z.of_nat (length (List.filter (λ c, bool_decide (state c = Some s)) results)).

End Notions.

Section Properties.
Context {ast entry : Type} {E : Externals ast entry}.

(** Run a computation whose steps are known. *)
Ltac run_in H :=
  unfold ret, bind, raise, lift_res, modify, log in H; cbn in H.

Lemma bind_ok {S A B} (m : M S A) (k : A → M S B) (s s' : S) (a : A) :
  m s = (Ok a, s') → bind m k s = k a s'.
Proof. unfold bind. by intros ->. Qed.

Lemma bind_raise {S A B} (m : M S A) (k : A → M S B) (s s' : S) (e : exn) :
  m s = (Raise e, s') → bind m k s = (Raise e, s').
Proof. unfold bind. by intros ->. Qed.

Lemma in_world_open_rb (p : string) (content : bytes) (c : Context) (w : world) :
  files w !! p = Some content →
  in_world (open_rb p) (c, w) = (Ok content, (c, emit (EvOpenRead p) w)).
Proof. intros H. unfold in_world, open_rb. cbn [fst snd]. by rewrite H. Qed.

Lemma in_world_open_rb_missing (p : string) (c : Context) (w : world) :
  files w !! p = None →
  in_world (open_rb p) (c, w)
    = (Raise (OtherException "FileNotFoundError" p), (c, emit (EvOpenRead p) w)).
Proof. intros H. unfold in_world, open_rb. cbn [fst snd]. by rewrite H. Qed.

Lemma in_world_path_exists_false (p : string) (c : Context) (w : world) :
  files w !! p = None →
  in_world (path_exists p) (c, w) = (Ok false, (c, emit (EvExists p) w)).
Proof.
  intros H. unfold in_world, path_exists. cbn [fst snd].
  rewrite bool_decide_false; [done|]. rewrite H. by intros [? ?].
Qed.

Lemma in_world_path_exists_true (p : string) (c : Context) (w : world) :
  is_Some (files w !! p) →
  in_world (path_exists p) (c, w) = (Ok true, (c, emit (EvExists p) w)).
Proof.
  intros H. unfold in_world, path_exists. cbn [fst snd].
  by rewrite bool_decide_true.
Qed.

(** ** The worker's exception handlers *)

Lemma worker_returns (args : Args) (filename : string) (w : world) :
  ∃ context w', worker args filename w = (Ok context, w').
Proof.
  unfold worker.
  destruct (worker_body args filename (Context_init, w)) as [[result|e] [context w']].
  - eauto.
  - destruct (is_BadRpycException e); eauto.
Qed.

Lemma worker_handles (args : Args) (filename : string) (w w1 : world) (e : exn)
    (c1 : Context) :
  worker_body args filename (Context_init, w) = (Raise e, (c1, w1)) →
  worker args filename w =
    (Ok {| log_contents := log_contents c1 ++ [error_header e filename; format_exc e];
           state := Some (if is_BadRpycException e then spoofed else fail);
           value := value c1 |}, w1).
Proof.
  intros Hbody. unfold worker, error_header. rewrite Hbody.
  destruct e as [msg detail|cls msg]; cbn [is_BadRpycException];
    unfold ctx_log, ctx_set_state; cbn [log_contents state value];
    by rewrite <- app_assoc.
Qed.

(** C3: whatever exception the per-file pipeline raises, [worker]
    returns the context normally, with the state set to ['spoofed']
    (for [BadRpycException]) or ['fail'] (for any other exception) and
    the failure detail appended to the log of that file. *)
Theorem worker_contains_exceptions (args : Args) (filename : string)
    (w w1 : world) (e : exn) (c1 : Context) :
  worker_body args filename (Context_init, w) = (Raise e, (c1, w1)) →
  worker args filename w =
    (Ok {| log_contents := log_contents c1 ++ [error_header e filename; format_exc e];
           state := Some (if is_BadRpycException e then spoofed else fail);
           value := value c1 |}, w1)
  ∧ ∀ filename' w', ∃ context w'', worker args filename' w' = (Ok context, w'').
Proof.
  intros Hbody. split; [by apply worker_handles|intros; apply worker_returns].
Qed.

(** ** Skipping an existing target *)

(** C5: when the derived output path exists and [overwrite] is false,
    [decompile_rpyc] logs, sets the state ['skip'] and returns; the only
    thing it did to the file system is the existence test, so the input
    file was not opened and every file keeps its content. *)
Theorem decompile_rpyc_skips_existing (input_filename out_filename : string)
    (try_harder dump comparable no_pyexpr init_offset : bool)
    (translator : option (Translator entry)) (sl_custom_names : sl_names)
    (context : Context) (w : world) :
  output_path input_filename dump = Ok out_filename →
  is_Some (files w !! out_filename) →
  decompile_rpyc input_filename false try_harder dump comparable no_pyexpr
      translator init_offset sl_custom_names (context, w)
    = (Ok tt,
       (ctx_set_state skip
          (ctx_log "Target file exists already! Skipping."
             (ctx_log ("Decompiling " ++ input_filename ++ " to "
                       ++ path_name out_filename ++ "...") context)),
        {| files := files w; trace := trace w ++ [EvExists out_filename] |})).
Proof.
  intros Hout Hexists.
  unfold decompile_rpyc, bind, lift_res. rewrite Hout. cbn.
  by rewrite bool_decide_true.
Qed.

(** ** The slot table *)

Lemma py_slice_12 (raw_contents : bytes) (position : Z) :
  py_slice raw_contents position (position + 12)
    = take 12 (drop (Z.to_nat position) raw_contents).
Proof. unfold py_slice. by replace (position + 12 - position) with 12 by lia. Qed.

Lemma unpack_full_record (bo : byteorder) (rest : bytes) (r : slot_record) :
  struct_unpack_III bo (take 12 rest) = Ok r →
  ∃ a0 a1 a2 a3 b0 b1 b2 b3 c0 c1 c2 c3 rest',
    rest = a0 :: a1 :: a2 :: a3 :: b0 :: b1 :: b2 :: b3 :: c0 :: c1 :: c2 :: c3 :: rest'
    ∧ struct_unpack_III bo [a0; a1; a2; a3; b0; b1; b2; b3; c0; c1; c2; c3] = Ok r.
Proof.
  intros H.
  do 12 (destruct rest as [|? rest]; [discriminate H|]).
  cbn [take] in H. repeat eexists; exact H.
Qed.

Lemma slot_loop_table (raw_contents : bytes) (recs : list slot_record) :
  ∀ (position expected_slot : Z) (chunks : gmap Z bytes) (have_errored : bool)
    (context : Context),
    0 ≤ position →
    slot_table raw_contents position recs →
    expected_slot + Z.of_nat (length recs) < 0xFFFFFFFF →
    slot_loop raw_contents (drop (Z.to_nat position) raw_contents)
        expected_slot chunks have_errored context
      = (Ok (fold_left (store_chunk raw_contents) recs chunks),
         if negb have_errored && mismatch expected_slot recs
         then ctx_log slot_warning context else context).
Proof.
  induction recs as [|r recs IH]; intros position expected_slot chunks have_errored
    context Hpos Htable Hrange; cbn [slot_table] in Htable.
  - destruct Htable as (start & len & Hterm).
    rewrite py_slice_12 in Hterm.
    apply unpack_full_record in Hterm
      as (a0 & a1 & a2 & a3 & b0 & b1 & b2 & b3 & c0 & c1 & c2 & c3 & rest' & -> & Hterm).
    cbn [slot_loop length] in *.
    replace (4294967295 <=? expected_slot) with false by (symmetry; apply Z.leb_gt; lia).
    unfold bind, lift_res. rewrite Hterm. cbn [mismatch].
    by rewrite andb_false_r.
  - destruct Htable as (Hrec & Hslot & Htable).
    rewrite py_slice_12 in Hrec.
    pose proof Hrec as Hrec'.
    apply unpack_full_record in Hrec'
      as (a0 & a1 & a2 & a3 & b0 & b1 & b2 & b3 & c0 & c1 & c2 & c3 & rest' & Hrest & Hrec').
    assert (Hdrop : drop (Z.to_nat (position + 12)) raw_contents = rest').
    { rewrite Z2Nat.inj_add by lia. rewrite <- drop_drop, Hrest. done. }
    rewrite Hrest. cbn [slot_loop length fold_left mismatch] in *.
    replace (4294967295 <=? expected_slot) with false by (symmetry; apply Z.leb_gt; lia).
    unfold bind at 1. unfold lift_res at 1. rewrite Hrec'.
    destruct r as [[slot start] len]. cbn [fst snd] in *.
    replace (slot =? 0) with false by (symmetry; by apply Z.eqb_neq).
    rewrite <- Hdrop.
    destruct have_errored, (slot =? expected_slot); cbn [negb andb orb];
      unfold bind, ret, log, modify;
      rewrite IH by (first [lia | done]); by cbn [negb andb].
Qed.

(** C10: in a v2 archive whose slot table has ids off the sequence
    1, 2, 3, ..., the warning is logged exactly once, however many
    records are off, and the table is walked to the zero terminator,
    every record filing its own [start] and [length] under its own id.
    (The table is shorter than the [range] of the loop.) *)
Theorem slot_mismatch_warned_once (raw_contents : bytes) (recs : list slot_record)
    (context : Context) :
  slot_table raw_contents 10 recs →
  Z.of_nat (length recs) < 0xFFFFFFFE →
  mismatch 1 recs = true →
  slot_loop raw_contents (drop 10 raw_contents) 1 ∅ false context
    = (Ok (fold_left (store_chunk raw_contents) recs ∅),
       {| log_contents := log_contents context ++ [slot_warning];
          state := state context; value := value context |}).
Proof.
  intros Htable Hlen Hmis.
  change 10%nat with (Z.to_nat 10).
  rewrite (slot_loop_table raw_contents recs) by (first [done | lia]).
  by rewrite Hmis.
Qed.

(** With or without a terminator, a run of the loop adds the warning
    to the log at most once. *)
Lemma slot_loop_warns_at_most_once (raw_contents : bytes) (n : nat) :
  ∀ (rest : bytes) (expected_slot : Z) (chunks : gmap Z bytes) (have_errored : bool)
    (context context' : Context) (r : res (gmap Z bytes)),
    (length rest ≤ n)%nat →
    slot_loop raw_contents rest expected_slot chunks have_errored context
      = (r, context') →
    context' = context
    ∨ (have_errored = false ∧ context' = ctx_log slot_warning context).
Proof.
  induction n as [|n IH];
    intros rest expected_slot chunks have_errored context context' r Hlen Hrun.
  - destruct rest; [|cbn in Hlen; lia].
    cbn [slot_loop] in Hrun.
    destruct (4294967295 <=? expected_slot); run_in Hrun; left; congruence.
  - do 12 (destruct rest as [|? rest];
           [cbn [slot_loop] in Hrun;
            destruct (4294967295 <=? expected_slot); run_in Hrun; left; congruence|]).
    cbn [slot_loop] in Hrun.
    destruct (4294967295 <=? expected_slot); [left; run_in Hrun; congruence|].
    unfold bind at 1 in Hrun. unfold lift_res at 1 in Hrun.
    cbn [struct_unpack_III] in Hrun.
    match type of Hrun with context [if ?slot =? 0 then _ else _] =>
      destruct (slot =? 0); [left; run_in Hrun; congruence|];
      destruct have_errored, (slot =? expected_slot)
    end; cbn [negb andb orb] in Hrun; unfold bind, ret, log, modify in Hrun.
    all: apply IH in Hrun; [|cbn [length] in Hlen; lia].
    all: destruct Hrun as [->|[Hhe ->]]; first [by left | by right | discriminate].
Qed.

(** ** The slot that is loaded *)

(** C6: in a v2 archive whose slot table is [{1: X, 2: Y}], or [{1: X}]
    alone, [read_ast_from_file] loads the bytes of slot 1 and nothing
    else: what it does is inflating and unpickling
    [X = raw_contents[start1: start1 + length1]], whatever slot 2 is. *)
Theorem read_ast_from_file_selects_slot_1 (raw_contents : bytes)
    (start1 length1 start2 length2 : Z) (context : Context) :
  startswith raw_contents magic = true →
  slot_table raw_contents 10 [(1, start1, length1); (2, start2, length2)]
  ∨ slot_table raw_contents 10 [(1, start1, length1)] →
  let X := py_slice raw_contents start1 (start1 + length1) in
  read_ast_from_file raw_contents context = load_contents false X context
  ∧ match zlib_decompress X with
    | Some payload =>
        match pickle_safe_loads payload with
        | Ok (_, stmts) => fst (read_ast_from_file raw_contents context) = Ok stmts
        | Raise e => fst (read_ast_from_file raw_contents context) = Raise e
        end
    | None => fst (read_ast_from_file raw_contents context) = Raise no_zlib_error
    end.
Proof.
  intros Hmagic Htable X.
  assert (Hread : read_ast_from_file raw_contents context
                  = load_contents false X context).
  { unfold read_ast_from_file, archive_blob. rewrite Hmagic. cbn [negb].
    unfold bind at 1. unfold bind at 1.
    change 10%nat with (Z.to_nat 10).
    destruct Htable as [Htable|Htable];
      rewrite (slot_loop_table raw_contents _ 10 1 ∅ false context ltac:(lia) Htable)
        by (cbn; lia).
    all: cbn [fold_left mismatch]; unfold store_chunk; cbn [fst snd].
    - rewrite lookup_insert_ne by done. by rewrite lookup_insert_eq.
    - by rewrite lookup_insert_eq. }
  split; [done|]. rewrite Hread. unfold load_contents, bind, lift_res, raise, ret.
  destruct (zlib_decompress X) as [payload|]; [|done].
  destruct (pickle_detect_python2 payload); cbn;
    destruct (pickle_safe_loads payload) as [[data stmts]|e]; done.
Qed.

(** ** Failures of the reader, seen from the worker *)

Lemma decompile_rpyc_read_raises (input_filename out_filename : string)
    (overwrite dump comparable no_pyexpr init_offset : bool)
    (translator : option (Translator entry)) (sl_custom_names : sl_names)
    (raw_contents : bytes) (e : exn) (context : Context) (w : world) :
  output_path input_filename dump = Ok out_filename →
  overwrite = true ∨ files w !! out_filename = None →
  files w !! input_filename = Some raw_contents →
  (∀ c, fst (read_ast_from_file raw_contents c) = Raise e) →
  ∃ c1 w1,
    decompile_rpyc input_filename overwrite false dump comparable no_pyexpr
        translator init_offset sl_custom_names (context, w)
      = (Raise e, (c1, w1))
    ∧ files w1 = files w.
Proof.
  intros Hout Hfree Hfile Hread.
  unfold decompile_rpyc.
  erewrite bind_ok by (unfold lift_res; by rewrite Hout).
  erewrite bind_ok by reflexivity.
  assert (Hrest : ∀ c w', files w' = files w →
    ∃ c1 w1,
      (in_file <- in_world (open_rb input_filename) ;;
       ast_ <- in_ctx (read_ast_from_file in_file) ;;
       write_output out_filename ast_ dump comparable no_pyexpr translator
         init_offset sl_custom_names ;;;
       set_state ok) (c, w') = (Raise e, (c1, w1))
      ∧ files w1 = files w).
  { intros c w' Hw'.
    erewrite bind_ok by (by apply in_world_open_rb; rewrite Hw').
    specialize (Hread c).
    destruct (read_ast_from_file raw_contents c) as [r c'] eqn:Hrun.
    cbn [fst] in Hread. subst r.
    erewrite bind_raise by (unfold in_ctx; cbn [fst snd]; by rewrite Hrun).
    eauto. }
  assert (Hskip : overwrite = true ∨ overwrite = false ∧ files w !! out_filename = None)
    by (destruct overwrite; intuition).
  destruct Hskip as [->|[-> Hnone]]; cbn [negb fst snd].
  - erewrite bind_ok by reflexivity. by apply Hrest.
  - erewrite bind_ok by (by apply in_world_path_exists_false).
    by apply Hrest.
Qed.

Lemma worker_read_raises (args : Args) (filename out_filename : string)
    (translator : option (Translator entry)) (raw_contents : bytes) (e : exn)
    (w : world) :
  write_translation_file args = None →
  try_harder args = false →
  load_translator args = Ok translator →
  output_path filename (dump args) = Ok out_filename →
  clobber args = true ∨ files w !! out_filename = None →
  files w !! filename = Some raw_contents →
  (∀ c, fst (read_ast_from_file raw_contents c) = Raise e) →
  ∃ context w',
    worker args filename w = (Ok context, w')
    ∧ state context = Some (if is_BadRpycException e then spoofed else fail)
    ∧ last (log_contents context) = Some (format_exc e)
    ∧ files w' = files w.
Proof.
  intros Hwrite Hharder Htranslator Hout Hfree Hfile Hread.
  destruct (decompile_rpyc_read_raises filename out_filename (clobber args) (dump args)
              (comparable args) (no_pyexpr args) (init_offset args) translator
              (sl_custom_names args) raw_contents e Context_init w Hout Hfree Hfile Hread)
    as (c1 & w1 & Hrun & Hfiles).
  assert (Hbody : worker_body args filename (Context_init, w) = (Raise e, (c1, w1))).
  { unfold worker_body. rewrite Hwrite.
    rewrite bool_decide_false by (by intros [? ?]).
    erewrite bind_ok by (unfold lift_res; by rewrite Htranslator).
    rewrite Hharder. by erewrite bind_raise by exact Hrun. }
  rewrite (worker_handles _ _ _ _ _ _ Hbody).
  eexists _, _. split; [done|]. cbn [state log_contents].
  split; [done|]. split; [|done].
  by rewrite last_app.
Qed.

(** The container parses and inflates, the payload does not unpickle. *)
Lemma read_ast_from_file_payload_fails (raw_contents blob payload : bytes)
    (is_rpyc_v1 : bool) (e : exn) :
  (∀ c, fst (archive_blob raw_contents c) = Ok (blob, is_rpyc_v1)) →
  zlib_decompress blob = Some payload →
  pickle_safe_loads payload = Raise e →
  ∀ c, fst (read_ast_from_file raw_contents c) = Raise e.
Proof.
  intros Harchive Hzlib Hloads c.
  unfold read_ast_from_file.
  specialize (Harchive c).
  destruct (archive_blob raw_contents c) as [r c'] eqn:Hrun.
  cbn [fst] in Harchive. subst r.
  erewrite bind_ok by exact Hrun. cbn iota beta.
  unfold load_contents.
  erewrite bind_ok by (by rewrite Hzlib).
  destruct (is_rpyc_v1 || pickle_detect_python2 payload);
    (erewrite bind_ok by reflexivity);
    by erewrite bind_raise by (unfold lift_res; by rewrite Hloads).
Qed.

(** C1 (as the code has it): when the container parses and inflates
    but [pickle_safe_loads] raises on the payload, the exception is not
    a [BadRpycException], so the worker records the state ['fail'], not
    ['spoofed'], and logs the failure. *)
Theorem payload_decode_error_is_fail (args : Args) (filename out_filename : string)
    (translator : option (Translator entry)) (raw_contents blob payload : bytes)
    (is_rpyc_v1 : bool) (e : exn) (w : world) :
  write_translation_file args = None →
  try_harder args = false →
  load_translator args = Ok translator →
  output_path filename (dump args) = Ok out_filename →
  clobber args = true ∨ files w !! out_filename = None →
  files w !! filename = Some raw_contents →
  (∀ c, fst (archive_blob raw_contents c) = Ok (blob, is_rpyc_v1)) →
  zlib_decompress blob = Some payload →
  pickle_safe_loads payload = Raise e →
  is_BadRpycException e = false →
  ∃ context w',
    worker args filename w = (Ok context, w')
    ∧ state context = Some fail
    ∧ last (log_contents context) = Some (format_exc e).
Proof.
  intros Hwrite Hharder Htranslator Hout Hfree Hfile Harchive Hzlib Hloads Hclass.
  destruct (worker_read_raises args filename out_filename translator raw_contents e w)
    as (context & w' & Hworker & Hstate & Hlog & _); try done.
  { by eapply read_ast_from_file_payload_fails. }
  rewrite Hclass in Hstate. eauto.
Qed.

(** ** A slot table that ends early *)

Lemma slot_loop_truncated (raw_contents : bytes) (recs : list slot_record) :
  ∀ (position expected_slot : Z) (chunks : gmap Z bytes) (have_errored : bool)
    (context : Context),
    0 ≤ position →
    truncated_table raw_contents position recs →
    expected_slot + Z.of_nat (length recs) < 0xFFFFFFFF →
    fst (slot_loop raw_contents (drop (Z.to_nat position) raw_contents)
           expected_slot chunks have_errored context)
      = Raise struct_error.
Proof.
  induction recs as [|r recs IH]; intros position expected_slot chunks have_errored
    context Hpos Htable Hrange; cbn [truncated_table] in Htable.
  - rewrite py_slice_12 in Htable.
    destruct (drop (Z.to_nat position) raw_contents) as [|? rest].
    { cbn [slot_loop length] in *.
      by replace (4294967295 <=? expected_slot) with false
        by (symmetry; apply Z.leb_gt; lia). }
    do 11 (destruct rest as [|? rest];
           [cbn [slot_loop length] in *;
            by replace (4294967295 <=? expected_slot) with false
              by (symmetry; apply Z.leb_gt; lia)|]).
    cbn in Htable. lia.
  - destruct Htable as (Hrec & Hslot & Htable).
    rewrite py_slice_12 in Hrec.
    pose proof Hrec as Hrec'.
    apply unpack_full_record in Hrec'
      as (a0 & a1 & a2 & a3 & b0 & b1 & b2 & b3 & c0 & c1 & c2 & c3 & rest' & Hrest & Hrec').
    assert (Hdrop : drop (Z.to_nat (position + 12)) raw_contents = rest').
    { rewrite Z2Nat.inj_add by lia. rewrite <- drop_drop, Hrest. done. }
    rewrite Hrest. cbn [slot_loop length] in *.
    replace (4294967295 <=? expected_slot) with false by (symmetry; apply Z.leb_gt; lia).
    unfold bind at 1. unfold lift_res at 1. rewrite Hrec'.
    destruct r as [[slot start] len]. cbn [fst snd] in *.
    replace (slot =? 0) with false by (symmetry; by apply Z.eqb_neq).
    rewrite <- Hdrop.
    destruct (negb (slot =? expected_slot) && negb have_errored);
      unfold bind, ret, log, modify;
      apply IH; first [lia | done].
Qed.

Lemma read_ast_from_file_truncated (raw_contents : bytes) (recs : list slot_record) :
  startswith raw_contents magic = true →
  truncated_table raw_contents 10 recs →
  Z.of_nat (length recs) < 0xFFFFFFFE →
  ∀ c, fst (read_ast_from_file raw_contents c) = Raise struct_error.
Proof.
  intros Hmagic Htable Hlen c.
  unfold read_ast_from_file, archive_blob. rewrite Hmagic. cbn [negb].
  pose proof (slot_loop_truncated raw_contents recs 10 1 ∅ false c
                ltac:(lia) Htable ltac:(lia)) as Hloop.
  change (Z.to_nat 10) with 10%nat in Hloop.
  unfold bind at 1. unfold bind at 1.
  destruct (slot_loop raw_contents (drop 10 raw_contents) 1 ∅ false c) as [r c'].
  cbn [fst] in Hloop. by subst r.
Qed.

(** A truncated slot table makes [struct.unpack] raise [struct.error],
    which the worker files under ['fail']. *)
Lemma truncated_table_is_fail (args : Args) (filename out_filename : string)
    (translator : option (Translator entry)) (raw_contents : bytes)
    (recs : list slot_record) (w : world) :
  write_translation_file args = None →
  try_harder args = false →
  load_translator args = Ok translator →
  output_path filename (dump args) = Ok out_filename →
  clobber args = true ∨ files w !! out_filename = None →
  files w !! filename = Some raw_contents →
  startswith raw_contents magic = true →
  truncated_table raw_contents 10 recs →
  Z.of_nat (length recs) < 0xFFFFFFFE →
  ∃ context w',
    worker args filename w = (Ok context, w')
    ∧ state context = Some fail
    ∧ last (log_contents context) = Some (format_exc struct_error).
Proof.
  intros Hwrite Hharder Htranslator Hout Hfree Hfile Hmagic Htable Hlen.
  destruct (worker_read_raises args filename out_filename translator raw_contents
              struct_error w)
    as (context & w' & Hworker & Hstate & Hlog & _); try done.
  { by eapply read_ast_from_file_truncated. }
  eauto.
Qed.

(** ** The failures that are wrapped into [BadRpycException] *)

Lemma no_slot_1_stored (raw_contents : bytes) (recs : list slot_record) :
  ∀ chunks : gmap Z bytes,
    chunks !! 1 = None →
    Forall (λ r : slot_record, r.1.1 ≠ 1) recs →
    fold_left (store_chunk raw_contents) recs chunks !! 1 = None.
Proof.
  induction recs as [|r recs IH]; intros chunks Hnone Hrecs; cbn [fold_left]; [done|].
  apply Forall_cons in Hrecs as [Hr Hrecs].
  apply IH; [|done]. unfold store_chunk. by rewrite lookup_insert_ne.
Qed.

Lemma read_ast_from_file_no_slot_1 (raw_contents : bytes) (recs : list slot_record) :
  startswith raw_contents magic = true →
  slot_table raw_contents 10 recs →
  Z.of_nat (length recs) < 0xFFFFFFFE →
  Forall (λ r : slot_record, r.1.1 ≠ 1) recs →
  ∀ c, fst (read_ast_from_file raw_contents c)
       = Raise (no_slot_error (py_slice raw_contents 0 50)).
Proof.
  intros Hmagic Htable Hlen Hrecs c.
  unfold read_ast_from_file, archive_blob. rewrite Hmagic. cbn [negb].
  unfold bind at 1. unfold bind at 1.
  change 10%nat with (Z.to_nat 10).
  rewrite (slot_loop_table raw_contents recs 10 1 ∅ false c ltac:(lia) Htable)
    by lia.
  by rewrite (no_slot_1_stored raw_contents recs ∅ (lookup_empty 1) Hrecs).
Qed.

Lemma read_ast_from_file_not_zlib (raw_contents blob : bytes) (is_rpyc_v1 : bool) :
  (∀ c, fst (archive_blob raw_contents c) = Ok (blob, is_rpyc_v1)) →
  zlib_decompress blob = None →
  ∀ c, fst (read_ast_from_file raw_contents c) = Raise no_zlib_error.
Proof.
  intros Harchive Hzlib c.
  unfold read_ast_from_file.
  specialize (Harchive c).
  destruct (archive_blob raw_contents c) as [r c'] eqn:Hrun.
  cbn [fst] in Harchive. subst r.
  erewrite bind_ok by exact Hrun. cbn iota beta.
  unfold load_contents.
  by erewrite bind_raise by (by rewrite Hzlib).
Qed.

(** X22: outside [--try-harder], a v2 archive whose terminated slot
    table has no record with the id 1, and a file whose blob does not
    inflate, make the reader raise [BadRpycException], and the worker
    files the result under ['spoofed']. *)
Lemma malformed_container_is_spoofed (args : Args) (filename out_filename : string)
    (translator : option (Translator entry)) (raw_contents : bytes) (w : world) :
  write_translation_file args = None →
  try_harder args = false →
  load_translator args = Ok translator →
  output_path filename (dump args) = Ok out_filename →
  clobber args = true ∨ files w !! out_filename = None →
  files w !! filename = Some raw_contents →
  (startswith raw_contents magic = true
   ∧ ∃ recs, slot_table raw_contents 10 recs
             ∧ Z.of_nat (length recs) < 0xFFFFFFFE
             ∧ Forall (λ r : slot_record, r.1.1 ≠ 1) recs)
  ∨ (∃ blob is_rpyc_v1,
       (∀ c, fst (archive_blob raw_contents c) = Ok (blob, is_rpyc_v1))
       ∧ zlib_decompress blob = None) →
  ∃ context w',
    worker args filename w = (Ok context, w')
    ∧ state context = Some spoofed.
Proof.
  intros Hwrite Hharder Htranslator Hout Hfree Hfile Hmalformed.
  assert (Hread : ∃ msg detail,
            ∀ c, fst (read_ast_from_file raw_contents c)
                 = Raise (BadRpycException msg detail)).
  { destruct Hmalformed as [[Hmagic (recs & Htable & Hlen & Hrecs)]
                           |(blob & is_rpyc_v1 & Harchive & Hzlib)].
    - eexists _, _. by eapply read_ast_from_file_no_slot_1.
    - eexists _, _. by eapply read_ast_from_file_not_zlib. }
  destruct Hread as (msg & detail & Hread).
  destruct (worker_read_raises args filename out_filename translator raw_contents
              (BadRpycException msg detail) w)
    as (context & w' & Hworker & Hstate & _); try done.
  eauto.
Qed.

(** ** Translation extraction *)

Lemma extract_translations_raises (input_filename : string) (language : option string)
    (c : Context) (w : world) :
  extract_translations input_filename language (c, w)
    = (Raise (match files w !! input_filename with
              | Some _ => missing_context
              | None => OtherException "FileNotFoundError" input_filename
              end),
       (ctx_log ("Extracting translations from " ++ input_filename ++ "...") c,
        emit (EvOpenRead input_filename) w)).
Proof.
  unfold extract_translations.
  erewrite bind_ok by reflexivity. cbn [fst snd].
  destruct (files w !! input_filename) as [content|] eqn:Hfile.
  - erewrite bind_ok by (by apply in_world_open_rb).
    by erewrite bind_raise by reflexivity.
  - by erewrite bind_raise by (by apply in_world_open_rb_missing).
Qed.

Lemma worker_write_mode (args : Args) (out filename : string) (w : world) :
  write_translation_file args = Some out →
  worker args filename w
    = (Ok {| log_contents :=
               ["Extracting translations from " ++ filename ++ "...";
                "Error while decompiling " ++ filename ++ ":";
                format_exc (extraction_error filename w)];
             state := Some fail;
             value := None |},
       emit (EvOpenRead filename) w).
Proof.
  intros Hwrite.
  assert (Hbody : worker_body args filename (Context_init, w)
                  = (Raise (extraction_error filename w),
                     (ctx_log ("Extracting translations from " ++ filename ++ "...")
                        Context_init,
                      emit (EvOpenRead filename) w))).
  { unfold worker_body. rewrite Hwrite. rewrite bool_decide_true by eauto.
    by erewrite bind_raise by apply extract_translations_raises. }
  rewrite (worker_handles _ _ _ _ _ _ Hbody).
  unfold error_header, extraction_error.
  by destruct (files w !! filename).
Qed.

Lemma run_workers_write_mode (where_ : executor) (args : Args) (out : string)
    (worklist : list string) :
  write_translation_file args = Some out →
  ∀ w, ∃ results w1,
    run_workers where_ args worklist w = (Ok results, w1)
    ∧ files w1 = files w
    ∧ length results = length worklist
    ∧ Forall (λ c, state c = Some fail ∧ value c = None) results.
Proof.
  intros Hwrite. induction worklist as [|x worklist IH]; intros w.
  - eexists [], w. by repeat split.
  - cbn [run_workers].
    erewrite bind_ok by reflexivity.
    erewrite bind_ok by (by eapply worker_write_mode).
    destruct (IH (emit (EvOpenRead x) (emit (EvWorker where_ x) w)))
      as (results & w1 & Hrun & Hfiles & Hlen & Hall).
    erewrite bind_ok by exact Hrun.
    eexists _, _. split; [done|]. split; [by rewrite Hfiles|].
    split; [cbn; by rewrite Hlen|]. by constructor.
Qed.

Lemma merge_translations_no_values (results : list Context)
    (translated_dialogue : gmap string entry) (translated_strings : gmap string string) :
  Forall (λ c, value c = None) results →
  merge_translations results translated_dialogue translated_strings
    = Ok (translated_dialogue, translated_strings).
Proof.
  induction 1 as [|c results Hc _ IH]; cbn [merge_translations]; [done|].
  by rewrite Hc.
Qed.

Lemma dispatch_write_mode (args : Args) (out : string) (worklist : list string)
    (w : world) :
  write_translation_file args = Some out →
  ∃ results w1,
    dispatch args worklist w = (Ok results, w1)
    ∧ files w1 = files w
    ∧ length results = length worklist
    ∧ Forall (λ c, state c = Some fail ∧ value c = None) results.
Proof.
  intros Hwrite. unfold dispatch.
  destruct ((1 <? processes args) && (5 <? Z.of_nat (length worklist))).
  - erewrite bind_ok by reflexivity.
    destruct (run_workers_write_mode PoolProcess args out worklist Hwrite
                (emit (EvPool (processes args)) w))
      as (results & w1 & Hrun & Hfiles & Hrest).
    eauto.
  - by apply (run_workers_write_mode CallingThread args out worklist Hwrite).
Qed.

Lemma write_translations_empty (args : Args) (out : string) (results : list Context)
    (w : world) :
  Forall (λ c, state c = Some fail ∧ value c = None) results →
  merge_translations results ∅ ∅ = Ok (∅, ∅)
  ∧ write_translations args out results w
    = (Ok tt,
       {| files := <[out := pickle_safe_dump (language args, ∅, ∅)]> (files w);
          trace := trace w ++ [EvPrint ("Writing translations to " ++ out ++ "...");
                               EvOpenWrite out] |}).
Proof.
  intros Hall.
  assert (Hmerge : merge_translations results ∅ ∅ = Ok (∅, ∅)).
  { apply merge_translations_no_values.
    eapply Forall_impl; [exact Hall|]. by intros c [_ ?]. }
  split; [done|]. unfold write_translations.
  erewrite bind_ok by reflexivity.
  erewrite bind_ok by (unfold lift_res; by rewrite Hmerge).
  unfold open_write, emit. cbn. by rewrite <- app_assoc.
Qed.

Lemma stat_all_ok (worklist : list string) :
  ∀ w, Forall (λ p, is_Some (files w !! p)) worklist →
       ∃ keyed w1, stat_all worklist w = (Ok keyed, w1) ∧ files w1 = files w.
Proof.
  induction worklist as [|x worklist IH]; intros w Hall; cbn [stat_all].
  - by eexists [], w.
  - apply Forall_cons in Hall as [[content Hx] Hall].
    erewrite bind_ok by (unfold stat_size; by rewrite Hx).
    destruct (IH (emit (EvStat x) w) Hall) as (keyed & w1 & Hstat & Hfiles).
    erewrite bind_ok by exact Hstat. eauto.
Qed.

Lemma print_all_ok (lines : list string) :
  ∀ w, ∃ w1, print_all lines w = (Ok tt, w1) ∧ files w1 = files w.
Proof.
  induction lines as [|line lines IH]; intros w; cbn [print_all].
  - by exists w.
  - erewrite bind_ok by reflexivity.
    destruct (IH (emit (EvPrint line) w)) as (w1 & Hprint & Hfiles). eauto.
Qed.

Lemma tally_ok (results : list Context) :
  Forall (λ c, is_Some (state c)) results →
  ∀ state_count w, ∃ state_count' w1,
    tally results state_count w = (Ok state_count', w1) ∧ files w1 = files w.
Proof.
  induction 1 as [|c results [s Hs] _ IH]; intros state_count w; cbn [tally].
  - by eexists state_count, w.
  - rewrite Hs. erewrite bind_ok by reflexivity.
    destruct (print_all_ok (log_contents c) w) as (w1 & Hprint & Hfiles1).
    erewrite bind_ok by exact Hprint.
    destruct (IH (count_state s state_count) w1) as (state_count' & w2 & Htally & Hfiles2).
    rewrite Htally. eexists _, _. split; [done|]. congruence.
Qed.

Lemma process_worklist_write_mode (args : Args) (out : string)
    (worklist : list string) (state_count : SummaryCounts) (w : world) :
  write_translation_file args = Some out →
  worklist ≠ [] →
  Forall (λ p, is_Some (files w !! p)) worklist →
  ∃ w', process_worklist args worklist state_count w = (Ok Returned, w')
        ∧ files w' = <[out := pickle_safe_dump (language args, ∅, ∅)]> (files w).
Proof.
  intros Hwrite Hnonempty Hfiles.
  unfold process_worklist. rewrite bool_decide_false by done.
  destruct (stat_all_ok worklist w Hfiles) as (keyed & w1 & Hstat & Hfiles1).
  erewrite bind_ok by exact Hstat.
  destruct (dispatch_write_mode args out (sort_by_size keyed) w1 Hwrite)
    as (results & w2 & Hrun & Hfiles2 & _ & Hall).
  erewrite bind_ok by exact Hrun.
  rewrite Hwrite.
  destruct (write_translations_empty args out results w2 Hall) as [_ Hwritten].
  erewrite bind_ok by exact Hwritten.
  destruct (tally_ok results
              ltac:(eapply Forall_impl; [exact Hall|]; intros c [-> _]; eauto)
              (with_total state_count (Z.of_nat (length worklist)))
              {| files := <[out := pickle_safe_dump (language args, ∅, ∅)]> (files w2);
                 trace := trace w2 ++ [EvPrint ("Writing translations to " ++ out ++ "...");
                                       EvOpenWrite out] |})
    as (state_count' & w3 & Htally & Hfiles3).
  erewrite bind_ok by exact Htally.
  erewrite bind_ok by reflexivity.
  eexists. split; [reflexivity|].
  cbn [emit files]. rewrite Hfiles3. cbn [files]. congruence.
Qed.

(** C2: in write-translation-file mode [extract_translations] never
    gets an AST: once the input file is open, the call of
    [read_ast_from_file] without its [context] raises [TypeError].  So
    every file of the worklist ends in the state ['fail'] with no
    result, no file is changed by the workers, and the translation file
    is written from an empty dialogue dict and an empty strings dict;
    that file is the one change a run over existing files leaves. *)
Theorem translation_extraction_always_fails (args : Args) (out : string)
    (worklist : list string) (w : world) :
  write_translation_file args = Some out →
  (∀ filename language_ c w0,
      fst (extract_translations filename language_ (c, w0))
        = Raise (match files w0 !! filename with
                 | Some _ => missing_context
                 | None => OtherException "FileNotFoundError" filename
                 end))
  ∧ (∃ results w1 w2,
      dispatch args worklist w = (Ok results, w1)
      ∧ length results = length worklist
      ∧ Forall (λ c, state c = Some fail ∧ value c = None) results
      ∧ files w1 = files w
      ∧ merge_translations results ∅ ∅ = Ok (∅, ∅)
      ∧ write_translations args out results w1 = (Ok tt, w2)
      ∧ files w2 = <[out := pickle_safe_dump (language args, ∅, ∅)]> (files w))
  ∧ (worklist ≠ [] →
     Forall (λ p, is_Some (files w !! p)) worklist →
     ∀ state_count, ∃ w',
       process_worklist args worklist state_count w = (Ok Returned, w')
       ∧ files w' = <[out := pickle_safe_dump (language args, ∅, ∅)]> (files w)).
Proof.
  intros Hwrite. split; [|split].
  - intros. by rewrite extract_translations_raises.
  - destruct (dispatch_write_mode args out worklist w Hwrite)
      as (results & w1 & Hrun & Hfiles & Hlen & Hall).
    destruct (write_translations_empty args out results w1 Hall) as [Hmerge Hwritten].
    eexists results, w1, _. repeat split; try done.
    cbn [files]. by rewrite Hfiles.
  - intros Hnonempty Hfiles state_count.
    by apply (process_worklist_write_mode args out).
Qed.

(** ** Merging the translations *)

Lemma lookup_dict_update {V} (d other : gmap string V) (k : string) :
  dict_update d other !! k
    = match other !! k with Some v => Some v | None => d !! k end.
Proof.
  unfold dict_update. rewrite lookup_union.
  by destruct (other !! k), (d !! k).
Qed.

Lemma lookup_fold_dict_update {V} (bundles : list (gmap string V)) :
  ∀ (d : gmap string V) (k : string),
    fold_left dict_update bundles d !! k
      = match last_writer bundles k with Some v => Some v | None => d !! k end.
Proof.
  induction bundles as [|other bundles IH]; intros d k; cbn [fold_left last_writer].
  - done.
  - rewrite IH, lookup_dict_update.
    by destruct (last_writer bundles k), (other !! k).
Qed.

Lemma last_writer_app {V} (pre post : list (gmap string V)) (k : string) :
  last_writer (pre ++ post) k
    = match last_writer post k with Some v => Some v | None => last_writer pre k end.
Proof.
  induction pre as [|d pre IH]; cbn [app last_writer].
  - by destruct (last_writer post k).
  - rewrite IH. by destruct (last_writer post k).
Qed.

Lemma last_writer_absent {V} (bundles : list (gmap string V)) (k : string) :
  Forall (λ d, d !! k = None) bundles → last_writer bundles k = None.
Proof.
  induction 1 as [|d bundles Hd _ IH]; cbn [last_writer]; [done|]. by rewrite IH.
Qed.

Lemma merge_translations_fold (results : list Context) :
  ∀ (dialogues : list (gmap string entry))
    (translated_dialogue : gmap string entry) (translated_strings : gmap string string),
    Forall2 (λ bundle d, pickle_loads_dialogue bundle.1 = Ok d)
      (omap value results) dialogues →
    merge_translations results translated_dialogue translated_strings
      = Ok (fold_left dict_update dialogues translated_dialogue,
            fold_left dict_update (map snd (omap value results)) translated_strings).
Proof.
  induction results as [|result results IH];
    intros dialogues translated_dialogue translated_strings Hloads;
    cbn [merge_translations omap list_omap] in *.
  - by inversion Hloads.
  - destruct (value result) as [[pickled strings]|].
    + inversion Hloads as [|bundle d bundles dialogues' Hd Hrest]; subst.
      cbn [fst] in Hd. rewrite Hd. cbn [map fold_left snd]. by apply IH.
    + by apply IH.
Qed.

(** C7: the merge is the union of the dialogue dicts and of the strings
    dicts of the results, taken in the order of the results: a key is in
    the merged dict exactly when some bundle has it, and its value is
    the one of the last bundle that has it. *)
Theorem merge_is_last_writer_wins (results : list Context)
    (dialogues : list (gmap string entry)) :
  Forall2 (λ bundle d, pickle_loads_dialogue bundle.1 = Ok d)
    (omap value results) dialogues →
  ∃ merged_dialogue merged_strings,
    merge_translations results ∅ ∅ = Ok (merged_dialogue, merged_strings)
    ∧ (∀ k, merged_dialogue !! k = last_writer dialogues k)
    ∧ (∀ k, merged_strings !! k = last_writer (map snd (omap value results)) k)
    ∧ (∀ k, is_Some (merged_dialogue !! k) ↔ ∃ d, d ∈ dialogues ∧ is_Some (d !! k))
    ∧ (∀ (pre post : list (gmap string entry)) d k v,
          dialogues = (pre ++ d :: post)%list →
          d !! k = Some v →
          Forall (λ d', d' !! k = None) post →
          merged_dialogue !! k = Some v).
Proof.
  intros Hloads. eexists _, _.
  split; [by apply merge_translations_fold|].
  assert (Hd : ∀ k, fold_left dict_update dialogues (∅ : gmap string entry) !! k
                    = last_writer dialogues k).
  { intros k. rewrite lookup_fold_dict_update, lookup_empty.
    by destruct (last_writer dialogues k). }
  split; [done|]. split.
  { intros k. rewrite lookup_fold_dict_update, lookup_empty.
    by destruct (last_writer _ k). }
  split.
  - intros k. rewrite Hd. clear Hd Hloads.
    induction dialogues as [|d dialogues IH]; cbn [last_writer].
    + split; [by intros [? ?]|]. intros (d & Hin & _). by apply elem_of_nil in Hin.
    + destruct (last_writer dialogues k) as [v|].
      * split; [|eauto]. intros _.
        destruct IH as [IH _]. destruct IH as (d' & Hin & Hd'); [eauto|].
        exists d'. split; [by right|done].
      * split.
        -- intros Hk. exists d. split; [by left|done].
        -- intros (d' & Hin & Hd'). apply elem_of_cons in Hin as [->|Hin]; [done|].
           destruct IH as [_ IH]. destruct IH as [? ?]; [eauto|done].
  - intros pre post d k v -> Hk Hpost. rewrite Hd.
    rewrite last_writer_app. cbn [last_writer].
    rewrite (last_writer_absent post k Hpost). by rewrite Hk.
Qed.

(** ** Pre-flight checks of main *)

(** C8: [comparable] or [no_pyexpr] without [dump], a translation file
    to read or write together with [try_harder] or [dump], and an
    existing output translation file without [clobber] each end [main]
    with an argument error; nothing was opened, printed or written, the
    one thing that may have been done being the existence test of the
    output translation file. *)
Theorem invalid_arguments_abort_before_any_file (args : Args) (w : world) :
  ((comparable args = true ∨ no_pyexpr args = true) ∧ dump args = false)
  ∨ ((try_harder args = true ∨ dump args = true)
     ∧ (is_Some (write_translation_file args) ∨ is_Some (translation_file args)))
  ∨ (∃ out, write_translation_file args = Some out
            ∧ clobber args = false
            ∧ is_Some (files w !! out)) →
  ∃ message w',
    main args w = (Ok (ArgumentError message), w')
    ∧ files w' = files w
    ∧ (trace w' = trace w
       ∨ ∃ out, write_translation_file args = Some out
                ∧ trace w' = (trace w ++ [EvExists out])%list).
Proof.
  intros Hinvalid. unfold main.
  destruct ((no_pyexpr args || comparable args) && negb (dump args)) eqn:Hcheck1.
  { eexists _, w. split; [done|]. split; [done|]. by left. }
  destruct ((try_harder args || dump args)
            && (bool_decide (is_Some (write_translation_file args))
                || bool_decide (is_Some (translation_file args))
                || truthy (language args))) eqn:Hcheck2.
  { eexists _, w. split; [done|]. split; [done|]. by left. }
  destruct Hinvalid as [[Hflag Hdump]|[[Hmode Hfile]|(out & Hwrite & Hclobber & Hexists)]].
  - rewrite Hdump in Hcheck1. destruct Hflag as [Hflag|Hflag];
      rewrite Hflag in Hcheck1; destruct (no_pyexpr args); discriminate.
  - assert (try_harder args || dump args = true) as Hm
      by (destruct Hmode as [Hmode|Hmode]; rewrite Hmode;
          by destruct (try_harder args)).
    rewrite Hm in Hcheck2. destruct Hfile as [Hfile|Hfile];
      rewrite (bool_decide_true _ Hfile) in Hcheck2;
      [|rewrite orb_true_r in Hcheck2]; discriminate.
  - rewrite Hwrite, Hclobber. cbn [negb].
    unfold bind, path_exists. rewrite bool_decide_true by done.
    eexists _, _. split; [done|]. split; [done|]. right. eauto.
Qed.

(** ** What a worker does to the trace *)

Section Trace.
Context {S : Type} (tr : S → list event).

Lemma ofe_ret {A} (a : A) : only_file_events tr (ret a).
Proof. intros s. exists []. by rewrite app_nil_r. Qed.

Lemma ofe_raise {A} (e : exn) : only_file_events tr (raise (A := A) e).
Proof. intros s. exists []. by rewrite app_nil_r. Qed.

Lemma ofe_lift_res {A} (r : res A) : only_file_events tr (lift_res r).
Proof. intros s. exists []. by rewrite app_nil_r. Qed.

Lemma ofe_bind {A B} (m : M S A) (k : A → M S B) :
  only_file_events tr m → (∀ a, only_file_events tr (k a)) →
  only_file_events tr (bind m k).
Proof.
  intros Hm Hk s. unfold bind.
  destruct (Hm s) as (evs1 & Htr1 & Hfile1).
  destruct (m s) as [[a|e] s1]; cbn [snd] in *.
  - destruct (Hk a s1) as (evs2 & Htr2 & Hfile2).
    exists (evs1 ++ evs2)%list.
    rewrite Htr2, Htr1, app_assoc, forallb_app, Hfile1, Hfile2. done.
  - eauto.
Qed.
End Trace.

Lemma ofe_in_ctx {A} (m : M Context A) : only_file_events run_trace (in_ctx m).
Proof.
  intros [c w]. unfold in_ctx. cbn [fst snd]. destruct (m c) as [r c'].
  exists []. by rewrite app_nil_r.
Qed.

Lemma ofe_in_world {A} (m : M world A) :
  only_file_events trace m → only_file_events run_trace (in_world m).
Proof.
  intros Hm [c w]. unfold in_world. cbn [fst snd].
  destruct (Hm w) as (evs & Htr & Hfile). destruct (m w) as [r w']. eauto.
Qed.

Lemma ofe_path_exists (p : string) : only_file_events trace (path_exists p).
Proof. intros w. by exists [EvExists p]. Qed.

Lemma ofe_open_rb (p : string) : only_file_events trace (open_rb p).
Proof.
  intros w. exists [EvOpenRead p]. unfold open_rb. by destruct (files w !! p).
Qed.

Lemma ofe_open_write (p : string) (written : bytes) :
  only_file_events trace (open_write p written).
Proof. intros w. by exists [EvOpenWrite p]. Qed.

Lemma ofe_get_ctx : only_file_events run_trace get_ctx.
Proof. intros s. exists []. by rewrite app_nil_r. Qed.

Create HintDb ofe.
Hint Resolve ofe_ret ofe_raise ofe_lift_res ofe_in_ctx ofe_get_ctx
  ofe_path_exists ofe_open_rb ofe_open_write : ofe.

Ltac ofe_step :=
  first
    [ apply ofe_bind; [|intros ?]
    | apply ofe_in_world
    | solve [eauto with ofe]
    | match goal with
      | |- only_file_events _ (if ?b then _ else _) => destruct b
      | |- only_file_events _ (match ?x with _ => _ end) => destruct x
      | |- only_file_events _ (let (_, _) := ?x in _) => destruct x
      end ].

Lemma ofe_decompile_rpyc (input_filename : string)
    (overwrite try_harder dump comparable no_pyexpr : bool)
    (translator : option (Translator entry)) (init_offset : bool)
    (sl_custom_names : sl_names) :
  only_file_events run_trace
    (decompile_rpyc input_filename overwrite try_harder dump comparable no_pyexpr
       translator init_offset sl_custom_names).
Proof.
  unfold decompile_rpyc, write_output, set_state, after_pprint.
  repeat ofe_step.
Qed.

Lemma ofe_worker_body (args : Args) (filename : string) :
  only_file_events run_trace (worker_body args filename).
Proof.
  unfold worker_body, extract_translations.
  destruct (bool_decide _).
  - repeat ofe_step.
  - apply ofe_bind; [eauto with ofe|intros translator].
    apply ofe_bind; [apply ofe_decompile_rpyc|intros ?]. eauto with ofe.
Qed.

Lemma ofe_worker (args : Args) (filename : string) :
  only_file_events trace (worker args filename).
Proof.
  intros w. unfold worker.
  destruct (ofe_worker_body args filename (Context_init, w)) as (evs & Htr & Hfile).
  cbn [snd] in Htr.
  destruct (worker_body args filename (Context_init, w)) as [[result|e] [context w']];
    cbn [snd] in *; [eauto|].
  destruct (is_BadRpycException e); eauto.
Qed.

Lemma control_events_of_files (evs : list event) :
  forallb file_event evs = true → control_events evs = [].
Proof.
  induction evs as [|ev evs IH]; cbn; [done|].
  intros [Hev Hevs]%andb_prop. rewrite Hev. cbn. by apply IH.
Qed.

Lemma run_workers_trace (where_ : executor) (args : Args) (worklist : list string) :
  ∀ w, ∃ evs,
    trace (snd (run_workers where_ args worklist w)) = (trace w ++ evs)%list
    ∧ control_events evs = map (EvWorker where_) worklist.
Proof.
  induction worklist as [|x worklist IH]; intros w; cbn [run_workers].
  - exists []. by rewrite app_nil_r.
  - erewrite bind_ok by reflexivity.
    destruct (ofe_worker args x (emit (EvWorker where_ x) w)) as (evs1 & Htr1 & Hfile1).
    destruct (worker_returns args x (emit (EvWorker where_ x) w))
      as (context & w1 & Hworker).
    rewrite Hworker in Htr1. cbn [snd] in Htr1.
    erewrite bind_ok by exact Hworker.
    destruct (IH w1) as (evs2 & Htr2 & Hcontrol2).
    exists (EvWorker where_ x :: evs1 ++ evs2)%list. split.
    + unfold bind, ret.
      destruct (run_workers where_ args worklist w1) as [[results|e] w2];
        cbn [snd] in *; rewrite Htr2, Htr1; cbn [emit trace];
        by rewrite <- !app_assoc.
    + pose proof (control_events_of_files evs1 Hfile1) as Hcontrol1.
      unfold control_events in *. cbn [List.filter file_event negb map].
      by rewrite List.filter_app, Hcontrol1, Hcontrol2.
Qed.

(** ** Pool or calling thread *)

Lemma run_workers_processed (where_ : executor) (args : Args) (worklist : list string) :
  ∀ w, ∃ results w',
    run_workers where_ args worklist w = (Ok results, w')
    ∧ processed where_ args worklist w results w'.
Proof.
  induction worklist as [|x worklist IH]; intros w; cbn [run_workers].
  - eexists [], w. split; [done|constructor].
  - erewrite bind_ok by reflexivity.
    destruct (worker_returns args x (emit (EvWorker where_ x) w))
      as (context & w1 & Hworker).
    erewrite bind_ok by exact Hworker.
    destruct (IH w1) as (results & w2 & Hrun & Hprocessed).
    erewrite bind_ok by exact Hrun.
    eexists _, _. split; [done|]. by econstructor.
Qed.

Lemma processed_length (where_ : executor) (args : Args) (worklist : list string)
    (w w' : world) (results : list Context) :
  processed where_ args worklist w results w' → length results = length worklist.
Proof. induction 1; cbn; congruence. Qed.

(** C9: the run of the workers starts a pool exactly when
    [args.processes] is above 1 and the worklist has more than 5 files,
    and then every file is handed to a pool process; otherwise every
    file is processed in the calling thread.  Either way the run returns
    one result for each file of the worklist, in the order of the
    worklist: the context [worker] returns for this file, on the disk as
    the files before it left it. *)
Theorem pool_engaged_iff (args : Args) (worklist : list string) (w : world) :
  ∃ results w' evs,
    dispatch args worklist w = (Ok results, w')
    ∧ trace w' = (trace w ++ evs)%list
    ∧ (In (EvPool (processes args)) evs
       ↔ 1 < processes args ∧ 5 < Z.of_nat (length worklist))
    ∧ control_events evs
        = (if bool_decide (1 < processes args ∧ 5 < Z.of_nat (length worklist))
           then EvPool (processes args) :: map (EvWorker PoolProcess) worklist
           else map (EvWorker CallingThread) worklist)
    ∧ (if bool_decide (1 < processes args ∧ 5 < Z.of_nat (length worklist))
       then processed PoolProcess args worklist
              (emit (EvPool (processes args)) w) results w'
       else processed CallingThread args worklist w results w')
    ∧ length results = length worklist.
Proof.
  assert (Hno_pool : ∀ where_ (l : list string) evs,
            control_events evs = map (EvWorker where_) l →
            ¬ In (EvPool (processes args)) evs).
  { intros where_ l evs Hcontrol Hin.
    assert (Hin' : In (EvPool (processes args)) (control_events evs))
      by (by apply List.filter_In).
    rewrite Hcontrol in Hin'. apply List.in_map_iff in Hin' as (x & Hx & _).
    discriminate. }
  assert (Hsequential : ¬ (1 < processes args ∧ 5 < Z.of_nat (length worklist)) →
            ∃ results w' evs,
              run_workers CallingThread args worklist w = (Ok results, w')
              ∧ trace w' = (trace w ++ evs)%list
              ∧ (In (EvPool (processes args)) evs
                 ↔ 1 < processes args ∧ 5 < Z.of_nat (length worklist))
              ∧ control_events evs = map (EvWorker CallingThread) worklist
              ∧ processed CallingThread args worklist w results w'
              ∧ length results = length worklist).
  { intros Hnot.
    destruct (run_workers_processed CallingThread args worklist w)
      as (results & w' & Hrun & Hprocessed).
    destruct (run_workers_trace CallingThread args worklist w) as (evs & Htr & Hcontrol).
    rewrite Hrun in Htr. cbn [snd] in Htr.
    exists results, w', evs. split; [done|]. split; [done|]. split.
    { split; [intros Hin; by apply Hno_pool in Hcontrol|done]. }
    split; [done|]. split; [done|]. by eapply processed_length. }
  unfold dispatch.
  destruct (1 <? processes args) eqn:Hprocesses;
    [destruct (5 <? Z.of_nat (length worklist)) eqn:Hlength|]; cbn [andb].
  - apply Z.ltb_lt in Hprocesses, Hlength.
    erewrite bind_ok by reflexivity.
    destruct (run_workers_processed PoolProcess args worklist
                (emit (EvPool (processes args)) w))
      as (results & w' & Hrun & Hprocessed).
    destruct (run_workers_trace PoolProcess args worklist
                (emit (EvPool (processes args)) w)) as (evs & Htr & Hcontrol).
    rewrite Hrun in Htr. cbn [snd] in Htr.
    exists results, w', (EvPool (processes args) :: evs).
    rewrite bool_decide_true by done.
    split; [done|]. split.
    { rewrite Htr. cbn [emit trace]. by rewrite <- app_assoc. }
    split.
    { split; [done|]. intros _. by left. }
    split.
    { unfold control_events in *. cbn. by rewrite Hcontrol. }
    split; [done|]. by eapply processed_length.
  - apply Z.ltb_ge in Hlength.
    rewrite bool_decide_false by lia. apply Hsequential. lia.
  - apply Z.ltb_ge in Hprocesses.
    rewrite bool_decide_false by lia. apply Hsequential. lia.
Qed.

(** ** More on the archive reader *)

Lemma lookup_stored_chunks (raw_contents : bytes) (recs : list slot_record) (slot : Z) :
  ∀ chunks : gmap Z bytes,
    fold_left (store_chunk raw_contents) recs chunks !! slot
      = match last_record slot recs with
        | Some r => Some (record_bytes raw_contents r)
        | None => chunks !! slot
        end.
Proof.
  induction recs as [|r recs IH]; intros chunks; cbn [fold_left last_record]; [done|].
  rewrite IH. destruct (last_record slot recs) as [r'|]; [done|].
  unfold store_chunk, record_bytes.
  destruct (Z.eqb_spec r.1.1 slot) as [->|Hne].
  - by rewrite lookup_insert_eq.
  - by rewrite lookup_insert_ne.
Qed.

(** X1: in a v2 archive whose slot table is terminated, whatever the
    order of the ids and however often an id occurs, the blob that is
    loaded is the one of the last record with slot id 1 (a later record
    of the same id replaces an earlier one); the slot warning is logged
    first when some id is off the sequence 1, 2, 3, .... *)
Theorem read_ast_from_file_last_slot_1 (raw_contents : bytes) (recs : list slot_record)
    (r : slot_record) (context : Context) :
  startswith raw_contents magic = true →
  slot_table raw_contents 10 recs →
  Z.of_nat (length recs) < 0xFFFFFFFE →
  last_record 1 recs = Some r →
  read_ast_from_file raw_contents context
    = load_contents false (record_bytes raw_contents r)
        (if mismatch 1 recs then ctx_log slot_warning context else context).
Proof.
  intros Hmagic Htable Hlen Hlast.
  unfold read_ast_from_file, archive_blob. rewrite Hmagic. cbn [negb].
  unfold bind at 1. unfold bind at 1.
  change 10%nat with (Z.to_nat 10).
  rewrite (slot_loop_table raw_contents recs 10 1 ∅ false context ltac:(lia) Htable)
    by lia.
  rewrite lookup_stored_chunks, Hlast. by cbn [negb andb].
Qed.

Lemma mismatch_false_seqZ (recs : list slot_record) :
  ∀ expected_slot,
    mismatch expected_slot recs = false
    ↔ map (λ r : slot_record, r.1.1) recs = seqZ expected_slot (Z.of_nat (length recs)).
Proof.
  induction recs as [|r recs IH]; intros expected_slot; cbn [mismatch map length].
  - done.
  - rewrite Nat2Z.inj_succ, seqZ_cons by lia.
    replace (Z.pred (Z.succ (Z.of_nat (length recs)))) with (Z.of_nat (length recs)) by lia.
    rewrite orb_false_iff, negb_false_iff, Z.eqb_eq, IH.
    replace (Z.succ expected_slot) with (expected_slot + 1) by lia.
    split; [intros [-> ->]; done|]. intros Heq. by inversion Heq.
Qed.

(** X2: a v2 archive whose terminated slot table has the ids 1, 2, ..., n
    in this order is read without the slot warning: the loop leaves the
    context as it found it and files every record under its id. *)
Theorem ascending_slots_not_warned (raw_contents : bytes) (recs : list slot_record)
    (context : Context) :
  slot_table raw_contents 10 recs →
  Z.of_nat (length recs) < 0xFFFFFFFE →
  map (λ r : slot_record, r.1.1) recs = seqZ 1 (Z.of_nat (length recs)) →
  ∃ chunks,
    slot_loop raw_contents (drop 10 raw_contents) 1 ∅ false context = (Ok chunks, context)
    ∧ ∀ r, r ∈ recs → chunks !! r.1.1 = Some (record_bytes raw_contents r).
Proof.
  intros Htable Hlen Hids.
  change 10%nat with (Z.to_nat 10).
  rewrite (slot_loop_table raw_contents recs 10 1 ∅ false context ltac:(lia) Htable)
    by lia.
  apply mismatch_false_seqZ in Hids as Hmis. rewrite Hmis. cbn [negb andb].
  eexists. split; [done|].
  intros r Hr. rewrite lookup_stored_chunks.
  assert (Hnodup : NoDup (map (λ r : slot_record, r.1.1) recs))
    by (rewrite Hids; apply NoDup_seqZ).
  clear -Hr Hnodup.
  induction recs as [|r' recs IH]; [by apply elem_of_nil in Hr|].
  cbn [map] in Hnodup. apply NoDup_cons in Hnodup as [Hfresh Hnodup].
  cbn [last_record].
  apply elem_of_cons in Hr as [->|Hr].
  - assert (Hnone : last_record r'.1.1 recs = None).
    { clear -Hfresh. induction recs as [|r recs IH]; [done|].
      cbn [last_record map] in *. apply not_elem_of_cons in Hfresh as [Hne Hfresh].
      rewrite (IH Hfresh).
      destruct (Z.eqb_spec r.1.1 r'.1.1); [congruence|done]. }
    by rewrite Hnone, Z.eqb_refl.
  - specialize (IH Hr Hnodup).
    destruct (last_record r.1.1 recs) as [r''|]; [done|].
    by rewrite lookup_empty in IH.
Qed.

(** X3: whatever the bytes of the file, [read_ast_from_file] leaves the
    state and the result of the context alone and adds at most two lines
    to its log: the slot warning, at most once, and then one of the
    two version warnings, at most once. *)
Theorem read_ast_from_file_logs_at_most_two (raw_contents : bytes) (context : Context) :
  ∃ slot_lines version_lines,
    snd (read_ast_from_file raw_contents context)
      = {| log_contents := log_contents context ++ slot_lines ++ version_lines;
           state := state context; value := value context |}
    ∧ (slot_lines = [] ∨ slot_lines = [slot_warning])
    ∧ (version_lines = [] ∨ version_lines = [version_warning "6"]
       ∨ version_lines = [version_warning "7"]).
Proof.
  assert (Hload : ∀ is_rpyc_v1 contents c,
    ∃ version_lines,
      snd (load_contents is_rpyc_v1 contents c)
        = {| log_contents := log_contents c ++ version_lines;
             state := state c; value := value c |}
      ∧ (version_lines = [] ∨ version_lines = [version_warning "6"]
         ∨ version_lines = [version_warning "7"])).
  { intros is_rpyc_v1 contents c. unfold load_contents, bind, raise, ret, lift_res.
    destruct (zlib_decompress contents) as [payload|].
    - destruct is_rpyc_v1; cbn [orb].
      + exists [version_warning "6"]. split; [|by right; left].
        unfold log, modify. by destruct (pickle_safe_loads payload) as [[? ?]|?].
      + destruct (pickle_detect_python2 payload).
        * exists [version_warning "7"]. split; [|by right; right].
          unfold log, modify. by destruct (pickle_safe_loads payload) as [[? ?]|?].
        * exists []. split; [|by left]. rewrite app_nil_r.
          destruct (pickle_safe_loads payload) as [[? ?]|?]; by destruct c.
    - exists []. split; [|by left]. rewrite app_nil_r. by destruct c. }
  assert (Hblob : ∃ slot_lines,
    snd (archive_blob raw_contents context)
      = {| log_contents := log_contents context ++ slot_lines;
           state := state context; value := value context |}
    ∧ (slot_lines = [] ∨ slot_lines = [slot_warning])).
  { unfold archive_blob. destruct (startswith raw_contents magic); cbn [negb].
    - unfold bind.
      destruct (slot_loop raw_contents (drop 10 raw_contents) 1 ∅ false context)
        as [r c'] eqn:Hloop.
      destruct (slot_loop_warns_at_most_once raw_contents
                  (length (drop 10 raw_contents)) _ _ _ _ _ _ _ (Nat.le_refl _) Hloop)
        as [->|[_ ->]].
      + exists []. split; [|by left]. rewrite app_nil_r.
        destruct r as [chunks|e]; [destruct (chunks !! 1)|]; by destruct context.
      + exists [slot_warning]. split; [|by right].
        destruct r as [chunks|e]; [destruct (chunks !! 1)|]; done.
    - exists []. split; [|by left]. rewrite app_nil_r. by destruct context. }
  destruct Hblob as (slot_lines & Hblob & Hslot).
  unfold read_ast_from_file, bind.
  destruct (archive_blob raw_contents context) as [[[contents is_rpyc_v1]|e] c1];
    cbn [snd] in Hblob; subst c1.
  - destruct (Hload is_rpyc_v1 contents
                {| log_contents := log_contents context ++ slot_lines;
                   state := state context; value := value context |})
      as (version_lines & Hrun & Hversion).
    exists slot_lines, version_lines. split; [|done].
    rewrite Hrun. cbn [log_contents state value]. by rewrite <- app_assoc.
  - exists slot_lines, []. split; [|split; [done|by left]].
    cbn [snd]. by rewrite app_nil_r.
Qed.

(** X4: a file that does not start with [RENPY RPC2] is taken whole as
    the zlib blob (rpyc v1).  If it inflates, the version 6 warning is
    logged and the statements are what [pickle_safe_loads] gives for the
    inflated bytes; if it does not, the reader raises [BadRpycException]
    and logs nothing. *)
Theorem read_ast_from_file_v1 (raw_contents : bytes) (context : Context) :
  startswith raw_contents magic = false →
  read_ast_from_file raw_contents context
    = match zlib_decompress raw_contents with
      | Some payload =>
          (match pickle_safe_loads payload with
           | Ok (_, stmts) => Ok stmts
           | Raise e => Raise e
           end,
           ctx_log (version_warning "6") context)
      | None => (Raise no_zlib_error, context)
      end.
Proof.
  intros Hmagic.
  unfold read_ast_from_file, archive_blob. rewrite Hmagic. cbn [negb].
  erewrite bind_ok by reflexivity. cbn iota beta.
  unfold load_contents, bind, raise, ret, lift_res, log, modify.
  destruct (zlib_decompress raw_contents) as [payload|]; [|done].
  cbn [orb]. by destruct (pickle_safe_loads payload) as [[? ?]|?].
Qed.

(** ** More on the per-file pipeline *)

Lemma write_output_run (out_filename : string) (ast_ : ast)
    (dump comparable no_pyexpr : bool) (translator : option (Translator entry))
    (init_offset : bool) (sl_custom_names : sl_names) (c : Context) (w : world) :
  let p := pprint_result dump comparable no_pyexpr translator init_offset
             sl_custom_names ast_ c in
  write_output out_filename ast_ dump comparable no_pyexpr translator init_offset
      sl_custom_names (c, w)
    = (match pp_raised p with None => Ok tt | Some e => Raise e end,
       (log_all (pp_logged p) c,
        {| files := <[out_filename := pp_written p]> (files w);
           trace := trace w ++ [EvOpenWrite out_filename] |})).
Proof.
  unfold write_output, pprint_result. destruct dump.
  - destruct (astdump_pprint ast_ comparable no_pyexpr) as [written raised].
    erewrite bind_ok by reflexivity. cbn [fst snd pp_raised pp_logged pp_written].
    by destruct raised.
  - erewrite bind_ok by reflexivity. cbn zeta.
    erewrite bind_ok by reflexivity.
    erewrite bind_ok by reflexivity. cbn [fst snd].
    by destruct (pp_raised _).
Qed.

Lemma decompile_rpyc_after_read (input_filename out_filename : string)
    (overwrite try_harder dump comparable no_pyexpr init_offset : bool)
    (translator : option (Translator entry)) (sl_custom_names : sl_names)
    (raw_contents : bytes) (ast_ : ast) (context c1 : Context) (w : world) :
  output_path input_filename dump = Ok out_filename →
  overwrite = true ∨ files w !! out_filename = None →
  files w !! input_filename = Some raw_contents →
  reader try_harder raw_contents
      (ctx_log ("Decompiling " ++ input_filename ++ " to "
                ++ path_name out_filename ++ "...") context)
    = (Ok ast_, c1) →
  let p := pprint_result dump comparable no_pyexpr translator init_offset
             sl_custom_names ast_ c1 in
  decompile_rpyc input_filename overwrite try_harder dump comparable no_pyexpr
      translator init_offset sl_custom_names (context, w)
    = (match pp_raised p with None => Ok tt | Some e => Raise e end,
       (match pp_raised p with
        | None => ctx_set_state ok (log_all (pp_logged p) c1)
        | Some _ => log_all (pp_logged p) c1
        end,
        {| files := <[out_filename := pp_written p]> (files w);
           trace := trace w ++ (if overwrite then [] else [EvExists out_filename])
                      ++ [EvOpenRead input_filename; EvOpenWrite out_filename] |})).
Proof.
  intros Hout Hfree Hfile Hread p.
  unfold decompile_rpyc.
  erewrite bind_ok by (unfold lift_res; by rewrite Hout).
  erewrite bind_ok by reflexivity. cbn [fst snd].
  assert (Hskip : overwrite = true ∨ overwrite = false ∧ files w !! out_filename = None)
    by (destruct overwrite; intuition).
  assert (Hrest : ∀ w1, files w1 = files w →
    (in_file <- in_world (open_rb input_filename) ;;
     ast_ <- in_ctx (if try_harder then deobfuscate_read_ast in_file
                     else read_ast_from_file in_file) ;;
     write_output out_filename ast_ dump comparable no_pyexpr translator
       init_offset sl_custom_names ;;;
     set_state ok)
      (ctx_log ("Decompiling " ++ input_filename ++ " to "
                ++ path_name out_filename ++ "...") context, w1)
    = (match pp_raised p with None => Ok tt | Some e => Raise e end,
       (match pp_raised p with
        | None => ctx_set_state ok (log_all (pp_logged p) c1)
        | Some _ => log_all (pp_logged p) c1
        end,
        {| files := <[out_filename := pp_written p]> (files w);
           trace := trace w1 ++ [EvOpenRead input_filename; EvOpenWrite out_filename] |}))).
  { intros w1 Hw1.
    erewrite bind_ok by (by apply in_world_open_rb; rewrite Hw1).
    erewrite bind_ok
      by (unfold in_ctx, reader in *; cbn [fst snd]; destruct try_harder; by rewrite Hread).
    cbn [fst snd].
    pose proof (write_output_run out_filename ast_ dump comparable no_pyexpr translator
                  init_offset sl_custom_names c1 (emit (EvOpenRead input_filename) w1))
      as Hwrite.
    cbn zeta in Hwrite. fold p in Hwrite.
    destruct (pp_raised p) as [e|].
    - erewrite bind_raise by exact Hwrite.
      cbn [emit files trace]. by rewrite Hw1, <- app_assoc.
    - erewrite bind_ok by exact Hwrite.
      cbn [emit files trace]. by rewrite Hw1, <- app_assoc. }
  destruct Hskip as [->|[-> Hnone]]; cbn [negb].
  - erewrite bind_ok by reflexivity. rewrite Hrest by done. by rewrite app_nil_l.
  - erewrite bind_ok by (by apply in_world_path_exists_false).
    rewrite Hrest by done. cbn [emit trace]. by rewrite <- app_assoc.
Qed.


Lemma decompile_rpyc_reaches_open (input_filename out_filename : string)
    (overwrite try_harder dump comparable no_pyexpr init_offset : bool)
    (translator : option (Translator entry)) (sl_custom_names : sl_names)
    (context : Context) (w : world) :
  output_path input_filename dump = Ok out_filename →
  overwrite = true ∨ files w !! out_filename = None →
  decompile_rpyc input_filename overwrite try_harder dump comparable no_pyexpr
      translator init_offset sl_custom_names (context, w)
    = (in_file <- in_world (open_rb input_filename) ;;
       ast_ <- in_ctx (reader try_harder in_file) ;;
       write_output out_filename ast_ dump comparable no_pyexpr translator
         init_offset sl_custom_names ;;;
       set_state ok)
        (ctx_log ("Decompiling " ++ input_filename ++ " to "
                  ++ path_name out_filename ++ "...") context,
         if overwrite then w else emit (EvExists out_filename) w).
Proof.
  intros Hout Hfree.
  assert (Hskip : overwrite = true ∨ overwrite = false ∧ files w !! out_filename = None)
    by (destruct overwrite; intuition).
  unfold decompile_rpyc, reader.
  etrans; [eapply bind_ok; unfold lift_res; by rewrite Hout|].
  etrans; [eapply bind_ok; reflexivity|]. cbn [fst snd].
  destruct Hskip as [->|[-> Hnone]]; cbn [negb].
  - etrans; [eapply bind_ok; reflexivity|]. by destruct try_harder.
  - etrans; [eapply bind_ok; by apply in_world_path_exists_false|].
    by destruct try_harder.
Qed.

Lemma bind_inv_ok {S A B} (m : M S A) (k : A → M S B) (s s' : S) (b : B) :
  bind m k s = (Ok b, s') → ∃ a s1, m s = (Ok a, s1) ∧ k a s1 = (Ok b, s').
Proof.
  unfold bind. destruct (m s) as [[a|e] s1]; [eauto|discriminate].
Qed.

Lemma worker_body_decompile (args : Args) (filename : string)
    (translator : option (Translator entry)) (s : Context * world) :
  write_translation_file args = None →
  load_translator args = Ok translator →
  worker_body args filename s
    = (decompile_rpyc filename (clobber args) (try_harder args) (dump args)
         (comparable args) (no_pyexpr args) translator (init_offset args)
         (sl_custom_names args) ;;; ret None) s.
Proof.
  intros Hwrite Htranslator. unfold worker_body. rewrite Hwrite.
  rewrite bool_decide_false by (by intros [? ?]).
  by erewrite bind_ok by (unfold lift_res; by rewrite Htranslator).
Qed.

(** X6: when the printer raises after the statements were read, the
    output file has been created, or overwritten, all the same and holds
    what the printer had written; the worker records the failure (state
    ['fail'] for any exception but [BadRpycException]) with the traceback
    as the last line of the log. *)
Theorem printer_failure_leaves_output (args : Args) (filename out_filename : string)
    (translator : option (Translator entry)) (raw_contents : bytes) (ast_ : ast)
    (c1 : Context) (e : exn) (w : world) :
  write_translation_file args = None →
  load_translator args = Ok translator →
  output_path filename (dump args) = Ok out_filename →
  clobber args = true ∨ files w !! out_filename = None →
  files w !! filename = Some raw_contents →
  reader (try_harder args) raw_contents
      (ctx_log ("Decompiling " ++ filename ++ " to "
                ++ path_name out_filename ++ "...") Context_init)
    = (Ok ast_, c1) →
  pp_raised (pprint_result (dump args) (comparable args) (no_pyexpr args) translator
               (init_offset args) (sl_custom_names args) ast_ c1) = Some e →
  ∃ context w',
    worker args filename w = (Ok context, w')
    ∧ state context = Some (if is_BadRpycException e then spoofed else fail)
    ∧ last (log_contents context) = Some (format_exc e)
    ∧ files w'
      = <[out_filename :=
            pp_written (pprint_result (dump args) (comparable args) (no_pyexpr args)
                          translator (init_offset args) (sl_custom_names args) ast_ c1)]>
          (files w).
Proof.
  intros Hwrite Htranslator Hout Hfree Hfile Hread Hraised.
  pose proof (decompile_rpyc_after_read filename out_filename (clobber args)
                (try_harder args) (dump args) (comparable args) (no_pyexpr args)
                (init_offset args) translator (sl_custom_names args) raw_contents ast_
                Context_init c1 w Hout Hfree Hfile Hread) as Hrun.
  cbn zeta in Hrun. rewrite Hraised in Hrun.
  assert (Hbody : worker_body args filename (Context_init, w)
                  = (Raise e, (log_all (pp_logged (pprint_result (dump args)
                        (comparable args) (no_pyexpr args) translator (init_offset args)
                        (sl_custom_names args) ast_ c1)) c1,
                      {| files := <[out_filename := pp_written (pprint_result (dump args)
                            (comparable args) (no_pyexpr args) translator
                            (init_offset args) (sl_custom_names args) ast_ c1)]> (files w);
                         trace := trace w
                           ++ (if clobber args then [] else [EvExists out_filename])
                           ++ [EvOpenRead filename; EvOpenWrite out_filename] |}))).
  { rewrite (worker_body_decompile args filename translator _ Hwrite Htranslator).
    by erewrite bind_raise by exact Hrun. }
  rewrite (worker_handles _ _ _ _ _ _ Hbody).
  eexists _, _. split; [done|]. cbn [state log_contents files].
  split; [done|]. split; [|done]. by rewrite last_app.
Qed.

(** X7: when the input file cannot be opened, or the reader raises
    on its bytes, no output file is created and no file is changed; the
    worker records ['spoofed'] for a [BadRpycException] and ['fail'] for
    anything else. *)
Theorem failed_read_creates_no_output (args : Args) (filename out_filename : string)
    (translator : option (Translator entry)) (w : world) :
  write_translation_file args = None →
  load_translator args = Ok translator →
  output_path filename (dump args) = Ok out_filename →
  clobber args = true ∨ files w !! out_filename = None →
  files w !! filename = None
  ∨ (∃ raw_contents e c1,
       files w !! filename = Some raw_contents
       ∧ reader (try_harder args) raw_contents
           (ctx_log ("Decompiling " ++ filename ++ " to "
                     ++ path_name out_filename ++ "...") Context_init)
         = (Raise e, c1)) →
  ∃ context w',
    worker args filename w = (Ok context, w')
    ∧ files w' = files w
    ∧ (state context = Some fail ∨ state context = Some spoofed).
Proof.
  intros Hwrite Htranslator Hout Hfree Hfailure.
  assert (Hrun : ∃ e c1 w1,
            decompile_rpyc filename (clobber args) (try_harder args) (dump args)
              (comparable args) (no_pyexpr args) translator (init_offset args)
              (sl_custom_names args) (Context_init, w) = (Raise e, (c1, w1))
            ∧ files w1 = files w).
  { rewrite (decompile_rpyc_reaches_open filename out_filename (clobber args)
               (try_harder args) (dump args) (comparable args) (no_pyexpr args)
               (init_offset args) translator (sl_custom_names args) Context_init w
               Hout Hfree).
    destruct Hfailure as [Hnone|(raw_contents & e & c1 & Hfile & Hread)].
    - erewrite bind_raise
        by (apply in_world_open_rb_missing; by destruct (clobber args)).
      eexists _, _, _. split; [done|]. by destruct (clobber args).
    - erewrite bind_ok by (apply in_world_open_rb; by destruct (clobber args)).
      erewrite bind_raise by (unfold in_ctx; cbn [fst snd]; by rewrite Hread).
      eexists _, _, _. split; [done|]. by destruct (clobber args). }
  destruct Hrun as (e & c1 & w1 & Hrun & Hfiles).
  assert (Hbody : worker_body args filename (Context_init, w) = (Raise e, (c1, w1))).
  { rewrite (worker_body_decompile args filename translator _ Hwrite Htranslator).
    by erewrite bind_raise by exact Hrun. }
  rewrite (worker_handles _ _ _ _ _ _ Hbody).
  eexists _, _. split; [done|]. split; [done|]. cbn [state].
  destruct (is_BadRpycException e); eauto.
Qed.

Lemma decompile_rpyc_accesses (input_filename out_filename : string)
    (overwrite try_harder dump comparable no_pyexpr init_offset : bool)
    (translator : option (Translator entry)) (sl_custom_names : sl_names)
    (context : Context) (w : world) :
  output_path input_filename dump = Ok out_filename →
  ∃ evs,
    trace (snd (snd (decompile_rpyc input_filename overwrite try_harder dump comparable
                       no_pyexpr translator init_offset sl_custom_names (context, w))))
      = (trace w ++ evs)%list
    ∧ evs `prefix_of` ((if overwrite then [] else [EvExists out_filename])
                        ++ [EvOpenRead input_filename; EvOpenWrite out_filename])%list
    ∧ (EvOpenWrite out_filename ∉ evs →
       files (snd (snd (decompile_rpyc input_filename overwrite try_harder dump
                          comparable no_pyexpr translator init_offset sl_custom_names
                          (context, w))))
         = files w).
Proof.
  intros Hout.
  remember (decompile_rpyc input_filename overwrite try_harder dump comparable
              no_pyexpr translator init_offset sl_custom_names (context, w))
    as run eqn:Hrun.
  unfold decompile_rpyc in Hrun. rewrite Hout in Hrun.
  erewrite bind_ok in Hrun by reflexivity.
  erewrite bind_ok in Hrun by reflexivity. cbn [fst snd] in Hrun.
  assert (Hrest : ∀ c w1 run1,
    run1 = (in_file <- in_world (open_rb input_filename) ;;
            ast_ <- in_ctx (if try_harder then deobfuscate_read_ast in_file
                            else read_ast_from_file in_file) ;;
            write_output out_filename ast_ dump comparable no_pyexpr translator
              init_offset sl_custom_names ;;;
            set_state ok) (c, w1) →
    ∃ evs,
      trace (snd (snd run1)) = (trace w1 ++ evs)%list
      ∧ evs `prefix_of` [EvOpenRead input_filename; EvOpenWrite out_filename]
      ∧ (EvOpenWrite out_filename ∉ evs → files (snd (snd run1)) = files w1)).
  { intros c w1 run1 Hrun1.
    unfold bind at 1 in Hrun1. unfold in_world at 1, open_rb in Hrun1.
    cbn [fst snd] in Hrun1.
    destruct (files w1 !! input_filename) as [raw_contents|].
    2: { subst run1. exists [EvOpenRead input_filename]. split; [done|].
         split; [by exists [EvOpenWrite out_filename]|done]. }
    unfold bind at 1 in Hrun1. unfold in_ctx at 1 in Hrun1. cbn [fst snd] in Hrun1.
    destruct ((if try_harder then deobfuscate_read_ast raw_contents
               else read_ast_from_file raw_contents) c) as [[ast_|e] c2].
    2: { subst run1. exists [EvOpenRead input_filename]. split; [done|].
         split; [by exists [EvOpenWrite out_filename]|done]. }
    exists [EvOpenRead input_filename; EvOpenWrite out_filename].
    split; [|split; [done|]].
    - subst run1. unfold bind. rewrite write_output_run.
      destruct (pp_raised _); unfold set_state, in_ctx, modify;
        cbn [fst snd emit files trace]; by rewrite <- app_assoc.
    - intros Hnot. exfalso. apply Hnot.
      apply elem_of_cons; right. apply elem_of_cons. by left. }
  destruct overwrite; cbn [negb] in Hrun.
  - erewrite bind_ok in Hrun by reflexivity. cbn [app]. by eapply Hrest.
  - unfold bind at 1 in Hrun. unfold in_world at 1, path_exists in Hrun.
    cbn [fst snd] in Hrun.
    destruct (bool_decide (is_Some (files w !! out_filename))).
    + subst run. exists [EvExists out_filename]. split; [done|].
      split; [by exists [EvOpenRead input_filename; EvOpenWrite out_filename]|done].
    + destruct (Hrest _ _ run Hrun)
        as (evs & Htr & [k Hk] & Hfiles).
      exists (EvExists out_filename :: evs). split; [|split].
      * rewrite Htr. cbn [emit trace]. by rewrite <- app_assoc.
      * exists k. cbn [app]. by rewrite Hk.
      * intros Hnot. rewrite Hfiles; [done|].
        intros Hin. apply Hnot. apply elem_of_cons. by right.
Qed.

Lemma worker_trace (args : Args) (filename : string) (w : world) :
  ∃ evs,
    trace (snd (worker args filename w)) = (trace w ++ evs)%list
    ∧ evs `prefix_of` worker_accesses args filename
    ∧ ((∀ p, EvOpenWrite p ∉ evs) → files (snd (worker args filename w)) = files w).
Proof.
  assert (Hbody : ∃ evs,
            trace (snd (snd (worker_body args filename (Context_init, w))))
              = (trace w ++ evs)%list
            ∧ evs `prefix_of` worker_accesses args filename
            ∧ ((∀ p, EvOpenWrite p ∉ evs) →
               files (snd (snd (worker_body args filename (Context_init, w))))
                 = files w)).
  { remember (worker_body args filename (Context_init, w)) as run eqn:Hrun.
    unfold worker_body in Hrun. unfold worker_accesses.
    destruct (write_translation_file args) as [out|] eqn:Hwrite.
    - rewrite bool_decide_true in Hrun by eauto. rewrite bool_decide_true by eauto.
      erewrite bind_raise in Hrun by apply extract_translations_raises.
      subst run. exists [EvOpenRead filename]. by cbn [snd emit trace files].
    - rewrite bool_decide_false in Hrun by (by intros [? ?]).
      rewrite bool_decide_false by (by intros [? ?]).
      unfold bind at 1 in Hrun. unfold lift_res at 1 in Hrun.
      destruct (load_translator args) as [translator|e].
      2: { subst run. exists []. cbn [snd]. by rewrite app_nil_r. }
      destruct (output_path filename (dump args)) as [out_filename|e] eqn:Hout.
      + destruct (decompile_rpyc_accesses filename out_filename (clobber args)
                    (try_harder args) (dump args) (comparable args) (no_pyexpr args)
                    (init_offset args) translator (sl_custom_names args)
                    Context_init w Hout) as (evs & Htr & Hprefix & Hfiles).
        exists evs. unfold bind in Hrun.
        destruct (decompile_rpyc _ _ _ _ _ _ _ _ _ _) as [[[]|e] [c1 w1]];
          subst run; cbn [snd] in *; (split; [done|]); (split; [done|]);
          intros Hnot; by apply Hfiles.
      + exists []. unfold bind, decompile_rpyc in Hrun. rewrite Hout in Hrun.
        subst run. cbn [lift_res snd]. by rewrite app_nil_r. }
  destruct Hbody as (evs & Htr & Hprefix & Hfiles). exists evs.
  unfold worker.
  destruct (worker_body args filename (Context_init, w)) as [[result|e] [c1 w1]];
    cbn [snd] in *; [done|].
  by destruct (is_BadRpycException e).
Qed.

(** X8: the only path a worker opens for writing is the output path
    derived from its own input.  The file accesses of a worker are an
    initial part of: the existence test of the output path (without
    [--clobber]), the input opened for reading, the output path opened
    for writing; and just the input opened for reading when translations
    are extracted.  A worker that opens nothing for writing leaves the
    disk as it found it. *)
Theorem worker_writes_only_output (args : Args) (filename : string) (w : world) :
  ∃ evs,
    trace (snd (worker args filename w)) = (trace w ++ evs)%list
    ∧ evs `prefix_of` worker_accesses args filename
    ∧ (∀ p, EvOpenWrite p ∈ evs →
         write_translation_file args = None
         ∧ output_path filename (dump args) = Ok p)
    ∧ ((∀ p, EvOpenWrite p ∉ evs) → files (snd (worker args filename w)) = files w).
Proof.
  destruct (worker_trace args filename w) as (evs & Htr & Hprefix & Hfiles).
  exists evs. split; [done|]. split; [done|]. split; [|done].
  intros p Hin. destruct Hprefix as [k Hk].
  assert (Hin' : EvOpenWrite p ∈ worker_accesses args filename).
  { rewrite Hk. apply elem_of_app. by left. }
  clear Hk Hin. unfold worker_accesses in Hin'.
  destruct (write_translation_file args) as [out|].
  { rewrite bool_decide_true in Hin' by eauto.
    apply list_elem_of_singleton in Hin'. discriminate. }
  rewrite bool_decide_false in Hin' by (by intros [? ?]).
  split; [done|].
  destruct (load_translator args) as [translator|e];
    [|by apply elem_of_nil in Hin'].
  destruct (output_path filename (dump args)) as [out_filename|e];
    [|by apply elem_of_nil in Hin'].
  apply elem_of_app in Hin' as [Hin'|Hin'].
  - destruct (clobber args); [by apply elem_of_nil in Hin'|].
    apply list_elem_of_singleton in Hin'. discriminate.
  - apply elem_of_cons in Hin' as [Hin'|Hin']; [discriminate|].
    apply list_elem_of_singleton in Hin'. congruence.
Qed.

Lemma decompile_rpyc_ok_state (input_filename : string)
    (overwrite try_harder dump comparable no_pyexpr init_offset : bool)
    (translator : option (Translator entry)) (sl_custom_names : sl_names)
    (s : Context * world) (c' : Context) (w' : world) :
  decompile_rpyc input_filename overwrite try_harder dump comparable no_pyexpr
      translator init_offset sl_custom_names s = (Ok tt, (c', w')) →
  state c' = Some ok ∨ state c' = Some skip.
Proof.
  unfold decompile_rpyc. intros Hrun.
  apply bind_inv_ok in Hrun as (out_filename & s1 & _ & Hrun).
  apply bind_inv_ok in Hrun as ([] & s2 & _ & Hrun).
  apply bind_inv_ok in Hrun as (target_exists & s3 & _ & Hrun).
  destruct target_exists.
  - apply bind_inv_ok in Hrun as ([] & s4 & _ & Hrun).
    right. unfold set_state, in_ctx, modify in Hrun. by inversion Hrun.
  - apply bind_inv_ok in Hrun as (in_file & s4 & _ & Hrun).
    apply bind_inv_ok in Hrun as (ast_ & s5 & _ & Hrun).
    apply bind_inv_ok in Hrun as ([] & s6 & _ & Hrun).
    left. unfold set_state, in_ctx, modify in Hrun. by inversion Hrun.
Qed.

Lemma worker_terminal (args : Args) (filename : string) (w : world) :
  ∃ context w' s,
    worker args filename w = (Ok context, w')
    ∧ state context = Some s
    ∧ (fst (worker_body args filename (Context_init, w)) = Ok (value context)
       ∧ (s = ok ∨ s = skip)
       ∨ (∃ e, fst (worker_body args filename (Context_init, w)) = Raise e
               ∧ s = if is_BadRpycException e then spoofed else fail)).
Proof.
  unfold worker.
  destruct (worker_body args filename (Context_init, w)) as [[result|e] [c1 w1]] eqn:Hbody.
  - assert (Hstate : state c1 = Some ok ∨ state c1 = Some skip).
    { unfold worker_body in Hbody.
      destruct (bool_decide (is_Some (write_translation_file args))).
      - rewrite (bind_raise _ _ _ _ _ (extract_translations_raises _ _ _ _)) in Hbody.
        discriminate.
      - apply bind_inv_ok in Hbody as (translator & s1 & Htranslator & Hbody).
        unfold lift_res in Htranslator. inversion Htranslator; subst.
        apply bind_inv_ok in Hbody as ([] & s2 & Hrun & Hret).
        inversion Hret; subst. by eapply decompile_rpyc_ok_state. }
    destruct Hstate as [Hstate|Hstate];
      eexists _, _, _; (split; [done|]); cbn [state value]; (split; [exact Hstate|]);
      left; eauto.
  - destruct (is_BadRpycException e) eqn:Hclass;
      eexists _, _, _; (split; [done|]); cbn [state]; (split; [done|]);
      right; exists e; by rewrite Hclass.
Qed.

(** X9: whatever the options, the file and the disk, the context a
    worker returns has a terminal state: ['ok'] or ['skip'] when the
    pipeline returned, ['fail'] or ['spoofed'] when it raised.  So the
    summary of [main] finds a counter for every result. *)
Theorem worker_sets_terminal_state (args : Args) (filename : string) (w : world) :
  ∃ context w' s,
    worker args filename w = (Ok context, w')
    ∧ state context = Some s
    ∧ (fst (worker_body args filename (Context_init, w)) = Ok (value context)
       ∧ (s = ok ∨ s = skip)
       ∨ (∃ e, fst (worker_body args filename (Context_init, w)) = Raise e
               ∧ s = if is_BadRpycException e then spoofed else fail)).
Proof. apply worker_terminal. Qed.

(** X10: outside dump mode a file whose suffix is neither [.rpyc] nor
    [.rpymc] makes [decompile_rpyc] fail on the unbound [ext] before it
    logs or touches anything: the worker returns the state ['fail'], a
    log of just the two error lines, and the disk as it was. *)
Theorem other_suffix_fails_first (args : Args) (filename : string)
    (translator : option (Translator entry)) (w : world) :
  write_translation_file args = None →
  load_translator args = Ok translator →
  dump args = false →
  path_suffix filename ≠ ".rpyc" →
  path_suffix filename ≠ ".rpymc" →
  worker args filename w
    = (Ok {| log_contents := ["Error while decompiling " ++ filename ++ ":";
                              format_exc unbound_ext];
             state := Some fail; value := None |}, w).
Proof.
  intros Hwrite Htranslator Hdump Hrpyc Hrpymc.
  assert (Hout : output_path filename (dump args) = Raise unbound_ext).
  { unfold output_path. rewrite Hdump.
    destruct (String.eqb_spec (path_suffix filename) ".rpyc"); [done|].
    by destruct (String.eqb_spec (path_suffix filename) ".rpymc"). }
  assert (Hbody : worker_body args filename (Context_init, w)
                  = (Raise unbound_ext, (Context_init, w))).
  { rewrite (worker_body_decompile args filename translator _ Hwrite Htranslator).
    unfold decompile_rpyc.
    erewrite bind_raise; [done|].
    by erewrite bind_raise by (unfold lift_res; by rewrite Hout). }
  by rewrite (worker_handles _ _ _ _ _ _ Hbody).
Qed.

(** X11: when a translation file is given but its content does not
    unpickle, every file fails without being looked at: the worker
    raises while it builds the translator, before [decompile_rpyc] is
    called, so the log holds the two error lines only and neither the
    disk nor the trace of file accesses has changed. *)
Theorem translator_failure_fails_first (args : Args) (filename translation_path : string)
    (blob : bytes) (e : exn) (w : world) :
  write_translation_file args = None →
  translation_file args = Some translation_path →
  translations args = Some blob →
  pickle_loads_translations blob = Raise e →
  worker args filename w
    = (Ok {| log_contents := [error_header e filename; format_exc e];
             state := Some (if is_BadRpycException e then spoofed else fail);
             value := None |}, w).
Proof.
  intros Hwrite Hfile Hblob Hloads.
  assert (Hbody : worker_body args filename (Context_init, w)
                  = (Raise e, (Context_init, w))).
  { unfold worker_body. rewrite Hwrite.
    rewrite bool_decide_false by (by intros [? ?]).
    by erewrite bind_raise
      by (unfold lift_res, load_translator; by rewrite Hfile, Hblob, Hloads). }
  by rewrite (worker_handles _ _ _ _ _ _ Hbody).
Qed.

(** ** Paths *)

Lemma string_append_cons (c : ascii) (s t : string) :
  String.append (String c s) t = String c (String.append s t).
Proof. reflexivity. Qed.

Lemma string_length_append (s t : string) :
  String.length (String.append s t) = (String.length s + String.length t)%nat.
Proof.
  induction s as [|c s IH]; [done|].
  rewrite string_append_cons. simpl. by rewrite IH.
Qed.

Lemma string_append_empty_r (s : string) : String.append s "" = s.
Proof. induction s as [|c s IH]; [done|]. rewrite string_append_cons. by f_equal. Qed.

Lemma string_append_assoc (s t u : string) :
  String.append (String.append s t) u = String.append s (String.append t u).
Proof. induction s as [|c s IH]; [done|]. rewrite !string_append_cons. by f_equal. Qed.

Lemma string_append_inv_head (s t u : string) :
  String.append s t = String.append s u → t = u.
Proof.
  induction s as [|c s IH]; [done|]. rewrite !string_append_cons.
  intros H. apply IH. by inversion H.
Qed.

Lemma substring_0_length (s : string) : String.substring 0 (String.length s) s = s.
Proof. induction s as [|c s IH]; [done|]. simpl. by f_equal. Qed.

Lemma substring_0_append (s t : string) :
  String.substring 0 (String.length s) (String.append s t) = s.
Proof.
  induction s as [|c s IH].
  - by destruct t.
  - rewrite string_append_cons. simpl. by f_equal.
Qed.

Lemma substring_is_suffix (s : string) :
  ∀ n, ∃ pre, s = String.append pre (String.substring n (String.length s - n) s).
Proof.
  induction s as [|c s IH]; intros n.
  - exists "". by destruct n.
  - destruct n as [|n].
    + exists "". rewrite Nat.sub_0_r. by rewrite substring_0_length.
    + destruct (IH n) as (pre & Hpre). exists (String c pre).
      rewrite string_append_cons. simpl. by f_equal.
Qed.

Lemma path_name_is_suffix (p : string) : ∃ pre, p = String.append pre (path_name p).
Proof.
  unfold path_name. destruct (rfind "/" p) as [i|].
  - apply substring_is_suffix.
  - by exists "".
Qed.

Lemma path_suffix_of_name (p : string) :
  ∃ stem, path_name p = String.append stem (path_suffix p).
Proof.
  unfold path_suffix. destruct (rfind "." (path_name p)) as [i|].
  - destruct ((0 <? i)%nat && (S i <? String.length (path_name p))%nat).
    + apply substring_is_suffix.
    + exists (path_name p). by rewrite string_append_empty_r.
  - exists (path_name p). by rewrite string_append_empty_r.
Qed.

Lemma with_suffix_stem (p ext : string) :
  path_suffix p ≠ "" →
  ∃ stem, p = String.append stem (path_suffix p)
          ∧ with_suffix p ext = Ok (String.append stem ext).
Proof.
  intros Hsuffix.
  destruct (path_name_is_suffix p) as (pre & Hp).
  destruct (path_suffix_of_name p) as (stem & Hname).
  assert (Hsplit : p = String.append (String.append pre stem) (path_suffix p))
    by (by rewrite string_append_assoc, <- Hname).
  exists (String.append pre stem). split; [done|].
  unfold with_suffix.
  destruct (String.eqb_spec (path_name p) "") as [Hempty|_].
  { rewrite Hempty in Hname. destruct stem; [|discriminate].
    destruct Hsuffix. symmetry. exact Hname. }
  remember (path_suffix p) as suffix eqn:Hsuf. clear Hsuf Hname Hp Hsuffix.
  rewrite Hsplit. rewrite string_length_append.
  replace (String.length (String.append pre stem) + String.length suffix
           - String.length suffix)%nat
    with (String.length (String.append pre stem)) by lia.
  by rewrite substring_0_append.
Qed.

Lemma output_path_script (p : string) (dump : bool) :
  script_file p →
  ∃ stem, p = String.append stem (path_suffix p)
          ∧ output_path p dump
            = Ok (String.append stem (output_ext dump (path_suffix p)))
          ∧ String.append stem (output_ext dump (path_suffix p)) ≠ p.
Proof.
  intros Hscript.
  assert (Hsuffix : path_suffix p ≠ "") by (destruct Hscript as [-> | ->]; done).
  assert (Hext : (if dump then Ok ".txt"
                  else if String.eqb (path_suffix p) ".rpyc" then Ok ".rpy"
                  else if String.eqb (path_suffix p) ".rpymc" then Ok ".rpym"
                  else Raise unbound_ext) = Ok (output_ext dump (path_suffix p))).
  { unfold output_ext. destruct dump; [done|]. by destruct Hscript as [-> | ->]. }
  destruct (with_suffix_stem p (output_ext dump (path_suffix p)) Hsuffix)
    as (stem & Hp & Hwith).
  exists stem. split; [done|]. split.
  - unfold output_path. by rewrite Hext.
  - intros Heq. rewrite Hp in Heq at 2. apply string_append_inv_head in Heq.
    unfold output_ext in Heq. destruct dump, Hscript as [Hs|Hs]; rewrite Hs in Heq;
      discriminate.
Qed.

(** X12: for a file with the suffix [.rpyc] or [.rpymc], the output path
    is the input path with this suffix replaced by [.rpy] or [.rpym],
    and by [.txt] in dump mode, whatever dots and directories the rest of
    the path has; so it is never the input path itself. *)
Theorem output_path_replaces_suffix (p : string) (dump : bool) :
  script_file p →
  ∃ stem,
    p = String.append stem (path_suffix p)
    ∧ output_path p dump
      = Ok (String.append stem
              (if dump then ".txt"
               else if String.eqb (path_suffix p) ".rpyc" then ".rpy" else ".rpym"))
    ∧ output_path p dump ≠ Ok p.
Proof.
  intros Hscript.
  destruct (output_path_script p dump Hscript) as (stem & Hp & Hout & Hne).
  exists stem. split; [done|]. split; [done|].
  rewrite Hout. congruence.
Qed.

(** X13: a worker never opens the compiled script it is given for
    writing: for a file with the suffix [.rpyc] or [.rpymc], in every
    mode and whatever happens to it, the path opened for writing, if
    any, is not the path of the input, and the input is opened for
    reading at most once. *)
Theorem input_never_opened_for_writing (args : Args) (filename : string) (w : world) :
  script_file filename →
  ∃ evs,
    trace (snd (worker args filename w)) = (trace w ++ evs)%list
    ∧ (EvOpenWrite filename ∉ evs)
    ∧ (length (List.filter (opens_for_reading filename) evs) ≤ 1)%nat.
Proof.
  intros Hscript.
  destruct (worker_trace args filename w) as (evs & Htr & [k Hk] & _).
  exists evs. split; [done|].
  destruct (output_path_script filename (dump args) Hscript) as (stem & _ & Hout & Hne).
  assert (Hall : (EvOpenWrite filename ∉ worker_accesses args filename)
                 ∧ (length (List.filter (opens_for_reading filename)
                              (worker_accesses args filename)) ≤ 1)%nat).
  { unfold worker_accesses. rewrite Hout.
    destruct (bool_decide (is_Some (write_translation_file args))).
    { split; [by intros [=]%list_elem_of_singleton|].
      cbn. rewrite String.eqb_refl. cbn. lia. }
    destruct (load_translator args) as [translator|e];
      [|split; [apply not_elem_of_nil|cbn; lia]].
    split.
    - intros [Hin|Hin]%elem_of_app.
      + destruct (clobber args); [by apply elem_of_nil in Hin|].
        by apply list_elem_of_singleton in Hin.
      + apply elem_of_cons in Hin as [Hin|Hin]; [discriminate|].
        apply list_elem_of_singleton in Hin. congruence.
    - destruct (clobber args); cbn; rewrite String.eqb_refl; cbn; lia. }
  destruct Hall as [Hwrite Hread]. rewrite Hk in Hwrite, Hread. split.
  - intros Hin. apply Hwrite, elem_of_app. by left.
  - rewrite List.filter_app, length_app in Hread. lia.
Qed.

(** ** The worklist *)

Lemma traverse_script_files (inpath : fsentry) : Forall script_file (traverse inpath).
Proof.
  induction inpath as [p|items IH|] using fsentry_nested_ind; cbn [traverse].
  - unfold script_file.
    destruct (String.eqb_spec (path_suffix p) ".rpyc") as [Hs|_]; cbn [orb].
    + constructor; [by left|constructor].
    + destruct (String.eqb_spec (path_suffix p) ".rpymc") as [Hs|_].
      * constructor; [by right|constructor].
      * constructor.
  - induction IH as [|item items Hitem _ IHitems]; cbn [flat_map]; [constructor|].
    by apply Forall_app.
  - constructor.
Qed.

Lemma collect_worklist_run (entries : list string) :
  ∀ (worklist : list string) (w : world),
    collect_worklist entries worklist w
      = (Ok (worklist ++ flat_map (λ entry_, flat_map traverse (glob_resolve entry_)) entries)%list,
         {| files := files w;
            trace := trace w ++ map (λ entry_, EvPrint ("Input path not found: " ++ entry_))
                                  (List.filter (λ entry_, bool_decide (glob_resolve entry_ = []))
                                     entries) |}).
Proof.
  induction entries as [|entry_ entries IH]; intros worklist w; cbn [collect_worklist].
  - cbn. rewrite !app_nil_r. by destruct w.
  - unfold bind at 1. unfold glob_or_complain at 1. cbn [List.filter flat_map].
    destruct (bool_decide (glob_resolve entry_ = [])) eqn:Hglob.
    + unfold bind at 1. unfold print, modify, ret. cbn [fst snd].
      rewrite IH. cbn [emit files trace map]. rewrite <- !app_assoc. done.
    + unfold bind at 1. unfold ret. rewrite IH. by rewrite <- !app_assoc.
Qed.

(** X14: the worklist [main] builds is, in the order of the command
    line, what [traverse] finds under each match of each argument: an
    argument without a match adds a complaint and nothing else, a file
    named by two arguments is listed twice, and every file listed has the
    suffix [.rpyc] or [.rpymc].  Building it changes no file. *)
Theorem collect_worklist_lists_scripts (entries : list string) (w : world) :
  ∃ worklist,
    collect_worklist entries [] w
      = (Ok worklist,
         {| files := files w;
            trace := trace w ++ map (λ entry_, EvPrint ("Input path not found: " ++ entry_))
                                  (List.filter (λ entry_, bool_decide (glob_resolve entry_ = []))
                                     entries) |})
    ∧ worklist = flat_map (λ entry_, flat_map traverse (glob_resolve entry_)) entries
    ∧ Forall script_file worklist.
Proof.
  eexists. split; [apply collect_worklist_run|]. split; [done|].
  cbn [app]. induction entries as [|entry_ entries IH]; cbn [flat_map]; [constructor|].
  apply Forall_app. split; [|done].
  induction (glob_resolve entry_) as [|globitem globitems IHglob]; cbn [flat_map];
    [constructor|].
  apply Forall_app. split; [apply traverse_script_files|done].
Qed.

(** ** Registrations of custom displayables *)

Lemma rfind_cons_none (c a : ascii) (s : string) :
  rfind c (String a s) = None ↔ a ≠ c ∧ rfind c s = None.
Proof.
  cbn [rfind]. destruct (rfind c s) as [i|]; [split; [done|by intros [_ ?]]|].
  destruct (Ascii.eqb_spec a c); split; try done; by intros [? _].
Qed.

Lemma rfind_append_none (c : ascii) (s t : string) :
  rfind c s = None → rfind c t = None → rfind c (String.append s t) = None.
Proof.
  intros Hs Ht. induction s as [|a s IH]; [done|].
  rewrite string_append_cons. apply rfind_cons_none in Hs as [Hne Hs].
  apply rfind_cons_none. split; [done|by apply IH].
Qed.

Lemma split_on_none (sep : ascii) (s : string) :
  rfind sep s = None → split_on sep s = [s].
Proof.
  induction s as [|a s IH]; intros Hs; [done|].
  apply rfind_cons_none in Hs as [Hne Hs]. cbn [split_on].
  rewrite (IH Hs). by destruct (Ascii.eqb_spec a sep).
Qed.

Lemma split_on_append (sep : ascii) (s t : string) :
  rfind sep s = None →
  split_on sep (String.append s (String sep t)) = s :: split_on sep t.
Proof.
  induction s as [|a s IH]; intros Hs.
  - change (String.append "" (String sep t)) with (String sep t).
    cbn [split_on]. by rewrite Ascii.eqb_refl.
  - apply rfind_cons_none in Hs as [Hne Hs].
    rewrite string_append_cons. cbn [split_on]. rewrite (IH Hs).
    by destruct (Ascii.eqb_spec a sep).
Qed.

Lemma parse_sl_custom_name_amount (classname name amount : string) :
  rfind "=" classname = None →
  rfind "=" name = None → rfind "-" name = None →
  rfind "=" amount = None → rfind "-" amount = None →
  parse_sl_custom_name
      (String.append classname (String "=" (String.append name (String "-" amount))))
    = if String.eqb amount "0" then Ok (classname, (name, AmountInt 0))
      else if String.eqb amount "1" then Ok (classname, (name, AmountInt 1))
      else if String.eqb amount "many" then Ok (classname, (name, AmountMany))
      else Raise (bad_count
                    (String.append classname
                       (String "=" (String.append name (String "-" amount))))).
Proof.
  intros Hclass Hname_eq Hname_dash Hamount_eq Hamount_dash.
  unfold parse_sl_custom_name.
  rewrite split_on_append by done.
  rewrite split_on_none
    by (apply rfind_append_none; [done|]; apply rfind_cons_none; by split).
  rewrite split_on_append by done.
  by rewrite split_on_none by done.
Qed.

(** X15: a registration [classname=name] gives the displayable [name]
    with the child count ['many'], and [classname=name-0],
    [classname=name-1] and [classname=name-many] give the counts 0, 1
    and ['many'], for every class name without [=] and every name
    without [=] and [-]; any other text after the dash is refused as a
    bad child node count. *)
Theorem parse_sl_custom_name_format (classname name : string) :
  rfind "=" classname = None →
  rfind "=" name = None →
  rfind "-" name = None →
  parse_sl_custom_name (String.append classname (String "=" name))
    = Ok (classname, (name, AmountMany))
  ∧ parse_sl_custom_name (String.append classname (String "=" (String.append name "-0")))
    = Ok (classname, (name, AmountInt 0))
  ∧ parse_sl_custom_name (String.append classname (String "=" (String.append name "-1")))
    = Ok (classname, (name, AmountInt 1))
  ∧ parse_sl_custom_name (String.append classname (String "=" (String.append name "-many")))
    = Ok (classname, (name, AmountMany))
  ∧ ∀ amount,
      rfind "=" amount = None → rfind "-" amount = None →
      amount ≠ "0" → amount ≠ "1" → amount ≠ "many" →
      parse_sl_custom_name
          (String.append classname (String "=" (String.append name (String "-" amount))))
        = Raise (bad_count
                   (String.append classname
                      (String "=" (String.append name (String "-" amount))))).
Proof.
  intros Hclass Hname_eq Hname_dash. split; [|split; [|split; [|split]]].
  - unfold parse_sl_custom_name.
    rewrite split_on_append by done. rewrite split_on_none by done.
    by rewrite split_on_none by done.
  - by rewrite (parse_sl_custom_name_amount classname name "0").
  - by rewrite (parse_sl_custom_name_amount classname name "1").
  - by rewrite (parse_sl_custom_name_amount classname name "many").
  - intros amount Hamount_eq Hamount_dash H0 H1 Hmany.
    rewrite parse_sl_custom_name_amount by done.
    destruct (String.eqb_spec amount "0"); [done|].
    destruct (String.eqb_spec amount "1"); [done|].
    by destruct (String.eqb_spec amount "many").
Qed.

Lemma parse_sl_custom_names_loop_raises (pre post : list string) (argument : string)
    (e : exn) :
  ∀ parsed_arguments,
    Forall (λ a, ∃ v, parse_sl_custom_name a = Ok v) pre →
    parse_sl_custom_name argument = Raise e →
    parse_sl_custom_names_loop (pre ++ argument :: post) parsed_arguments = Raise e.
Proof.
  induction pre as [|a pre IH]; intros parsed_arguments Hpre Hbad;
    cbn [app parse_sl_custom_names_loop].
  - by rewrite Hbad.
  - apply Forall_cons in Hpre as [[[classname entry_] Ha] Hpre]. rewrite Ha.
    by apply IH.
Qed.

(** X16: a registration without [=] is a bad format, and the first
    registration that does not parse ends [main] there: after the
    pre-flight checks the message is printed and [main] returns, no
    worklist is built, no file is opened and nothing is written. *)
Theorem bad_registration_ends_main (args : Args) (pre post : list string)
    (argument : string) (w : world) :
  (no_pyexpr args || comparable args) && negb (dump args) = false →
  (try_harder args || dump args) && truthy (language args) = false →
  write_translation_file args = None →
  translation_file args = None →
  sl_custom_names args = SlUnparsed (pre ++ argument :: post) →
  Forall (λ a, ∃ v, parse_sl_custom_name a = Ok v) pre →
  rfind "=" argument = None →
  parse_sl_custom_name argument = Raise (bad_format argument)
  ∧ main args w
    = (Ok Returned,
       {| files := files w;
          trace := trace w
            ++ [EvPrint ("Bad format in custom sl displayable registration: "
                         ++ dq ++ argument ++ dq)] |}).
Proof.
  intros Hcheck1 Hcheck2 Hwrite Htranslation Hnames Hpre Hargument.
  assert (Hbad : parse_sl_custom_name argument = Raise (bad_format argument)).
  { unfold parse_sl_custom_name. by rewrite split_on_none by done. }
  split; [done|].
  unfold main. rewrite Hcheck1, Hwrite, Htranslation.
  rewrite !(bool_decide_false (is_Some None)) by (by intros [? ?]).
  cbn [orb]. rewrite Hcheck2.
  erewrite bind_ok by reflexivity. cbn iota.
  erewrite bind_ok by reflexivity.
  rewrite Hnames. unfold parse_sl_custom_names.
  rewrite (parse_sl_custom_names_loop_raises pre post argument _ ∅ Hpre Hbad).
  unfold bad_format. by erewrite bind_ok by reflexivity.
Qed.

(** ** Big files first *)

Lemma insert_desc_perm (kx : Z * string) (sorted : list (Z * string)) :
  insert_desc kx sorted ≡ₚ kx :: sorted.
Proof.
  induction sorted as [|ky sorted IH]; cbn [insert_desc]; [done|].
  destruct (fst ky <=? fst kx); [done|].
  rewrite IH. apply Permutation_swap.
Qed.

Lemma sort_keyed_perm (keyed : list (Z * string)) :
  fold_right insert_desc [] keyed ≡ₚ keyed.
Proof.
  induction keyed as [|kx keyed IH]; cbn [fold_right]; [done|].
  by rewrite insert_desc_perm, IH.
Qed.

Lemma insert_desc_sorted (kx : Z * string) (sorted : list (Z * string)) :
  StronglySorted (λ a b, fst b ≤ fst a) sorted →
  StronglySorted (λ a b, fst b ≤ fst a) (insert_desc kx sorted).
Proof.
  induction 1 as [|ky sorted Hsorted IH Hall]; cbn [insert_desc].
  - repeat constructor.
  - destruct (Z.leb_spec (fst ky) (fst kx)) as [Hle|Hgt].
    + constructor; [by constructor|]. constructor; [done|].
      eapply Forall_impl; [exact Hall|]. intros kz Hkz. cbn in *. lia.
    + constructor; [done|]. rewrite insert_desc_perm. constructor; [lia|done].
Qed.

Lemma sort_keyed_sorted (keyed : list (Z * string)) :
  StronglySorted (λ a b, fst b ≤ fst a) (fold_right insert_desc [] keyed).
Proof.
  induction keyed as [|kx keyed IH]; cbn [fold_right]; [constructor|].
  by apply insert_desc_sorted.
Qed.

Lemma filter_insert_desc (n : Z) (kx : Z * string) (sorted : list (Z * string)) :
  List.filter (λ ky, fst ky =? n) (insert_desc kx sorted)
    = List.filter (λ ky, fst ky =? n) (kx :: sorted).
Proof.
  induction sorted as [|ky sorted IH]; cbn [insert_desc]; [done|].
  destruct (Z.leb_spec (fst ky) (fst kx)) as [Hle|Hgt]; [done|].
  cbn [List.filter] in *. rewrite IH.
  destruct (Z.eqb_spec (fst kx) n), (Z.eqb_spec (fst ky) n); try done. lia.
Qed.

Lemma filter_sort_keyed (n : Z) (keyed : list (Z * string)) :
  List.filter (λ ky, fst ky =? n) (fold_right insert_desc [] keyed)
    = List.filter (λ ky, fst ky =? n) keyed.
Proof.
  induction keyed as [|kx keyed IH]; cbn [fold_right]; [done|].
  rewrite filter_insert_desc. cbn [List.filter]. by rewrite IH.
Qed.

Lemma stat_all_keyed (worklist : list string) :
  ∀ w, Forall (λ p, is_Some (files w !! p)) worklist →
       stat_all worklist w
         = (Ok (map (λ p, (file_size w p, p)) worklist),
            {| files := files w; trace := trace w ++ map EvStat worklist |}).
Proof.
  induction worklist as [|x worklist IH]; intros w Hall; cbn [stat_all map].
  - unfold ret. rewrite app_nil_r. by destruct w.
  - apply Forall_cons in Hall as [[content Hx] Hall].
    erewrite bind_ok by (unfold stat_size; by rewrite Hx).
    erewrite bind_ok by (by apply (IH (emit (EvStat x) w))).
    unfold ret, file_size. cbn [emit files trace]. rewrite Hx.
    by rewrite <- app_assoc.
Qed.

(** X17: for a worklist of files that are on the disk, the sort by
    [st_size] keeps every file exactly as often as it was listed, puts
    the files in the order of decreasing size, and leaves files of the
    same size in the order they had (the sort is stable). *)
Theorem worklist_sorted_by_size (worklist : list string) (w : world) :
  Forall (λ p, is_Some (files w !! p)) worklist →
  ∃ keyed w1,
    stat_all worklist w = (Ok keyed, w1)
    ∧ files w1 = files w
    ∧ sort_by_size keyed ≡ₚ worklist
    ∧ StronglySorted (λ a b, file_size w b ≤ file_size w a) (sort_by_size keyed)
    ∧ ∀ n, List.filter (λ p, file_size w p =? n) (sort_by_size keyed)
           = List.filter (λ p, file_size w p =? n) worklist.
Proof.
  intros Hall. eexists _, _. split; [by apply stat_all_keyed|]. split; [done|].
  set (keyed := map (λ p, (file_size w p, p)) worklist).
  assert (Hsnd : map snd keyed = worklist).
  { unfold keyed. rewrite map_map. cbn. apply map_id. }
  assert (Hkeys : Forall (λ kx, fst kx = file_size w (snd kx))
                    (fold_right insert_desc [] keyed)).
  { rewrite sort_keyed_perm. unfold keyed. apply Forall_forall.
    intros kx Hkx. apply list_elem_of_In, in_map_iff in Hkx as (p & <- & _). done. }
  clearbody keyed. unfold sort_by_size. split; [|split].
  - change (snd <$> fold_right insert_desc [] keyed ≡ₚ worklist).
    rewrite sort_keyed_perm. by rewrite <- Hsnd.
  - pose proof (sort_keyed_sorted keyed) as Hsorted.
    induction Hsorted as [|kx sorted Hsorted IH Hhead]; cbn [map]; [constructor|].
    apply Forall_cons in Hkeys as [Hkx Hkeys].
    constructor; [by apply IH|].
    clear -Hhead Hkx Hkeys.
    induction Hhead as [|ky sorted Hky Hhead IH]; cbn [map]; [constructor|].
    apply Forall_cons in Hkeys as [Hky' Hkeys].
    constructor; [|by apply IH]. cbn in *. lia.
  - intros n.
    assert (Hfilter : ∀ l : list (Z * string),
              Forall (λ kx, fst kx = file_size w (snd kx)) l →
              List.filter (λ p, file_size w p =? n) (map snd l)
                = map snd (List.filter (λ ky, fst ky =? n) l)).
    { induction 1 as [|kx l Hkx _ IH]; cbn [map List.filter]; [done|].
      rewrite <- Hkx. destruct (fst kx =? n); cbn [map]; by rewrite IH. }
    rewrite <- Hsnd, (Hfilter _ Hkeys), filter_sort_keyed.
    symmetry. apply Hfilter. by rewrite sort_keyed_perm in Hkeys.
Qed.

(** ** The summary *)

Lemma print_all_run (lines : list string) :
  ∀ w, print_all lines w
       = (Ok tt, {| files := files w; trace := trace w ++ map EvPrint lines |}).
Proof.
  induction lines as [|line lines IH]; intros w; cbn [print_all map].
  - unfold ret. rewrite app_nil_r. by destruct w.
  - erewrite bind_ok by reflexivity. rewrite IH. cbn [emit files trace].
    by rewrite <- app_assoc.
Qed.

Lemma tally_run (results : list Context) :
  Forall (λ c, is_Some (state c)) results →
  ∀ state_count w,
    tally results state_count w
      = (Ok {| total := total state_count;
               count_ok := count_ok state_count + count_results ok results;
               count_fail := count_fail state_count + count_results fail results;
               count_skip := count_skip state_count + count_results skip results;
               count_spoofed := count_spoofed state_count + count_results spoofed results |},
         {| files := files w;
            trace := trace w ++ map EvPrint (concat (map log_contents results)) |}).
Proof.
  induction 1 as [|c results [s Hs] _ IH]; intros state_count w; cbn [tally].
  - unfold ret, count_results. cbn. rewrite !Z.add_0_r, app_nil_r.
    by destruct state_count, w.
  - rewrite Hs. erewrite bind_ok by reflexivity.
    erewrite bind_ok by apply print_all_run.
    rewrite IH. cbn [files trace map concat]. rewrite map_app, <- app_assoc.
    unfold count_results. cbn [List.filter]. rewrite Hs.
    destruct s; cbn [count_state total count_ok count_fail count_skip count_spoofed];
      repeat (first [rewrite bool_decide_true by done
                    |rewrite bool_decide_false by done]);
      cbn [length]; do 2 f_equal; f_equal; lia.
Qed.

Lemma count_results_sum (results : list Context) :
  Forall (λ c, is_Some (state c)) results →
  count_results ok results + count_results fail results
  + count_results skip results + count_results spoofed results
    = Z.of_nat (length results).
Proof.
  unfold count_results.
  induction 1 as [|c results [s Hs] _ IH]; cbn [List.filter length]; [done|].
  rewrite Hs.
  destruct s;
    repeat (first [rewrite bool_decide_true by done
                  |rewrite bool_decide_false by done]);
    cbn [length]; lia.
Qed.

(** X18: when every result has a state, the summary loop adds one to
    the counter of the state of each result and to no other, leaves
    the total alone, and prints the log lines of the results, result
    after result in the order of the results and line after line in the
    order they were logged; it changes no file. *)
Theorem tally_counts_and_replays (results : list Context)
    (state_count : SummaryCounts) (w : world) :
  Forall (λ c, is_Some (state c)) results →
  ∃ state_count' w',
    tally results state_count w = (Ok state_count', w')
    ∧ total state_count' = total state_count
    ∧ count_ok state_count' = count_ok state_count + count_results ok results
    ∧ count_fail state_count' = count_fail state_count + count_results fail results
    ∧ count_skip state_count' = count_skip state_count + count_results skip results
    ∧ count_spoofed state_count'
      = count_spoofed state_count + count_results spoofed results
    ∧ files w' = files w
    ∧ trace w' = (trace w ++ map EvPrint (concat (map log_contents results)))%list.
Proof.
  intros Hall. eexists _, _. split; [by apply tally_run|]. by repeat split.
Qed.

Lemma run_workers_states (where_ : executor) (args : Args) (worklist : list string) :
  ∀ w, ∃ results w1,
    run_workers where_ args worklist w = (Ok results, w1)
    ∧ length results = length worklist
    ∧ Forall (λ c, is_Some (state c)) results.
Proof.
  induction worklist as [|x worklist IH]; intros w; cbn [run_workers].
  - by eexists [], w.
  - erewrite bind_ok by reflexivity.
    destruct (worker_terminal args x (emit (EvWorker where_ x) w))
      as (context & w1 & s & Hworker & Hstate & _).
    erewrite bind_ok by exact Hworker.
    destruct (IH w1) as (results & w2 & Hrun & Hlen & Hall).
    erewrite bind_ok by exact Hrun.
    eexists _, _. split; [done|]. split; [cbn; by rewrite Hlen|].
    constructor; [by rewrite Hstate|done].
Qed.

Lemma dispatch_states (args : Args) (worklist : list string) (w : world) :
  ∃ results w1,
    dispatch args worklist w = (Ok results, w1)
    ∧ length results = length worklist
    ∧ Forall (λ c, is_Some (state c)) results.
Proof.
  unfold dispatch.
  destruct ((1 <? processes args) && (5 <? Z.of_nat (length worklist))).
  - erewrite bind_ok by reflexivity. apply run_workers_states.
  - apply run_workers_states.
Qed.

(** X19: once the worklist is built, of files that are on the disk, the
    run goes through to the report whatever the options and whatever is
    in the files: every file yields a result with a state, the last
    thing printed is the report, its total is the number of files and
    its four counters add up to the total. *)
Theorem run_always_reports (args : Args) (worklist : list string) (w : world) :
  worklist ≠ [] →
  Forall (λ p, is_Some (files w !! p)) worklist →
  ∃ state_count w',
    process_worklist args worklist state_count_init w = (Ok Returned, w')
    ∧ last (trace w') = Some (EvPrint (report state_count))
    ∧ total state_count = Z.of_nat (length worklist)
    ∧ count_ok state_count + count_fail state_count
      + count_skip state_count + count_spoofed state_count
      = total state_count.
Proof.
  intros Hnonempty Hfiles.
  unfold process_worklist. rewrite bool_decide_false by done.
  erewrite bind_ok by (by apply stat_all_keyed).
  set (keyed := map (λ p, (file_size w p, p)) worklist).
  set (w1 := {| files := files w; trace := trace w ++ map EvStat worklist |}).
  assert (Hlength : length (sort_by_size keyed) = length worklist).
  { unfold sort_by_size, keyed. rewrite length_map, sort_keyed_perm.
    by rewrite length_map. }
  assert (Hmerged : ∃ results w2,
            dispatch args (sort_by_size keyed) w1 = (Ok results, w2)
            ∧ length results = length worklist
            ∧ Forall (λ c, is_Some (state c)) results
            ∧ ∃ w3, match write_translation_file args with
                    | Some out => write_translations args out results
                    | None => ret tt
                    end w2 = (Ok tt, w3)).
  { destruct (write_translation_file args) as [out|] eqn:Hwrite.
    - destruct (dispatch_write_mode args out (sort_by_size keyed) w1 Hwrite)
        as (results & w2 & Hrun & _ & Hlen & Hall).
      destruct (write_translations_empty args out results w2 Hall) as [_ Hwritten].
      eexists _, _. split; [done|]. split; [congruence|]. split; [|eauto].
      eapply Forall_impl; [exact Hall|]. intros c [-> _]. eauto.
    - destruct (dispatch_states args (sort_by_size keyed) w1)
        as (results & w2 & Hrun & Hlen & Hall).
      eexists _, _. split; [done|]. split; [congruence|]. split; [done|].
      by eexists. }
  destruct Hmerged as (results & w2 & Hrun & Hlen & Hall & w3 & Hwritten).
  erewrite bind_ok by exact Hrun.
  erewrite bind_ok by exact Hwritten.
  erewrite bind_ok by (by apply tally_run).
  erewrite bind_ok by reflexivity.
  eexists _, _. split; [reflexivity|].
  cbn [emit trace]. split; [by rewrite last_snoc|].
  cbn [total count_ok count_fail count_skip count_spoofed with_total state_count_init].
  split; [done|]. rewrite <- Hlen, <- (count_results_sum results Hall). lia.
Qed.

(** ** The report *)

(** X20: for every count, which is never negative, [plural_fmt] gives
    the number followed by ["file"] for 1 and by ["files"] for 0 and for
    2 or more: the slice [s[:inp^1]] is empty exactly for 1. *)
Theorem plural_fmt_singular_only_for_1 (inp : Z) :
  0 ≤ inp →
  plural_fmt inp = pretty inp ++ " file" ++ (if inp =? 1 then "" else "s").
Proof.
  intros Hinp. unfold plural_fmt, str_prefix. do 2 f_equal.
  assert (Hxor : 0 ≤ Z.lxor inp 1) by (apply Z.lxor_nonneg; lia).
  destruct (Z.ltb_spec (Z.lxor inp 1) 0) as [Hneg|_]; [lia|].
  destruct (Z.eqb_spec inp 1) as [->|Hne]; [done|].
  assert (Hnonzero : Z.lxor inp 1 ≠ 0) by (by intros ?%Z.lxor_eq).
  destruct (Z.to_nat (Z.lxor inp 1)) as [|n] eqn:Hnat; [lia|].
  by destruct n.
Qed.

(** ** Nothing to do *)


End Properties.

(** * The properties on sample files *)

Section Instances.
Import Sample.

Lemma worker_contains_exceptions_witness :
  worker_body args0 "/game/a.rpyc" (Context_init, disk [])
    = (Raise (OtherException "FileNotFoundError" "/game/a.rpyc"),
       (ctx_log "Decompiling /game/a.rpyc to a.rpy..." Context_init,
        emit (EvOpenRead "/game/a.rpyc") (emit (EvExists "/game/a.rpy") (disk []))))
  ∧ worker args0 "/game/a.rpyc" (disk [])
    = (Ok {| log_contents :=
               ["Decompiling /game/a.rpyc to a.rpy...";
                "Error while decompiling /game/a.rpyc:";
                "FileNotFoundError: /game/a.rpyc"];
             state := Some fail;
             value := None |},
       emit (EvOpenRead "/game/a.rpyc") (emit (EvExists "/game/a.rpy") (disk [])))
  ∧ ∀ filename' w', ∃ context w'',
      worker args0 filename' w' = (Ok context, w'').
Proof.
  assert (Hbody :
    worker_body args0 "/game/a.rpyc" (Context_init, disk [])
      = (Raise (OtherException "FileNotFoundError" "/game/a.rpyc"),
         (ctx_log "Decompiling /game/a.rpyc to a.rpy..." Context_init,
          emit (EvOpenRead "/game/a.rpyc") (emit (EvExists "/game/a.rpy") (disk [])))))
    by (vm_compute; reflexivity).
  split; [exact Hbody|].
  exact (worker_contains_exceptions args0 "/game/a.rpyc" (disk []) _ _ _ Hbody).
Defined.

Lemma decompile_rpyc_skips_existing_witness :
  output_path "/game/a.rpyc" false = Ok "/game/a.rpy"
  ∧ is_Some (files disk_good !! "/game/a.rpy")
  ∧ decompile_rpyc "/game/a.rpyc" false false false false false None true SlNone
        (Context_init, disk_good)
      = (Ok tt,
         ({| log_contents := ["Decompiling /game/a.rpyc to a.rpy...";
                              "Target file exists already! Skipping."];
             state := Some skip; value := None |},
          {| files := files disk_good; trace := [EvExists "/game/a.rpy"] |})).
Proof.
  assert (Hout : output_path "/game/a.rpyc" false = Ok "/game/a.rpy")
    by (vm_compute; reflexivity).
  assert (Hexists : is_Some (files disk_good !! "/game/a.rpy"))
    by (exists [x41]; vm_compute; reflexivity).
  split; [exact Hout|]. split; [exact Hexists|].
  exact (decompile_rpyc_skips_existing "/game/a.rpyc" "/game/a.rpy"
           false false false false true None SlNone Context_init disk_good
           Hout Hexists).
Defined.

Lemma payload_decode_error_is_fail_witness :
  write_translation_file args0 = None
  ∧ try_harder args0 = false
  ∧ load_translator args0 = Ok None
  ∧ output_path "/game/a.rpyc" (dump args0) = Ok "/game/a.rpy"
  ∧ (clobber args0 = true ∨ files disk_bad_payload !! "/game/a.rpy" = None)
  ∧ files disk_bad_payload !! "/game/a.rpyc" = Some bad_payload_v2
  ∧ (∀ c, fst (archive_blob bad_payload_v2 c) = Ok (bad_blob, false))
  ∧ zlib_decompress bad_blob = Some bad_payload
  ∧ pickle_safe_loads bad_payload = Raise stack_underflow
  ∧ is_BadRpycException stack_underflow = false
  ∧ ∃ context w',
      worker args0 "/game/a.rpyc" disk_bad_payload = (Ok context, w')
      ∧ state context = Some fail
      ∧ last (log_contents context) = Some (format_exc stack_underflow).
Proof.
  assert (Hout : output_path "/game/a.rpyc" (dump args0) = Ok "/game/a.rpy")
    by (vm_compute; reflexivity).
  assert (Hfree : clobber args0 = true ∨ files disk_bad_payload !! "/game/a.rpy" = None)
    by (right; vm_compute; reflexivity).
  assert (Hfile : files disk_bad_payload !! "/game/a.rpyc" = Some bad_payload_v2)
    by (vm_compute; reflexivity).
  assert (Harchive : ∀ c, fst (archive_blob bad_payload_v2 c)
                          = Ok (bad_blob, false))
    by (intros c; vm_compute; reflexivity).
  repeat (split; [first [reflexivity | assumption]|]).
  exact (payload_decode_error_is_fail args0 "/game/a.rpyc" "/game/a.rpy" None
           bad_payload_v2 bad_blob bad_payload false stack_underflow
           disk_bad_payload eq_refl eq_refl eq_refl Hout Hfree Hfile Harchive
           eq_refl eq_refl eq_refl).
Defined.

(** The file of [disk_bad_payload] has a well-formed container and an
    inflatable blob, its payload does not unpickle, and the worker does
    not record ['spoofed']. *)
Lemma payload_decode_error_not_spoofed :
  (∀ c, fst (archive_blob bad_payload_v2 c) = Ok (bad_blob, false))
  ∧ zlib_decompress bad_blob = Some bad_payload
  ∧ pickle_safe_loads bad_payload = Raise stack_underflow
  ∧ ∃ context w',
      worker args0 "/game/a.rpyc" disk_bad_payload = (Ok context, w')
      ∧ state context = Some fail
      ∧ state context ≠ Some spoofed.
Proof.
  split; [intros c; vm_compute; reflexivity|].
  split; [reflexivity|]. split; [reflexivity|].
  eexists _, _. split; [vm_compute; reflexivity|].
  split; [reflexivity|discriminate].
Qed.

(** C4 (what the code does): the file of [disk_truncated] starts with
    the v2 magic and its slot table stops in the middle of the second
    record; [struct.unpack] raises [struct.error] there, which is not a
    [BadRpycException], and the worker records ['fail'] where the
    specification has ['spoofed']. *)
Theorem truncated_slot_table_is_fail :
  startswith truncated_v2 magic = true
  ∧ truncated_table truncated_v2 10 [(1, 46, 21)]
  ∧ worker args0 "/game/a.rpyc" disk_truncated
    = (Ok {| log_contents :=
               ["Decompiling /game/a.rpyc to a.rpy...";
                "Error while decompiling /game/a.rpyc:";
                "struct.error: unpack requires a buffer of 12 bytes"];
             state := Some fail;
             value := None |},
       emit (EvOpenRead "/game/a.rpyc") (emit (EvExists "/game/a.rpy") disk_truncated)).
Proof.
  split; [reflexivity|]. split.
  - cbn [truncated_table]. split; [vm_compute; reflexivity|].
    split; [discriminate|]. vm_compute. lia.
  - vm_compute. reflexivity.
Qed.

Lemma read_ast_from_file_selects_slot_1_witness :
  startswith good_v2 magic = true
  ∧ (slot_table good_v2 10 [(1, 46, 21); (2, 67, 2)]
     ∨ slot_table good_v2 10 [(1, 46, 21)])
  ∧ read_ast_from_file good_v2 Context_init
      = load_contents false good_blob Context_init
  ∧ fst (read_ast_from_file good_v2 Context_init) = Ok (PyList []).
Proof.
  assert (Htable : slot_table good_v2 10 [(1, 46, 21); (2, 67, 2)]).
  { cbn [slot_table]. split; [vm_compute; reflexivity|]. split; [discriminate|].
    split; [vm_compute; reflexivity|]. split; [discriminate|].
    exists 0, 0. vm_compute; reflexivity. }
  split; [reflexivity|]. split; [by left|].
  exact (read_ast_from_file_selects_slot_1 good_v2 46 21 67 2 Context_init
           eq_refl (or_introl Htable)).
Defined.

Lemma slot_mismatch_warned_once_witness :
  slot_table odd_slots_v2 10 [(3, 46, 1); (7, 47, 1)]
  ∧ Z.of_nat (length [(3, 46, 1); (7, 47, 1)]) < 0xFFFFFFFE
  ∧ mismatch 1 [(3, 46, 1); (7, 47, 1)] = true
  ∧ slot_loop odd_slots_v2 (drop 10 odd_slots_v2) 1 ∅ false Context_init
      = (Ok (<[7 := [x80]]> (<[3 := [x78]]> ∅)),
         {| log_contents := [slot_warning]; state := None; value := None |}).
Proof.
  assert (Htable : slot_table odd_slots_v2 10 [(3, 46, 1); (7, 47, 1)]).
  { cbn [slot_table]. split; [vm_compute; reflexivity|]. split; [discriminate|].
    split; [vm_compute; reflexivity|]. split; [discriminate|].
    exists 0, 0. vm_compute; reflexivity. }
  split; [exact Htable|]. split; [reflexivity|]. split; [reflexivity|].
  exact (slot_mismatch_warned_once odd_slots_v2 [(3, 46, 1); (7, 47, 1)]
           Context_init Htable eq_refl eq_refl).
Defined.

Lemma translation_extraction_always_fails_witness :
  write_translation_file args_write = Some "/game/tl.pickle"
  ∧ (∀ filename language_ c w0,
        fst (extract_translations filename language_ (c, w0))
          = Raise (match files w0 !! filename with
                   | Some _ => missing_context
                   | None => OtherException "FileNotFoundError" filename
                   end))
  ∧ (∃ results w1 w2,
      dispatch args_write ["/game/a.rpyc"; "/game/b.rpyc"] disk_good = (Ok results, w1)
      ∧ length results = length ["/game/a.rpyc"; "/game/b.rpyc"]
      ∧ Forall (λ c, state c = Some fail ∧ value c = None) results
      ∧ files w1 = files disk_good
      ∧ merge_translations results ∅ ∅ = Ok (∅, ∅)
      ∧ write_translations args_write "/game/tl.pickle" results w1 = (Ok tt, w2)
      ∧ files w2
        = <[ "/game/tl.pickle" := pickle_safe_dump (language args_write, ∅, ∅) ]>
            (files disk_good))
  ∧ (["/game/a.rpyc"; "/game/b.rpyc"] ≠ [] →
     Forall (λ p, is_Some (files disk_good !! p)) ["/game/a.rpyc"; "/game/b.rpyc"] →
     ∀ state_count, ∃ w',
       process_worklist args_write ["/game/a.rpyc"; "/game/b.rpyc"] state_count disk_good
         = (Ok Returned, w')
       ∧ files w'
         = <[ "/game/tl.pickle" := pickle_safe_dump (language args_write, ∅, ∅) ]>
             (files disk_good)).
Proof.
  split; [reflexivity|].
  exact (translation_extraction_always_fails args_write "/game/tl.pickle"
           ["/game/a.rpyc"; "/game/b.rpyc"] disk_good eq_refl).
Defined.

(** A whole run in write-translation-file mode over one good archive. *)
Example extraction_run_writes_empty_bundle :
  let run := main args_write_game disk_game in
  fst run = Ok Returned
  ∧ files (snd run) = <[ "/game/tl.pickle" := [x80] ]> (files disk_game)
  ∧ List.filter (λ ev, negb (file_event ev)) (trace (snd run))
    = [EvWorker CallingThread "/game/a.rpyc";
       EvPrint "Writing translations to /game/tl.pickle...";
       EvPrint "Extracting translations from /game/a.rpyc...";
       EvPrint "Error while decompiling /game/a.rpyc:";
       EvPrint ("TypeError: read_ast_from_file() missing 1 required positional "
                ++ "argument: 'context'");
       EvPrint (report {| total := 1; count_ok := 0; count_fail := 1;
                          count_skip := 0; count_spoofed := 0 |})].
Proof. vm_compute. repeat split. Qed.

Lemma merge_is_last_writer_wins_witness :
  Forall2 (λ bundle d, pickle_loads_dialogue bundle.1 = Ok d)
    (omap value [extracted [x01] {[ "s1" := "un" ]}; extracted [x03] {[ "s2" := "deux" ]}])
    [ {[ "k1" := "a" ]}; {[ "k1" := "c" ]} ]
  ∧ ∃ merged_dialogue merged_strings,
      merge_translations
        [extracted [x01] {[ "s1" := "un" ]}; extracted [x03] {[ "s2" := "deux" ]}] ∅ ∅
        = Ok (merged_dialogue, merged_strings)
      ∧ merged_dialogue !! "k1" = Some "c"
      ∧ merged_strings !! "s1" = Some "un"
      ∧ merged_strings !! "s2" = Some "deux".
Proof.
  assert (Hloads :
    Forall2 (λ bundle d, pickle_loads_dialogue bundle.1 = Ok d)
      (omap value [extracted [x01] {[ "s1" := "un" ]};
                   extracted [x03] {[ "s2" := "deux" ]}])
      [ ({[ "k1" := "a" ]} : gmap string string); {[ "k1" := "c" ]} ])
    by (repeat constructor).
  split; [exact Hloads|].
  destruct (merge_is_last_writer_wins _ _ Hloads)
    as (merged_dialogue & merged_strings & Hmerge & Hdialogue & Hstrings & _ & _).
  exists merged_dialogue, merged_strings.
  split; [exact Hmerge|].
  split; [rewrite Hdialogue; reflexivity|].
  split; rewrite Hstrings; reflexivity.
Defined.

(** The two merges of the spec: disjoint keys, and a shared key. *)
Example merge_disjoint_bundles :
  merge_translations
    [extracted [x01] {[ "s1" := "un" ]}; extracted [x02] {[ "s2" := "deux" ]}] ∅ ∅
    = Ok (<[ "k2" := "b" ]> {[ "k1" := "a" ]},
          <[ "s2" := "deux" ]> {[ "s1" := "un" ]}).
Proof. vm_compute. reflexivity. Qed.

Example merge_shared_key :
  merge_translations [extracted [x01] ∅; extracted [x03] ∅] ∅ ∅
    = Ok ({[ "k1" := "c" ]}, ∅).
Proof. vm_compute. reflexivity. Qed.

Lemma invalid_arguments_abort_before_any_file_witness :
  (((comparable args_comparable = true ∨ no_pyexpr args_comparable = true)
    ∧ dump args_comparable = false)
   ∨ ((try_harder args_comparable = true ∨ dump args_comparable = true)
      ∧ (is_Some (write_translation_file args_comparable)
         ∨ is_Some (translation_file args_comparable)))
   ∨ (∃ out, write_translation_file args_comparable = Some out
             ∧ clobber args_comparable = false
             ∧ is_Some (files disk_good !! out)))
  ∧ ∃ message w',
      main args_comparable disk_good = (Ok (ArgumentError message), w')
      ∧ files w' = files disk_good
      ∧ (trace w' = trace disk_good
         ∨ ∃ out, write_translation_file args_comparable = Some out
                  ∧ trace w' = (trace disk_good ++ [EvExists out])%list).
Proof.
  assert (Hinvalid :
    ((comparable args_comparable = true ∨ no_pyexpr args_comparable = true)
     ∧ dump args_comparable = false)
    ∨ ((try_harder args_comparable = true ∨ dump args_comparable = true)
       ∧ (is_Some (write_translation_file args_comparable)
          ∨ is_Some (translation_file args_comparable)))
    ∨ (∃ out, write_translation_file args_comparable = Some out
              ∧ clobber args_comparable = false
              ∧ is_Some (files disk_good !! out)))
    by (left; split; [left|]; reflexivity).
  split; [exact Hinvalid|].
  exact (invalid_arguments_abort_before_any_file args_comparable disk_good Hinvalid).
Defined.

(** The third pre-flight check: the output translation file is there
    and [--clobber] is not given. *)
Example existing_translation_file_aborts :
  main args_write disk_translation
    = (Ok (ArgumentError error_translation_exists),
       emit (EvExists "/game/tl.pickle") disk_translation).
Proof. vm_compute. reflexivity. Qed.

(** Seven files on two processes go to the pool, five do not. *)
Example pool_for_seven_files :
  control_events
    (trace (snd (dispatch args_pool ["a"; "b"; "c"; "d"; "e"; "f"; "g"] (disk []))))
    = EvPool 2 :: map (EvWorker PoolProcess) ["a"; "b"; "c"; "d"; "e"; "f"; "g"].
Proof. vm_compute. reflexivity. Qed.

Example no_pool_for_five_files :
  control_events
    (trace (snd (dispatch args_pool ["a"; "b"; "c"; "d"; "e"] (disk []))))
    = map (EvWorker CallingThread) ["a"; "b"; "c"; "d"; "e"].
Proof. vm_compute. reflexivity. Qed.

(** A run over a good archive, a truncated one and one whose output is
    there already: the truncated one is counted as failed. *)
Example run_over_three_files :
  let run := main args_game disk_three in
  fst run = Ok Returned
  ∧ last (trace (snd run))
    = Some (EvPrint (report {| total := 3; count_ok := 1; count_fail := 1;
                               count_skip := 1; count_spoofed := 0 |})).
Proof. vm_compute. split; reflexivity. Qed.

(** Slot 1 missing, and a slot 1 that is not a zlib stream. *)
Example missing_slot_is_spoofed :
  final_state (worker args0 "/game/a.rpyc"
                 (disk [("/game/a.rpyc",
                         (magic ++ record 2 34 21 ++ record 0 0 0 ++ good_blob)%list)]))
    = Some spoofed.
Proof. vm_compute. reflexivity. Qed.

Example not_zlib_is_spoofed :
  final_state (worker args0 "/game/a.rpyc"
                 (disk [("/game/a.rpyc",
                         (magic ++ record 1 34 3 ++ record 0 0 0
                            ++ [x01; x02; x03])%list)]))
    = Some spoofed.
Proof. vm_compute. reflexivity. Qed.


Lemma read_ast_from_file_last_slot_1_witness :
  startswith dup_v2 magic = true
  ∧ slot_table dup_v2 10 [(1, 46, 3); (1, 49, 21)]
  ∧ Z.of_nat (length [(1, 46, 3); (1, 49, 21)]) < 0xFFFFFFFE
  ∧ last_record 1 [(1, 46, 3); (1, 49, 21)] = Some (1, 49, 21)
  ∧ record_bytes dup_v2 (1, 49, 21) = good_blob
  ∧ read_ast_from_file dup_v2 Context_init
      = load_contents false (record_bytes dup_v2 (1, 49, 21))
          (ctx_log slot_warning Context_init).
Proof.
  assert (Htable : slot_table dup_v2 10 [(1, 46, 3); (1, 49, 21)]).
  { cbn [slot_table]. split; [vm_compute; reflexivity|]. split; [discriminate|].
    split; [vm_compute; reflexivity|]. split; [discriminate|].
    exists 0, 0. vm_compute; reflexivity. }
  assert (Hlen : Z.of_nat (length [(1, 46, 3); (1, 49, 21)]) < 0xFFFFFFFE)
    by (vm_compute; reflexivity).
  split; [reflexivity|]. split; [exact Htable|]. split; [exact Hlen|].
  split; [reflexivity|]. split; [vm_compute; reflexivity|].
  exact (read_ast_from_file_last_slot_1 dup_v2 [(1, 46, 3); (1, 49, 21)] (1, 49, 21)
           Context_init eq_refl Htable Hlen eq_refl).
Defined.

Lemma ascending_slots_not_warned_witness :
  slot_table good_v2 10 [(1, 46, 21); (2, 67, 2)]
  ∧ Z.of_nat (length [(1, 46, 21); (2, 67, 2)]) < 0xFFFFFFFE
  ∧ map (λ r : slot_record, r.1.1) [(1, 46, 21); (2, 67, 2)] = seqZ 1 2
  ∧ ∃ chunks,
      slot_loop good_v2 (drop 10 good_v2) 1 ∅ false Context_init
        = (Ok chunks, Context_init)
      ∧ ∀ r, r ∈ [(1, 46, 21); (2, 67, 2)] →
             chunks !! r.1.1 = Some (record_bytes good_v2 r).
Proof.
  assert (Htable : slot_table good_v2 10 [(1, 46, 21); (2, 67, 2)]).
  { cbn [slot_table]. split; [vm_compute; reflexivity|]. split; [discriminate|].
    split; [vm_compute; reflexivity|]. split; [discriminate|].
    exists 0, 0. vm_compute; reflexivity. }
  assert (Hlen : Z.of_nat (length [(1, 46, 21); (2, 67, 2)]) < 0xFFFFFFFE)
    by (vm_compute; reflexivity).
  assert (Hids : map (λ r : slot_record, r.1.1) [(1, 46, 21); (2, 67, 2)]
                 = seqZ 1 (Z.of_nat (length [(1, 46, 21); (2, 67, 2)])))
    by (vm_compute; reflexivity).
  split; [exact Htable|]. split; [exact Hlen|]. split; [exact Hids|].
  exact (ascending_slots_not_warned good_v2 [(1, 46, 21); (2, 67, 2)] Context_init
           Htable Hlen Hids).
Defined.

Lemma read_ast_from_file_v1_witness :
  startswith good_blob magic = false
  ∧ read_ast_from_file good_blob Context_init
      = (Ok (PyList []), ctx_log (version_warning "6") Context_init).
Proof.
  assert (Hmagic : startswith good_blob magic = false) by (vm_compute; reflexivity).
  split; [exact Hmagic|].
  exact (read_ast_from_file_v1 good_blob Context_init Hmagic).
Defined.



Lemma printer_failure_leaves_output_witness :
  write_translation_file args0 = None
  ∧ load_translator (E := failing_printer) args0 = Ok None
  ∧ output_path "/game/a.rpyc" (dump args0) = Ok "/game/a.rpy"
  ∧ (clobber args0 = true ∨ files disk_game !! "/game/a.rpy" = None)
  ∧ files disk_game !! "/game/a.rpyc" = Some good_v2
  ∧ reader (E := failing_printer) (try_harder args0) good_v2
        (ctx_log ("Decompiling " ++ "/game/a.rpyc" ++ " to "
                  ++ path_name "/game/a.rpy" ++ "...") Context_init)
      = (Ok (PyList []), ctx_log "Decompiling /game/a.rpyc to a.rpy..." Context_init)
  ∧ pp_raised (pprint_result (E := failing_printer) (dump args0) (comparable args0)
                 (no_pyexpr args0) None (init_offset args0) (sl_custom_names args0)
                 (PyList [])
                 (ctx_log "Decompiling /game/a.rpyc to a.rpy..." Context_init))
      = Some printer_error
  ∧ ∃ context w',
      worker (E := failing_printer) args0 "/game/a.rpyc" disk_game = (Ok context, w')
      ∧ state context = Some fail
      ∧ last (log_contents context) = Some "NotImplementedError: unknown statement"
      ∧ files w' = <["/game/a.rpy" := [x23]]> (files disk_game).
Proof.
  assert (Hout : output_path "/game/a.rpyc" (dump args0) = Ok "/game/a.rpy")
    by (vm_compute; reflexivity).
  assert (Hfree : clobber args0 = true ∨ files disk_game !! "/game/a.rpy" = None)
    by (right; vm_compute; reflexivity).
  assert (Hfile : files disk_game !! "/game/a.rpyc" = Some good_v2)
    by (vm_compute; reflexivity).
  assert (Hread : reader (E := failing_printer) (try_harder args0) good_v2
                    (ctx_log ("Decompiling " ++ "/game/a.rpyc" ++ " to "
                              ++ path_name "/game/a.rpy" ++ "...") Context_init)
                  = (Ok (PyList []),
                     ctx_log "Decompiling /game/a.rpyc to a.rpy..." Context_init))
    by (vm_compute; reflexivity).
  split; [reflexivity|]. split; [reflexivity|]. split; [exact Hout|].
  split; [exact Hfree|]. split; [exact Hfile|]. split; [exact Hread|].
  split; [reflexivity|].
  exact (printer_failure_leaves_output (E := failing_printer) args0
           "/game/a.rpyc" "/game/a.rpy" None good_v2 (PyList [])
           (ctx_log "Decompiling /game/a.rpyc to a.rpy..." Context_init)
           printer_error disk_game eq_refl eq_refl Hout Hfree Hfile Hread eq_refl).
Defined.

Lemma failed_read_creates_no_output_witness :
  write_translation_file args0 = None
  ∧ load_translator args0 = Ok None
  ∧ output_path "/game/gone.rpyc" (dump args0) = Ok "/game/gone.rpy"
  ∧ (clobber args0 = true ∨ files disk_game !! "/game/gone.rpy" = None)
  ∧ files disk_game !! "/game/gone.rpyc" = None
  ∧ ∃ context w',
      worker args0 "/game/gone.rpyc" disk_game = (Ok context, w')
      ∧ files w' = files disk_game
      ∧ (state context = Some fail ∨ state context = Some spoofed).
Proof.
  assert (Hout : output_path "/game/gone.rpyc" (dump args0) = Ok "/game/gone.rpy")
    by (vm_compute; reflexivity).
  assert (Hfree : clobber args0 = true ∨ files disk_game !! "/game/gone.rpy" = None)
    by (right; vm_compute; reflexivity).
  assert (Hfile : files disk_game !! "/game/gone.rpyc" = None)
    by (vm_compute; reflexivity).
  split; [reflexivity|]. split; [reflexivity|]. split; [exact Hout|].
  split; [exact Hfree|]. split; [exact Hfile|].
  exact (failed_read_creates_no_output args0 "/game/gone.rpyc" "/game/gone.rpy"
           None disk_game eq_refl eq_refl Hout Hfree (or_introl Hfile)).
Defined.

Lemma other_suffix_fails_first_witness :
  write_translation_file args0 = None
  ∧ load_translator args0 = Ok None
  ∧ dump args0 = false
  ∧ path_suffix "/game/notes.txt" ≠ ".rpyc"
  ∧ path_suffix "/game/notes.txt" ≠ ".rpymc"
  ∧ worker args0 "/game/notes.txt" disk_game
    = (Ok {| log_contents := ["Error while decompiling " ++ "/game/notes.txt" ++ ":";
                              format_exc unbound_ext];
             state := Some fail; value := None |}, disk_game).
Proof.
  assert (Hrpyc : path_suffix "/game/notes.txt" ≠ ".rpyc")
    by (vm_compute; discriminate).
  assert (Hrpymc : path_suffix "/game/notes.txt" ≠ ".rpymc")
    by (vm_compute; discriminate).
  split; [reflexivity|]. split; [reflexivity|]. split; [reflexivity|].
  split; [exact Hrpyc|]. split; [exact Hrpymc|].
  exact (other_suffix_fails_first args0 "/game/notes.txt" None disk_game
           eq_refl eq_refl eq_refl Hrpyc Hrpymc).
Defined.

Lemma translator_failure_fails_first_witness :
  write_translation_file args_translated = None
  ∧ translation_file args_translated = Some "/game/tl.pickle"
  ∧ translations args_translated = Some [x00]
  ∧ pickle_loads_translations [x00] = Raise invalid_load_key
  ∧ worker args_translated "/game/a.rpyc" disk_game
    = (Ok {| log_contents := [error_header invalid_load_key "/game/a.rpyc";
                              format_exc invalid_load_key];
             state := Some fail; value := None |}, disk_game).
Proof.
  split; [reflexivity|]. split; [reflexivity|]. split; [reflexivity|].
  split; [reflexivity|].
  exact (translator_failure_fails_first args_translated "/game/a.rpyc"
           "/game/tl.pickle" [x00] invalid_load_key disk_game
           eq_refl eq_refl eq_refl eq_refl).
Defined.


Lemma output_path_replaces_suffix_witness :
  script_file "/game.v1/a.b.rpyc"
  ∧ output_path "/game.v1/a.b.rpyc" false = Ok "/game.v1/a.b.rpy"
  ∧ ∃ stem,
      "/game.v1/a.b.rpyc" = String.append stem (path_suffix "/game.v1/a.b.rpyc")
      ∧ output_path "/game.v1/a.b.rpyc" false
        = Ok (String.append stem
                (if false then ".txt"
                 else if String.eqb (path_suffix "/game.v1/a.b.rpyc") ".rpyc"
                      then ".rpy" else ".rpym"))
      ∧ output_path "/game.v1/a.b.rpyc" false ≠ Ok "/game.v1/a.b.rpyc".
Proof.
  assert (Hscript : script_file "/game.v1/a.b.rpyc")
    by (left; vm_compute; reflexivity).
  split; [exact Hscript|]. split; [vm_compute; reflexivity|].
  exact (output_path_replaces_suffix "/game.v1/a.b.rpyc" false Hscript).
Defined.

Lemma parse_sl_custom_name_format_witness :
  rfind "=" "Frame" = None
  ∧ rfind "=" "frame" = None
  ∧ rfind "-" "frame" = None
  ∧ parse_sl_custom_name "Frame=frame" = Ok ("Frame", ("frame", AmountMany))
  ∧ parse_sl_custom_name "Frame=frame-0" = Ok ("Frame", ("frame", AmountInt 0))
  ∧ parse_sl_custom_name "Frame=frame-1" = Ok ("Frame", ("frame", AmountInt 1))
  ∧ parse_sl_custom_name "Frame=frame-many" = Ok ("Frame", ("frame", AmountMany))
  ∧ ∀ amount,
      rfind "=" amount = None → rfind "-" amount = None →
      amount ≠ "0" → amount ≠ "1" → amount ≠ "many" →
      parse_sl_custom_name
          (String.append "Frame" (String "=" (String.append "frame" (String "-" amount))))
        = Raise (bad_count
                   (String.append "Frame"
                      (String "=" (String.append "frame" (String "-" amount))))).
Proof.
  split; [reflexivity|]. split; [reflexivity|]. split; [reflexivity|].
  exact (parse_sl_custom_name_format "Frame" "frame" eq_refl eq_refl eq_refl).
Defined.

Lemma bad_registration_ends_main_witness :
  (no_pyexpr args_registered || comparable args_registered)
    && negb (dump args_registered) = false
  ∧ (try_harder args_registered || dump args_registered)
      && truthy (language args_registered) = false
  ∧ write_translation_file args_registered = None
  ∧ translation_file args_registered = None
  ∧ sl_custom_names args_registered = SlUnparsed (["Frame=frame-1"] ++ "oops" :: ["x=y"])
  ∧ Forall (λ a, ∃ v, parse_sl_custom_name a = Ok v) ["Frame=frame-1"]
  ∧ rfind "=" "oops" = None
  ∧ parse_sl_custom_name "oops" = Raise (bad_format "oops")
  ∧ main args_registered disk_game
    = (Ok Returned,
       {| files := files disk_game;
          trace := trace disk_game
            ++ [EvPrint ("Bad format in custom sl displayable registration: "
                         ++ dq ++ "oops" ++ dq)] |}).
Proof.
  assert (Hpre : Forall (λ a, ∃ v, parse_sl_custom_name a = Ok v) ["Frame=frame-1"]).
  { constructor; [|constructor].
    exists ("Frame", ("frame", AmountInt 1)). vm_compute; reflexivity. }
  split; [reflexivity|]. split; [reflexivity|]. split; [reflexivity|].
  split; [reflexivity|]. split; [reflexivity|]. split; [exact Hpre|].
  split; [reflexivity|].
  exact (bad_registration_ends_main args_registered ["Frame=frame-1"] ["x=y"] "oops"
           disk_game eq_refl eq_refl eq_refl eq_refl eq_refl Hpre eq_refl).
Defined.

Lemma worklist_sorted_by_size_witness :
  Forall (λ p, is_Some (files disk_three !! p))
    ["/game/b.rpyc"; "/game/a.rpyc"; "/game/c.rpyc"]
  ∧ ∃ keyed w1,
      stat_all ["/game/b.rpyc"; "/game/a.rpyc"; "/game/c.rpyc"] disk_three
        = (Ok keyed, w1)
      ∧ files w1 = files disk_three
      ∧ sort_by_size keyed ≡ₚ ["/game/b.rpyc"; "/game/a.rpyc"; "/game/c.rpyc"]
      ∧ StronglySorted (λ a b, file_size disk_three b ≤ file_size disk_three a)
          (sort_by_size keyed)
      ∧ ∀ n, List.filter (λ p, file_size disk_three p =? n) (sort_by_size keyed)
             = List.filter (λ p, file_size disk_three p =? n)
                 ["/game/b.rpyc"; "/game/a.rpyc"; "/game/c.rpyc"].
Proof.
  assert (Hfiles : Forall (λ p, is_Some (files disk_three !! p))
                     ["/game/b.rpyc"; "/game/a.rpyc"; "/game/c.rpyc"]).
  { constructor; [eexists; vm_compute; reflexivity|].
    constructor; [eexists; vm_compute; reflexivity|].
    constructor; [eexists; vm_compute; reflexivity|]. constructor. }
  split; [exact Hfiles|].
  exact (worklist_sorted_by_size ["/game/b.rpyc"; "/game/a.rpyc"; "/game/c.rpyc"]
           disk_three Hfiles).
Defined.

Lemma tally_counts_and_replays_witness :
  Forall (λ c, is_Some (state c)) [result_ok; result_skip]
  ∧ ∃ state_count' w',
      tally [result_ok; result_skip] state_count_init disk_game = (Ok state_count', w')
      ∧ total state_count' = total state_count_init
      ∧ count_ok state_count'
        = count_ok state_count_init + count_results ok [result_ok; result_skip]
      ∧ count_fail state_count'
        = count_fail state_count_init + count_results fail [result_ok; result_skip]
      ∧ count_skip state_count'
        = count_skip state_count_init + count_results skip [result_ok; result_skip]
      ∧ count_spoofed state_count'
        = count_spoofed state_count_init + count_results spoofed [result_ok; result_skip]
      ∧ files w' = files disk_game
      ∧ trace w'
        = (trace disk_game
             ++ map EvPrint (concat (map log_contents [result_ok; result_skip])))%list.
Proof.
  assert (Hstates : Forall (λ c, is_Some (state c)) [result_ok; result_skip]).
  { constructor; [by exists ok|]. constructor; [by exists skip|]. constructor. }
  split; [exact Hstates|].
  exact (tally_counts_and_replays [result_ok; result_skip] state_count_init disk_game
           Hstates).
Defined.

Lemma run_always_reports_witness :
  ["/game/a.rpyc"; "/game/b.rpyc"; "/game/c.rpyc"] ≠ []
  ∧ Forall (λ p, is_Some (files disk_three !! p))
      ["/game/a.rpyc"; "/game/b.rpyc"; "/game/c.rpyc"]
  ∧ ∃ state_count w',
      process_worklist args_game ["/game/a.rpyc"; "/game/b.rpyc"; "/game/c.rpyc"]
          state_count_init disk_three
        = (Ok Returned, w')
      ∧ last (trace w') = Some (EvPrint (report state_count))
      ∧ total state_count
        = Z.of_nat (length ["/game/a.rpyc"; "/game/b.rpyc"; "/game/c.rpyc"])
      ∧ count_ok state_count + count_fail state_count
        + count_skip state_count + count_spoofed state_count
        = total state_count.
Proof.
  assert (Hsome : ["/game/a.rpyc"; "/game/b.rpyc"; "/game/c.rpyc"] ≠ [])
    by discriminate.
  assert (Hfiles : Forall (λ p, is_Some (files disk_three !! p))
                     ["/game/a.rpyc"; "/game/b.rpyc"; "/game/c.rpyc"]).
  { constructor; [eexists; vm_compute; reflexivity|].
    constructor; [eexists; vm_compute; reflexivity|].
    constructor; [eexists; vm_compute; reflexivity|]. constructor. }
  split; [exact Hsome|]. split; [exact Hfiles|].
  exact (run_always_reports args_game ["/game/a.rpyc"; "/game/b.rpyc"; "/game/c.rpyc"]
           disk_three Hsome Hfiles).
Defined.

Lemma plural_fmt_singular_only_for_1_witness :
  0 ≤ 1
  ∧ plural_fmt 1 = "1 file"
  ∧ plural_fmt 1 = pretty 1 ++ " file" ++ (if 1 =? 1 then "" else "s").
Proof.
  assert (Hpos : 0 ≤ 1) by lia.
  split; [exact Hpos|]. split; [vm_compute; reflexivity|].
  exact (plural_fmt_singular_only_for_1 1 Hpos).
Defined.


Lemma malformed_container_is_spoofed_witness :
  write_translation_file args0 = None
  ∧ try_harder args0 = false
  ∧ load_translator args0 = Ok None
  ∧ output_path "/game/a.rpyc" (dump args0) = Ok "/game/a.rpy"
  ∧ (clobber args0 = true
     ∨ files (disk [("/game/a.rpyc", odd_slots_v2)]) !! "/game/a.rpy" = None)
  ∧ files (disk [("/game/a.rpyc", odd_slots_v2)]) !! "/game/a.rpyc" = Some odd_slots_v2
  ∧ startswith odd_slots_v2 magic = true
  ∧ slot_table odd_slots_v2 10 [(3, 46, 1); (7, 47, 1)]
  ∧ Forall (λ r : slot_record, r.1.1 ≠ 1) [(3, 46, 1); (7, 47, 1)]
  ∧ ∃ context w',
      worker args0 "/game/a.rpyc" (disk [("/game/a.rpyc", odd_slots_v2)]) = (Ok context, w')
      ∧ state context = Some spoofed.
Proof.
  assert (Hout : output_path "/game/a.rpyc" (dump args0) = Ok "/game/a.rpy")
    by (vm_compute; reflexivity).
  assert (Hfree : clobber args0 = true
                  ∨ files (disk [("/game/a.rpyc", odd_slots_v2)]) !! "/game/a.rpy" = None)
    by (right; vm_compute; reflexivity).
  assert (Hfile : files (disk [("/game/a.rpyc", odd_slots_v2)]) !! "/game/a.rpyc"
                  = Some odd_slots_v2)
    by (vm_compute; reflexivity).
  assert (Htable : slot_table odd_slots_v2 10 [(3, 46, 1); (7, 47, 1)]).
  { cbn [slot_table]. split; [vm_compute; reflexivity|]. split; [discriminate|].
    split; [vm_compute; reflexivity|]. split; [discriminate|].
    exists 0, 0. vm_compute; reflexivity. }
  assert (Hlen : Z.of_nat (length [(3, 46, 1); (7, 47, 1)]) < 0xFFFFFFFE)
    by (vm_compute; reflexivity).
  assert (Hrecs : Forall (λ r : slot_record, r.1.1 ≠ 1) [(3, 46, 1); (7, 47, 1)]).
  { constructor; [discriminate|]. constructor; [discriminate|]. constructor. }
  split; [reflexivity|]. split; [reflexivity|]. split; [reflexivity|].
  split; [exact Hout|]. split; [exact Hfree|]. split; [exact Hfile|].
  split; [reflexivity|]. split; [exact Htable|]. split; [exact Hrecs|].
  exact (malformed_container_is_spoofed args0 "/game/a.rpyc" "/game/a.rpy" None
           odd_slots_v2 (disk [("/game/a.rpyc", odd_slots_v2)])
           eq_refl eq_refl eq_refl Hout Hfree Hfile
           (or_introl (conj eq_refl
              (ex_intro _ [(3, 46, 1); (7, 47, 1)] (conj Htable (conj Hlen Hrecs)))))).
Defined.


Lemma input_never_opened_for_writing_witness :
  script_file "/game/a.rpyc"
  ∧ trace (snd (worker args0 "/game/a.rpyc" disk_game))
    = [EvExists "/game/a.rpy"; EvOpenRead "/game/a.rpyc"; EvOpenWrite "/game/a.rpy"]
  ∧ ∃ evs,
      trace (snd (worker args0 "/game/a.rpyc" disk_game)) = (trace disk_game ++ evs)%list
      ∧ (EvOpenWrite "/game/a.rpyc" ∉ evs)
      ∧ (length (List.filter (opens_for_reading "/game/a.rpyc") evs) ≤ 1)%nat.
Proof.
  assert (Hscript : script_file "/game/a.rpyc")
    by (left; vm_compute; reflexivity).
  split; [exact Hscript|]. split; [vm_compute; reflexivity|].
  exact (input_never_opened_for_writing args0 "/game/a.rpyc" disk_game Hscript).
Defined.

End Instances.
